(** * photo-map-viewer: the metadata extraction pipeline

    A shallow embedding of [photos_util.py] (file discovery, EXIF tag
    resolution, coordinate conversion, record assembly) and, from
    [app.py], of [get_df] (day normalisation and the cache decision)
    and of the two callbacks, with the properties of the specification
    stated and proved over it.

    Conventions.
    - A Python [str] coming out of EXIF is a Latin-1 decoded byte string
      (Pillow decodes ASCII fields that way), a file name is the byte
      string the operating system holds: both are [string].
    - A Python [float] is an IEEE 754 binary64 number: [spec_float] with
      [prec = 53] and [emax = 1024], operations rounding to nearest even.
    - A function that can raise or print returns in the monad [M]: the
      lines printed so far and either a value or the exception raised. *)

From Stdlib Require Import ZArith List String Ascii Bool Lia SpecFloat DecimalString.
Import ListNotations.
Local Open Scope string_scope.
Local Open Scope list_scope.
Local Open Scope Z_scope.

(* ===================================================================== *)
(** ** Python strings *)
(* ===================================================================== *)

Module Str.

Definition code (c : ascii) : N := N_of_ascii c.

Definition is_upper (c : ascii) : bool := (65 <=? code c)%N && (code c <=? 90)%N.
Definition is_lower (c : ascii) : bool := (97 <=? code c)%N && (code c <=? 122)%N.
Definition is_digit (c : ascii) : bool := (48 <=? code c)%N && (code c <=? 57)%N.

(** [\s] of a [str] pattern, on the Latin-1 range. *)
Definition is_space (c : ascii) : bool :=
  let n := code c in
  ((9 <=? n)%N && (n <=? 13)%N) || ((28 <=? n)%N && (n <=? 32)%N)
  || (n =? 133)%N || (n =? 160)%N.

Definition lower_char (c : ascii) : ascii :=
  if is_upper c then ascii_of_N (code c + 32) else c.
Definition upper_char (c : ascii) : ascii :=
  if is_lower c then ascii_of_N (code c - 32) else c.

(** [s.lower()] and [s.upper()].  Only the ASCII letters change case
    here.  The other Latin-1 letters change to characters that are not
    ASCII letters (or, for the sharp s, to two letters), and in a file
    name no character outside ASCII lower-cases to a letter of .jpg,
    .jpeg or .heic, so membership of the result in the lists of ASCII
    words that the code tests is the same as in Python. *)
Fixpoint lower (s : string) : string :=
  match s with
  | EmptyString => EmptyString
  | String c s' => String (lower_char c) (lower s')
  end.

Fixpoint upper (s : string) : string :=
  match s with
  | EmptyString => EmptyString
  | String c s' => String (upper_char c) (upper s')
  end.

(** [x in l] for a list of strings. *)
Definition mem (x : string) (l : list string) : bool :=
  existsb (String.eqb x) l.

(** [s.rfind(c)], [None] standing for [-1]. *)
Fixpoint rfind (c : ascii) (s : string) : option nat :=
  match s with
  | EmptyString => None
  | String a s' =>
      match rfind c s' with
      | Some i => Some (S i)
      | None => if Ascii.eqb a c then Some O else None
      end
  end.

(** [str(n)] for an [int]. *)
Definition of_Z (n : Z) : string := NilZero.string_of_int (Z.to_int n).

End Str.

(* ===================================================================== *)
(** ** Python floats *)
(* ===================================================================== *)

Definition float : Type := spec_float.

Module F64.

Definition prec : Z := 53.
Definition emax : Z := 1024.

Definition add : float -> float -> float := SFadd prec emax.
Definition mul : float -> float -> float := SFmul prec emax.
Definition div : float -> float -> float := SFdiv prec emax.
Definition opp : float -> float := SFopp.
Definition leb : float -> float -> bool := SFleb.

(** The float nearest to an integer (ties to even); an infinity when
    the integer is out of range. *)
Definition of_Z (n : Z) : float := binary_normalize prec emax n 0 false.

Definition zero : float := S754_zero false.
Definition nan : float := S754_nan.

Definition is_nan (x : float) : bool :=
  match x with S754_nan => true | _ => false end.

Definition is_inf (x : float) : bool :=
  match x with S754_infinity _ => true | _ => false end.

(** A well-formed binary64 value: the mantissa of a finite number has
    the width its exponent asks for, and the exponent is in range. *)
Definition valid (x : float) : bool := valid_binary prec emax x.

(** A well-formed number that is neither an infinity nor a NaN. *)
Definition is_finite (x : float) : bool :=
  match x with
  | S754_zero _ => true
  | S754_finite _ m e => bounded prec emax m e
  | _ => false
  end.

(** [x >= 0] and [x <= 0]; both are false of a NaN. *)
Definition nonneg (x : float) : bool := leb zero x.
Definition nonpos (x : float) : bool := leb x zero.

(** A float given by an integer mantissa and a binary exponent,
    [m * 2^e], used to write constants such as 10.5 = 21 * 2^-1. *)
Definition of_bin (m e : Z) : float := binary_normalize prec emax m e false.

End F64.

(** The exponent that binary64 gives a number of [e] binary digits
    before the point. *)
Notation "'fexp64'" := (fexp F64.prec F64.emax).

(* ===================================================================== *)
(** ** Values, records and the file system *)
(* ===================================================================== *)

(** The exceptions the modelled code can raise. *)
Inductive exn : Type :=
| KeyError
| ValueError
| TypeError
| IndexError
| AttributeError
| OverflowError
| UnboundLocalError
| FileNotFoundError
| NotADirectoryError
| IsADirectoryError
| UnidentifiedImageError.

Inductive outcome (A : Type) : Type :=
| Ok (a : A)
| Raise (e : exn).
Arguments Ok {A} a.
Arguments Raise {A} e.

(** A component of a coordinate tuple, as far as [float(i)] tells
    components apart.  A rational of Pillow is the float it converts to.
    A [str] carries the value that the float literal grammar of Python
    gives it, [None] when it is not a float literal. *)
Inductive component : Type :=
| CFloat (x : float)
| CInt (n : Z)
| CStr (s : string) (lit : option float)
| CNone.

(** The value of an EXIF tag: text ([str]), bytes (what Pillow gives
    for a tag of type BYTE or UNDEFINED), a tuple, or a scalar
    integer. *)
Inductive value : Type :=
| VStr (s : string)
| VBytes (b : string)
| VTuple (l : list component)
| VInt (n : Z).

(** A key of a labelled tag dictionary.  [KName s] is the name [s], for
    the ids listed in the excerpts of the registries below.  For any
    other id [n] the key is left open as [KOther n]: it is the name
    that Pillow's registry gives [n], or [n] itself when the registry
    has none, and in either case it is none of the names that the code
    looks up.  No lookup is made under such a key. *)
Inductive key : Type :=
| KName (s : string)
| KOther (n : Z).

Definition key_eqb (a b : key) : bool :=
  match a, b with
  | KName s, KName t => String.eqb s t
  | KOther n, KOther m => Z.eqb n m
  | _, _ => false
  end.

Definition dict : Type := list (key * value).

(** [d.get(k)] on a dictionary built by a comprehension over the listed
    items: a later item with the same key replaces an earlier one. *)
Definition dict_get (k : key) (d : dict) : option value :=
  fold_left (fun acc kv => if key_eqb (fst kv) k then Some (snd kv) else acc) d None.

(** [datetime.datetime] to the second. *)
Record datetime : Type := mkDatetime {
  dt_year : Z; dt_month : Z; dt_day : Z;
  dt_hour : Z; dt_minute : Z; dt_second : Z
}.

(** A row of the data frame.  [D] is the type of the [day] column: [Z]
    as [construct_df] builds it, [daycell] in what [get_df] returns. *)
Record row (D : Type) : Type := mkRow {
  filename : string;
  datetime_ : datetime;
  latitude : float;
  longitude : float;
  day : D
}.
Arguments mkRow {D} _ _ _ _ _.
Arguments filename {D} _.
Arguments datetime_ {D} _.
Arguments latitude {D} _.
Arguments longitude {D} _.
Arguments day {D} _.

(** A data frame: its rows in index order.  The frame without rows is
    [pd.DataFrame()], which has no column either. *)
Definition frame (D : Type) : Type := list (row D).

(** The [day] column of a frame read from or written to the cache. *)
Inductive daycell : Type :=
| DayInt (n : Z)
| DayStr (s : string).

(** A [pathlib.Path]: its components below the root. *)
Definition path : Type := list string.

(** The EXIF block of an image: the items of the base directory and the
    items of the GPS sub-directory (no item when the block is absent),
    both keyed by numeric tag id. *)
Record exif : Type := mkExif {
  exif_items : list (Z * value);
  gps_ifd : list (Z * value)
}.

Inductive content : Type :=
| Image (e : exif)
| Table (df : frame daycell)   (* a CSV file, as the frame [pd.read_csv] parses from it *)
| Blob.                        (* any other file *)

#[local] Set Warnings "-register-all".
Inductive node : Type :=
| File (c : content)
| Dir (entries : list (string * node)).
#[local] Set Warnings "register-all".

Record world : Type := mkWorld {
  fs : node;      (* the root directory *)
  cwd : path      (* [os.getcwd()] *)
}.

(** What the code prints or writes. *)
Inductive event : Type :=
| PrintInvalidPath (p : path)          (* "<p> is not a valid path." *)
| PrintBadRef (ref : value)            (* "Incorrect hemisphere reference. ... got <ref> instead." *)
| PrintCounts (added total : nat)      (* "Number of photos added vs total: <i> <n>" *)
| ToCsv (p : path) (df : frame daycell). (* [df.to_csv(p, index=False)] *)

(* ===================================================================== *)
(** ** The monad of printing and raising *)
(* ===================================================================== *)

Definition M (A : Type) : Type := (list event * outcome A)%type.

Definition ret {A} (a : A) : M A := ([], Ok a).
Definition raise {A} (e : exn) : M A := ([], Raise e).
Definition emit (ev : event) : M unit := ([ev], Ok tt).

Definition bind {A B} (m : M A) (f : A -> M B) : M B :=
  match snd m with
  | Ok a => (fst m ++ fst (f a), snd (f a))
  | Raise e => (fst m, Raise e)
  end.

Definition lift {A} (o : outcome A) : M A := ([], o).

Notation "x <- m ;; k" := (bind m (fun x => k))
  (at level 61, m at next level, right associativity).
Notation "m ;;; k" := (bind m (fun _ => k))
  (at level 61, right associativity).

(** [try: m  except KeyError: continue]: [None] when [m] raised
    [KeyError]; any other exception goes on. *)
Definition except_KeyError {A} (m : M A) : M (option A) :=
  match snd m with
  | Ok a => (fst m, Ok (Some a))
  | Raise KeyError => (fst m, Ok None)
  | Raise e => (fst m, Raise e)
  end.

Fixpoint mapM {A B} (f : A -> M B) (l : list A) : M (list B) :=
  match l with
  | [] => ret []
  | a :: l' => b <- f a ;; bs <- mapM f l' ;; ret (b :: bs)
  end.

(* ===================================================================== *)
(** ** Coordinate conversion *)
(* ===================================================================== *)

(** [float(i)]. *)
Definition py_float (c : component) : outcome float :=
  match c with
  | CFloat x => Ok x
  | CInt n => if F64.is_inf (F64.of_Z n) then Raise OverflowError else Ok (F64.of_Z n)
  | CStr _ (Some x) => Ok x
  | CStr _ None => Raise ValueError
  | CNone => Raise TypeError
  end.

(** [ref.upper()]: a [str] and a [bytes] have the method, and on a
    [bytes] only the ASCII letters change. *)
Definition py_upper (ref : value) : outcome value :=
  match ref with
  | VStr s => Ok (VStr (Str.upper s))
  | VBytes b => Ok (VBytes (Str.upper b))
  | _ => Raise AttributeError
  end.

(** [u in l] for a list [l] of [str]: a [bytes] is equal to no [str]. *)
Definition py_in (u : value) (l : list string) : bool :=
  match u with
  | VStr s => Str.mem s l
  | _ => false
  end.

(** The one-character strings a [str] yields when iterated. *)
Fixpoint chars (s : string) : list component :=
  match s with
  | EmptyString => []
  | String c s' =>
      CStr (String c EmptyString)
           (if Str.is_digit c then Some (F64.of_Z (Z.of_N (Str.code c) - 48)) else None)
      :: chars s'
  end.

(** [for i in coords]: a [bytes] yields its bytes as integers. *)
Definition py_iter (coords : value) : outcome (list component) :=
  match coords with
  | VTuple l => Ok l
  | VStr s => Ok (chars s)
  | VBytes b => Ok (map (fun c => CInt (Z.of_N (Str.code c))) (list_ascii_of_string b))
  | VInt _ => Raise TypeError
  end.

(** [coords[i]] on the list of floats. *)
Definition py_index (l : list float) (i : nat) : outcome float :=
  match nth_error l i with
  | Some x => Ok x
  | None => Raise IndexError
  end.

(** [c0 + c1 / 60 + c2 / 3600]. *)
Definition dms (c0 c1 c2 : float) : float :=
  F64.add (F64.add c0 (F64.div c1 (F64.of_Z 60))) (F64.div c2 (F64.of_Z 3600)).

(** The local [mul] is [None] while it is unbound. *)
Definition convert_coords_to_decimal (coords ref : value) : M float :=
  u <- lift (py_upper ref) ;;
  mul <- (if py_in u ["W"; "S"] then ret (Some (-1))
          else if py_in u ["E"; "N"] then ret (Some 1)
          else emit (PrintBadRef ref) ;;; ret None) ;;
  items <- lift (py_iter coords) ;;
  coords' <- mapM (fun i => lift (py_float i)) items ;;
  m <- lift (match mul with Some m => Ok m | None => Raise UnboundLocalError end) ;;
  c0 <- lift (py_index coords' 0) ;;
  c1 <- lift (py_index coords' 1) ;;
  c2 <- lift (py_index coords' 2) ;;
  ret (F64.mul (F64.of_Z m) (dms c0 c1 c2)).

(* ===================================================================== *)
(** ** Parsing the capture time *)
(* ===================================================================== *)

(** [datetime.strptime(s, '%Y:%m:%d %H:%M:%S')].  The standard library
    turns the format into a regular expression, one named group per
    directive with its alternatives tried in order, [\s+] for the blank,
    matches it at the start of [s], refuses text left over, and builds
    the [datetime], which checks the ranges of the fields. *)
Module Strptime.

Definition cls : Type := ascii -> bool.

Definition ch (c : ascii) : cls := Ascii.eqb c.
Definition rng (a b : ascii) : cls :=
  fun c => (Str.code a <=? Str.code c)%N && (Str.code c <=? Str.code b)%N.
Definition dg : cls := Str.is_digit.

(** One alternative: a fixed sequence of character classes. *)
Fixpoint take_seq (p : list cls) (s : list ascii) : option (list ascii * list ascii) :=
  match p with
  | [] => Some ([], s)
  | f :: p' =>
      match s with
      | c :: s' =>
          if f c then
            match take_seq p' s' with
            | Some (g, r) => Some (c :: g, r)
            | None => None
            end
          else None
      | [] => None
      end
  end.

(** A group: the first alternative after which the rest of the pattern
    [k] matches. *)
Fixpoint group {A} (alts : list (list cls)) (s : list ascii)
         (k : list ascii -> list ascii -> option A) : option A :=
  match alts with
  | [] => None
  | p :: ps =>
      match take_seq p s with
      | Some (g, r) =>
          match k g r with
          | Some a => Some a
          | None => group ps s k
          end
      | None => group ps s k
      end
  end.

Definition lit {A} (c : ascii) (s : list ascii) (k : list ascii -> option A) : option A :=
  match s with
  | c' :: s' => if Ascii.eqb c' c then k s' else None
  | [] => None
  end.

(** [\s*] and [\s+], greedy, giving blanks back when [k] fails. *)
Fixpoint spaces {A} (s : list ascii) (k : list ascii -> option A) : option A :=
  match s with
  | c :: s' =>
      if Str.is_space c then
        match spaces s' k with
        | Some a => Some a
        | None => k s
        end
      else k s
  | [] => k []
  end.

Definition spaces1 {A} (s : list ascii) (k : list ascii -> option A) : option A :=
  match s with
  | c :: s' => if Str.is_space c then spaces s' k else None
  | [] => None
  end.

Definition re_Y : list (list cls) := [[dg; dg; dg; dg]].
Definition re_m : list (list cls) :=
  [[ch "1"; rng "0" "2"]; [ch "0"; rng "1" "9"]; [rng "1" "9"]].
Definition re_d : list (list cls) :=
  [[ch "3"; rng "0" "1"]; [rng "1" "2"; dg]; [ch "0"; rng "1" "9"];
   [rng "1" "9"]; [ch " "; rng "1" "9"]].
Definition re_H : list (list cls) :=
  [[ch "2"; rng "0" "3"]; [rng "0" "1"; dg]; [dg]].
Definition re_M : list (list cls) := [[rng "0" "5"; dg]; [dg]].
Definition re_S : list (list cls) := [[ch "6"; rng "0" "1"]; [rng "0" "5"; dg]; [dg]].

(** [int(g)] of a matched group: digits, after a blank for the day. *)
Definition int_of (g : list ascii) : Z :=
  fold_left (fun acc c => if Str.is_digit c then 10 * acc + (Z.of_N (Str.code c) - 48) else acc) g 0.

Record fields : Type := mkFields {
  f_Y : Z; f_m : Z; f_d : Z; f_H : Z; f_M : Z; f_S : Z;
  f_rest : list ascii   (* the text after the match *)
}.

Definition re_match (s : list ascii) : option fields :=
  group re_Y s (fun gY s =>
  lit ":" s (fun s =>
  group re_m s (fun gm s =>
  lit ":" s (fun s =>
  group re_d s (fun gd s =>
  spaces1 s (fun s =>
  group re_H s (fun gH s =>
  lit ":" s (fun s =>
  group re_M s (fun gM s =>
  lit ":" s (fun s =>
  group re_S s (fun gS s =>
  Some (mkFields (int_of gY) (int_of gm) (int_of gd)
                 (int_of gH) (int_of gM) (int_of gS) s)))))))))))).

Definition is_leap (y : Z) : bool :=
  ((y mod 4 =? 0)%Z && negb (y mod 100 =? 0)%Z) || (y mod 400 =? 0)%Z.

Definition days_in_month (y m : Z) : Z :=
  if (m =? 2)%Z then (if is_leap y then 29 else 28)
  else if (m =? 4)%Z || (m =? 6)%Z || (m =? 9)%Z || (m =? 11)%Z then 30
  else 31.

Definition strptime (s : string) : outcome datetime :=
  match re_match (list_ascii_of_string s) with
  | None => Raise ValueError                      (* does not match format *)
  | Some f =>
      match f_rest f with
      | _ :: _ => Raise ValueError                (* unconverted data remains *)
      | [] =>
          if (1 <=? f_Y f) && (f_Y f <=? 9999)
             && (1 <=? f_m f) && (f_m f <=? 12)
             && (1 <=? f_d f) && (f_d f <=? days_in_month (f_Y f) (f_m f))
             && (f_H f <=? 23) && (f_M f <=? 59) && (f_S f <=? 59)
          then Ok (mkDatetime (f_Y f) (f_m f) (f_d f) (f_H f) (f_M f) (f_S f))
          else Raise ValueError                   (* field out of range *)
      end
  end.

End Strptime.

(** [datetime.strptime(v, '%Y:%m:%d %H:%M:%S')] on a tag value. *)
Definition py_strptime (v : value) : outcome datetime :=
  match v with
  | VStr s => Strptime.strptime s
  | _ => Raise TypeError
  end.

(* ===================================================================== *)
(** ** Paths and the file system *)
(* ===================================================================== *)

(** [p.name]: the last component. *)
Definition name (p : path) : string := last p "".

(** The suffix of a file name: from its last dot on, when that dot is
    neither the first nor the last character. *)
Definition suffix_of_name (n : string) : string :=
  match Str.rfind "." n with
  | Some i =>
      if (0 <? i)%nat && (i <? String.length n - 1)%nat
      then substring i (String.length n - i) n
      else ""
  | None => ""
  end.

(** [p.suffix]. *)
Definition suffix (p : path) : string := suffix_of_name (name p).

(** [directory_path / p]. *)
Definition joinpath (d : path) (p : string) : path := d ++ [p].

Fixpoint lookup_entry (n : string) (es : list (string * node)) : option node :=
  match es with
  | [] => None
  | (n', x) :: es' => if String.eqb n' n then Some x else lookup_entry n es'
  end.

Fixpoint resolve (root : node) (p : path) : option node :=
  match p with
  | [] => Some root
  | n :: p' =>
      match root with
      | Dir es =>
          match lookup_entry n es with
          | Some x => resolve x p'
          | None => None
          end
      | File _ => None
      end
  end.

(** Whether [p] runs through a regular file: one of its components but
    the last is a file and not a directory. *)
Fixpoint through_file (root : node) (p : path) : bool :=
  match p with
  | [] => false
  | n :: p' =>
      match root with
      | Dir es =>
          match lookup_entry n es with
          | Some x => through_file x p'
          | None => false
          end
      | File _ => true
      end
  end.

(** What opening a path that leads nowhere raises: [ENOTDIR] when the
    path runs through a regular file, [ENOENT] otherwise. *)
Definition open_error (w : world) (p : path) : exn :=
  if through_file (fs w) p then NotADirectoryError else FileNotFoundError.

(** [os.path.exists(p)]. *)
Definition path_exists (w : world) (p : path) : bool :=
  match resolve (fs w) p with Some _ => true | None => false end.

(** [os.listdir(p)]: the names of the entries of the directory, files
    and sub-directories alike, in the order the system lists them. *)
Definition listdir (w : world) (p : path) : M (list string) :=
  match resolve (fs w) p with
  | Some (Dir es) => ret (map fst es)
  | Some (File _) => raise NotADirectoryError
  | None => raise (open_error w p)
  end.

(** [pd.read_csv(p)]; the parser errors of pandas are [ValueError]s. *)
Definition read_csv (w : world) (p : path) : M (frame daycell) :=
  match resolve (fs w) p with
  | Some (File (Table df)) => ret df
  | Some (File _) => raise ValueError
  | Some (Dir _) => raise IsADirectoryError
  | None => raise (open_error w p)
  end.

(* ===================================================================== *)
(** ** photos_util.py *)
(* ===================================================================== *)

(** Pillow's registries [TAGS] and [GPSTAGS] map numeric tag ids to
    names.  Of their entries (some 270 and 32) these excerpts list the
    ones whose names the code asks for, ["DateTime"] and ["GPSInfo"] in
    [TAGS], the latitude and longitude tags in [GPSTAGS], and a few of
    their neighbours; no id outside the excerpts bears one of those
    names. *)
Definition TAGS : list (Z * string) :=
  [ (256, "ImageWidth"); (257, "ImageLength"); (271, "Make"); (272, "Model");
    (274, "Orientation"); (305, "Software"); (306, "DateTime");
    (34665, "ExifOffset"); (34853, "GPSInfo") ].

Definition GPSTAGS : list (Z * string) :=
  [ (0, "GPSVersionID"); (1, "GPSLatitudeRef"); (2, "GPSLatitude");
    (3, "GPSLongitudeRef"); (4, "GPSLongitude"); (5, "GPSAltitudeRef");
    (6, "GPSAltitude"); (7, "GPSTimeStamp"); (29, "GPSDateStamp") ].

(** [registry.get(key, key)], on an excerpt of the registry: the key of
    an id that the excerpt does not list is left open. *)
Fixpoint tag_get (registry : list (Z * string)) (k : Z) : key :=
  match registry with
  | [] => KOther k
  | (k', n) :: r => if k' =? k then KName n else tag_get r k
  end.

Definition default_extensions : list string := [".jpg"; ".jpeg"; ".heic"].

Definition get_photos_from_path (w : world) (directory_path : path)
           (extensions : list string) : M (option (list path)) :=
  if negb (path_exists w directory_path) then
    emit (PrintInvalidPath directory_path) ;;;
    ret None
  else
    names <- listdir w directory_path ;;
    let photos :=
      map (joinpath directory_path)
          (filter (fun p => Str.mem (Str.lower (suffix [p])) extensions) names) in
    ret (Some photos).

(** [Image.open(filepath)]; the image is known by its EXIF block. *)
Definition get_image (w : world) (filepath : path) : M exif :=
  match resolve (fs w) filepath with
  | Some (File (Image e)) => ret e
  | Some (File _) => raise UnidentifiedImageError
  | Some (Dir _) => raise IsADirectoryError
  | None => raise (open_error w filepath)
  end.

(** [image.getexif()]. *)
Definition get_exif (image : exif) : exif := image.

Definition get_labeled_exif (e : exif) : dict :=
  map (fun kv => (tag_get TAGS (fst kv), snd kv)) (exif_items e).

(** [exif.get_ifd(key)]; only the GPS directory is ever asked for. *)
Definition get_ifd (e : exif) (k : Z) : list (Z * value) :=
  if k =? 34853 then gps_ifd e else [].

(** The loop over [TAGS.items()] returns at the first id named
    ["GPSInfo"], and [None] when there is none.  The one id of that
    name, 34853, is in the excerpt, so the loop over the excerpt
    returns what the loop over the registry does. *)
Fixpoint get_gps_info_from (registry : list (Z * string)) (e : exif) : option dict :=
  match registry with
  | [] => None
  | (k, v) :: r =>
      if String.eqb v "GPSInfo"
      then Some (map (fun kv => (tag_get GPSTAGS (fst kv), snd kv)) (get_ifd e k))
      else get_gps_info_from r e
  end.

Definition get_gps_info (e : exif) : option dict := get_gps_info_from TAGS e.

(** [d[k]], on a dictionary or on [None]. *)
Definition subscript (d : option dict) (k : string) : M value :=
  match d with
  | None => raise TypeError
  | Some d =>
      match dict_get (KName k) d with
      | Some v => ret v
      | None => raise KeyError
      end
  end.

(** The body of the [try] of [construct_df]. *)
Definition make_record (photo : path) (img_tags : dict) (img_gps : option dict) : M (row Z) :=
  lat <- subscript img_gps "GPSLatitude" ;;
  latref <- subscript img_gps "GPSLatitudeRef" ;;
  latitude <- convert_coords_to_decimal lat latref ;;
  lon <- subscript img_gps "GPSLongitude" ;;
  lonref <- subscript img_gps "GPSLongitudeRef" ;;
  longitude <- convert_coords_to_decimal lon lonref ;;
  dt <- subscript (Some img_tags) "DateTime" ;;
  date <- lift (py_strptime dt) ;;
  ret (mkRow (name photo) date latitude longitude (dt_day date)).

(** The [for] loop of [construct_df], from the frame [df] and the
    counter [i] reached so far. *)
Fixpoint construct_df_loop (w : world) (photos : list path) (df : frame Z) (i : nat)
  : M (frame Z * nat) :=
  match photos with
  | [] => ret (df, i)
  | photo :: rest =>
      if negb (Str.mem (Str.lower (suffix photo)) [".jpg"; ".jpeg"; ".heic"]) then
        construct_df_loop w rest df i
      else
        img <- get_image w photo ;;
        let img_exif := get_exif img in
        let img_tags := get_labeled_exif img_exif in
        let img_gps := get_gps_info img_exif in
        d <- except_KeyError (make_record photo img_tags img_gps) ;;
        match d with
        | None => construct_df_loop w rest df i
        | Some d => construct_df_loop w rest (df ++ [d]) (S i)
        end
  end.

(** [photos] is [None] when the caller passes [None]. *)
Definition construct_df (w : world) (photos : option (list path)) : M (frame Z) :=
  match photos with
  | None => raise TypeError          (* 'NoneType' object is not iterable *)
  | Some l =>
      r <- construct_df_loop w l [] O ;;
      emit (PrintCounts (snd r) (List.length l)) ;;;
      ret (fst r)
  end.

(* ===================================================================== *)
(** ** app.py *)
(* ===================================================================== *)

Definition ASSETS_PATH (w : world) : path := joinpath (cwd w) "assets".

(** [df.day]: the empty frame has no such column. *)
Definition col_day {D} (df : frame D) : M (list D) :=
  match df with
  | [] => raise AttributeError
  | _ => ret (map day df)
  end.

(** [s.min()] of a series that has a first element. *)
Definition series_min (s : list Z) : Z :=
  match s with
  | [] => 0
  | d :: s' => fold_left Z.min s' d
  end.

(** [s - k] for a scalar [k]. *)
Definition series_sub (s : list Z) (k : Z) : list Z := map (fun d => d - k) s.

(** [s.astype(str)]. *)
Definition astype_str (s : list Z) : list daycell := map (fun d => DayStr (Str.of_Z d)) s.

(** [df.day = s]: the column is replaced cell by cell. *)
Fixpoint set_day {D E} (df : frame D) (s : list E) : frame E :=
  match df, s with
  | r :: df', d :: s' =>
      mkRow (filename r) (datetime_ r) (latitude r) (longitude r) d :: set_day df' s'
  | _, _ => []
  end.

(** [df.day - (df.day.min() - 1)]. *)
Definition normalize_days (s : list Z) : list Z := series_sub s (series_min s - 1).

(** [df.day = df.day - (df.day.min() - 1)]. *)
Definition day_to_one (df : frame Z) : M (frame Z) :=
  s <- col_day df ;;
  ret (set_day df (normalize_days s)).

(** [df.day = df.day.astype(str)]. *)
Definition day_to_str (df : frame Z) : M (frame daycell) :=
  s <- col_day df ;;
  ret (set_day df (astype_str s)).

Definition get_df (w : world) : M (frame daycell) :=
  let cur_dir := cwd w in
  if path_exists w (joinpath cur_dir "saved_df.csv") then
    read_csv w (joinpath cur_dir "saved_df.csv")
  else
    photo_list <- get_photos_from_path w (ASSETS_PATH w) default_extensions ;;
    df <- construct_df w photo_list ;;
    df <- day_to_one df ;;
    df <- day_to_str df ;;
    emit (ToCsv (joinpath cur_dir "saved_df.csv") df) ;;;
    ret df.

(** ** Auxiliary notions for the statements *)

(** The row [r] with another [day]. *)
Definition with_day {D E} (r : row D) (d : E) : row E :=
  mkRow (filename r) (datetime_ r) (latitude r) (longitude r) d.

(** One turn of the loop of [construct_df]: [None] when the file is
    passed over, the new row otherwise. *)
Definition process (w : world) (photo : path) : M (option (row Z)) :=
  if negb (Str.mem (Str.lower (suffix photo)) [".jpg"; ".jpeg"; ".heic"]) then ret None
  else
    img <- get_image w photo ;;
    except_KeyError (make_record photo (get_labeled_exif (get_exif img))
                                 (get_gps_info (get_exif img))).

(** pandas counts a NaN as a missing value ([isnull]). *)
Definition isnull (x : float) : bool := F64.is_nan x.

(** A name that discovery keeps under the default extensions. *)
Definition is_photo_name (n : string) : bool :=
  Str.mem (Str.lower (suffix_of_name n)) default_extensions.

(** The sign a float carries; a NaN carries none. *)
Definition signed (s : bool) (x : float) : Prop :=
  match x with
  | S754_nan => False
  | S754_zero s' | S754_infinity s' | S754_finite s' _ _ => s' = s
  end.

(** Zero of either sign, a positive number or plus infinity: the floats
    [x] with [x >= 0]. *)
Definition pos_or_zero (x : float) : Prop :=
  match x with
  | S754_zero _ => True
  | S754_nan => False
  | S754_infinity s | S754_finite s _ _ => s = false
  end.

Definition neg_or_zero (x : float) : Prop :=
  match x with
  | S754_zero _ => True
  | S754_nan => False
  | S754_infinity s | S754_finite s _ _ => s = true
  end.

(** A zero or a finite number, whatever its mantissa. *)
Definition fin_or_zero (x : float) : Prop :=
  match x with
  | S754_zero _ | S754_finite _ _ _ => True
  | _ => False
  end.

(** The components of a coordinate value that convert to a float
    convert to a finite one: none is a NaN or an infinity. *)
Definition finite_components (v : value) : Prop :=
  forall items c x,
    py_iter v = Ok items -> In c items -> py_float c = Ok x -> F64.is_finite x = true.

Definition finite_coordinates (img : exif) : Prop :=
  forall gps v,
    get_gps_info img = Some gps ->
    dict_get (KName "GPSLatitude") gps = Some v
    \/ dict_get (KName "GPSLongitude") gps = Some v ->
    finite_components v.

(* ===================================================================== *)
(** ** Sample run directories *)
(* ===================================================================== *)

(** The tags of a complete photo: 10 deg 30' 0" N, 20 deg 0' 0" E. *)
Definition sample_exif : exif :=
  mkExif [(306, VStr "2023:07:15 10:20:30")]
         [(1, VStr "N"); (2, VTuple [CInt 10; CInt 30; CInt 0]);
          (3, VStr "E"); (4, VTuple [CInt 20; CInt 0; CInt 0])].

(** A run directory whose [assets] holds two photos, a text file, a
    file without a suffix and an album directory with a photo inside. *)
Definition sample_world : world :=
  mkWorld
    (Dir [("trip",
           Dir [("assets",
                 Dir [("IMG_1.JPG", File (Image sample_exif));
                      ("notes.txt", File Blob);
                      (".heic", File Blob);
                      ("album", Dir [("inner.jpg", File (Image sample_exif))]);
                      ("b.Heic", File (Image sample_exif))])])])
    ["trip"].

(** The row of [IMG_1.JPG]. *)
Definition sample_row : row Z :=
  mkRow "IMG_1.JPG" (mkDatetime 2023 7 15 10 20 30) (F64.of_bin 21 (-1)) (F64.of_Z 20) 15.

(** A picture in a format the loop does not accept, with complete tags. *)
Definition png_world : world :=
  mkWorld (Dir [("trip", Dir [("assets", Dir [("pic.png", File (Image sample_exif))])])])
          ["trip"].

(** A run directory whose [assets] holds a photo and a sub-directory
    that is named like a photo. *)
Definition album_world : world :=
  mkWorld
    (Dir [("trip",
           Dir [("assets",
                 Dir [("IMG_1.JPG", File (Image sample_exif));
                      ("album.jpg", Dir [("inner.jpg", File (Image sample_exif))])])])])
    ["trip"].

Definition good_gps : list (Z * value) :=
  [(1, VStr "N"); (2, VTuple [CInt 10; CInt 30; CInt 0]);
   (3, VStr "E"); (4, VTuple [CInt 20; CInt 0; CInt 0])].

(** [b.jpg] has a capture time with dashes, [c.jpg] a latitude whose
    degrees are the text "abc", [m.jpg] an unknown hemisphere letter and
    no longitude, [g.jpg] no GPS block at all; [a.jpg] and [d.jpg] are
    complete. *)
Definition batch_world : world :=
  mkWorld
    (Dir [("trip",
           Dir [("assets",
                 Dir [("a.jpg", File (Image sample_exif));
                      ("b.jpg", File (Image (mkExif [(306, VStr "2023-07-15 10:20:30")] good_gps)));
                      ("c.jpg", File (Image (mkExif [(306, VStr "2023:07:16 10:20:30")]
                                   [(1, VStr "N"); (2, VTuple [CStr "abc" None; CInt 30; CInt 0]);
                                    (3, VStr "E"); (4, VTuple [CInt 20; CInt 0; CInt 0])])));
                      ("m.jpg", File (Image (mkExif [(306, VStr "2023:07:16 10:20:30")]
                                   [(1, VStr "X"); (2, VTuple [CInt 10; CInt 30; CInt 0])])));
                      ("g.jpg", File (Image (mkExif [(306, VStr "2023:07:16 10:20:30")] [])));
                      ("d.jpg", File (Image (mkExif [(306, VStr "2023:07:17 08:00:00")] good_gps)))])])])
    ["trip"].

Definition in_assets (n : string) : path := ["trip"; "assets"; n].

Definition row_a : row Z :=
  mkRow "a.jpg" (mkDatetime 2023 7 15 10 20 30) (F64.of_bin 21 (-1)) (F64.of_Z 20) 15.
Definition row_d : row Z :=
  mkRow "d.jpg" (mkDatetime 2023 7 17 8 0 0) (F64.of_bin 21 (-1)) (F64.of_Z 20) 17.

(** A run directory with neither cache nor assets. *)
Definition empty_world : world := mkWorld (Dir [("trip", Dir [])]) ["trip"].


(** [n.jpg] was written without a GPS fix: the degrees of its latitude
    are the rational 0/0, which converts to a NaN. *)
Definition nan_world : world :=
  mkWorld
    (Dir [("trip",
           Dir [("assets",
                 Dir [("n.jpg", File (Image (mkExif [(306, VStr "2023:07:15 10:20:30")]
                                   [(1, VStr "N"); (2, VTuple [CFloat F64.nan; CInt 0; CInt 0]);
                                    (3, VStr "E"); (4, VTuple [CInt 20; CInt 0; CInt 0])])))])])])
    ["trip"].

Definition nan_row : row daycell :=
  mkRow "n.jpg" (mkDatetime 2023 7 15 10 20 30) F64.nan (F64.of_Z 20) (DayStr "1").

(** A run directory with a single complete photo. *)
Definition one_photo_world : world :=
  mkWorld (Dir [("trip", Dir [("assets", Dir [("IMG_1.JPG", File (Image sample_exif))])])])
          ["trip"].

Definition one_photo_row : row daycell :=
  mkRow "IMG_1.JPG" (mkDatetime 2023 7 15 10 20 30) (F64.of_bin 21 (-1)) (F64.of_Z 20)
        (DayStr "1").

(* ===================================================================== *)
(** ** app.py: the callbacks *)
(* ===================================================================== *)

(** [s.startswith(p)]. *)
Fixpoint startswith (s p : string) : bool :=
  match p with
  | EmptyString => true
  | String a p' =>
      match s with
      | EmptyString => false
      | String b s' => Ascii.eqb a b && startswith s' p'
      end
  end.

(** [s.endswith(p)]. *)
Definition endswith (s p : string) : bool :=
  (String.length p <=? String.length s)%nat
  && String.eqb (substring (String.length s - String.length p) (String.length p) s) p.

(** [s.replace(old, new)] for an [old] that is not empty: the
    occurrences of [old] are replaced from left to right, an occurrence
    that overlaps a replaced one being passed over.  [skip] counts the
    characters of the replaced occurrence that are still to pass. *)
Fixpoint replace_from (old new : string) (skip : nat) (s : string) : string :=
  match s with
  | EmptyString => EmptyString
  | String c s' =>
      match skip with
      | S k => replace_from old new k s'
      | O =>
          if startswith s old
          then new ++ replace_from old new (String.length old - 1) s'
          else String c (replace_from old new O s')
      end
  end.

Definition replace (s old new : string) : string := replace_from old new O s.

(** A number of a literal or of a JSON message: an [int] or a [float]. *)
Inductive num : Type :=
| NInt (n : Z)
| NFloat (x : float).

Record region : Type := mkRegion { r_lat : num; r_lon : num; r_zoom : num }.

(** The dictionary [regions]; a decimal literal is written as the
    binary64 number it denotes. *)
Definition regions : list (string * region) :=
  [ ("world", mkRegion (NInt 0) (NInt 0) (NInt 1));
    ("europe", mkRegion (NFloat (F64.of_bin 7090143557108892 (-47)))     (* 50.3785 *)
                        (NFloat (F64.of_bin 8427698572689093 (-49)))     (* 14.9706 *)
                        (NInt 3));
    ("usa", mkRegion (NFloat (F64.of_bin 5219981590596787 (-47)))        (* 37.0902 *)
                     (NFloat (F64.of_bin (-6735196574602337) (-46)))     (* -95.7129 *)
                     (NInt 3));
    ("rome", mkRegion (NFloat (F64.of_bin 5897292293780848 (-47)))       (* 41.902782 *)
                      (NFloat (F64.of_bin 7034828657635667 (-49)))       (* 12.496366 *)
                      (NInt 11));
    ("pompeii", mkRegion (NFloat (F64.of_bin 5735193387967971 (-47)))    (* 40.7510 *)
                         (NFloat (F64.of_bin 8155455975214547 (-49)))    (* 14.4870 *)
                         (NInt 12));
    ("florence", mkRegion (NFloat (F64.of_bin 6160018222292807 (-47)))   (* 43.769562 *)
                          (NFloat (F64.of_bin 6336459967018952 (-49)))   (* 11.255814 *)
                          (NInt 11));
    ("antibes", mkRegion (NFloat (F64.of_bin 6130864170105024 (-47)))    (* 43.56241 *)
                         (NFloat (F64.of_bin 8003245566808493 (-50)))    (* 7.10831 *)
                         (NInt 11));
    ("mallorca", mkRegion (NFloat (F64.of_bin 5588736046610906 (-47)))   (* 39.710358 *)
                          (NFloat (F64.of_bin 6744473708359743 (-51)))   (* 2.995148 *)
                          (NInt 9));
    ("barcelona", mkRegion (NFloat (F64.of_bin 5825153494212139 (-47)))  (* 41.390205 *)
                           (NFloat (F64.of_bin 4850392561276720 (-51)))  (* 2.154007 *)
                           (NInt 12)) ].

(** The options of the dropdown [dropdown-map-region], label and value,
    and the value it starts with. *)
Definition dropdown_options : list (string * string) :=
  [ ("World", "world"); ("Europe", "europe"); ("United States", "usa");
    ("Rome, Italy", "rome"); ("Pompeii, Italy", "pompeii");
    ("Florence, Italy", "florence"); ("Antibes, France", "antibes");
    ("Mallorca, Spain", "mallorca"); ("Barcelona, Spain", "barcelona") ].

Definition dropdown_value : string := "world".

(** [regions[region]]. *)
Fixpoint regions_get (d : list (string * region)) (k : string) : option region :=
  match d with
  | [] => None
  | (k', g) :: d' => if String.eqb k' k then Some g else regions_get d' k
  end.

(** The figure, as far as the callback goes: the centre and the zoom of
    its map, and the rest of it, which the callback leaves alone. *)
Record figure (T : Type) : Type := mkFigure {
  fig_rest : T;
  fig_center : option (num * num);
  fig_zoom : num
}.
Arguments mkFigure {T} _ _ _.
Arguments fig_rest {T} _.
Arguments fig_center {T} _.
Arguments fig_zoom {T} _.

(** [region] is the value of the dropdown, [None] when it is cleared.
    The global [fig] is passed in and handed back. *)
Definition center_map_region {T} (fig : figure T) (region : option string)
  : outcome (figure T) :=
  match region with
  | None => Raise KeyError
  | Some r =>
      match regions_get regions r with
      | None => Raise KeyError
      | Some g => Ok (mkFigure (fig_rest fig) (Some (r_lat g, r_lon g)) (r_zoom g))
      end
  end.

(** A point of [clickData['points']]. *)
Record point : Type := mkPoint {
  hovertext : string;
  pt_lat : float;
  pt_lon : float
}.

Section Viewer.

(** Two things of the libraries are left open: what pandas answers for
    an entry of [df['datetime']] compared with the hover text, and the
    URL that Dash makes of an asset name. *)
Variable same_time : datetime -> string -> bool.
Variable get_asset_url : string -> string.

(** [df] is the global frame.  [clickData] is [None] when nothing has
    been clicked, and else its list ['points']. *)
Definition show_html_img {F} (df : frame daycell) (clickData : option (list point))
           (fig : F) : outcome string :=
  match clickData with
  | None => Ok ""
  | Some points =>
      match points with
      | [] => Raise IndexError
      | point :: _ =>
          let p_datetime := hovertext point in
          let p_lat := pt_lat point in
          let p_lon := pt_lon point in
          match filter (fun r => same_time (datetime_ r) p_datetime
                                 && SFeqb (latitude r) p_lat
                                 && SFeqb (longitude r) p_lon) df with
          | [] => Raise IndexError
          | r :: _ =>
              let img_name := filename r in
              let img_name :=
                if endswith img_name ".heic"
                then replace img_name ".heic" ".jpg"
                else img_name in
              Ok (get_asset_url img_name)
          end
      end
  end.

End Viewer.

(** ** Further notions for the statements *)

(** The value that the items of a tag directory give the id [k]: the
    last one listed. *)
Definition raw_get (k : Z) (items : list (Z * value)) : option value :=
  fold_left (fun acc kv => if fst kv =? k then Some (snd kv) else acc) items None.

(** The rows that the photos of a list give, each on its own. *)
Definition rows_of (w : world) (photos : list path) : frame Z :=
  flat_map (fun p => match snd (process w p) with
                     | Ok (Some r) => [r]
                     | _ => []
                     end) photos.

Definition is_write (ev : event) : bool :=
  match ev with ToCsv _ _ => true | _ => false end.

Definition has_upper (s : string) : bool :=
  existsb Str.is_upper (list_ascii_of_string s).

(** The decimal digit [k]. *)
Definition digit (k : Z) : ascii := ascii_of_N (Z.to_N (48 + k)).

Definition fmt2 (n : Z) : list ascii := [digit (n / 10); digit (n mod 10)].

Definition fmt4 (n : Z) : list ascii :=
  [digit (n / 1000); digit (n / 100 mod 10); digit (n / 10 mod 10); digit (n mod 10)].

(** The text EXIF gives for a capture time, [YYYY:MM:DD HH:MM:SS]:
    four digits for the year and two for each other field. *)
Definition format_datetime (d : datetime) : string :=
  string_of_list_ascii
    (fmt4 (dt_year d) ++ ":"%char :: fmt2 (dt_month d) ++ ":"%char :: fmt2 (dt_day d)
     ++ " "%char :: fmt2 (dt_hour d) ++ ":"%char :: fmt2 (dt_minute d)
     ++ ":"%char :: fmt2 (dt_second d) ++ []).

(** The dates and times that [datetime] admits. *)
Definition valid_datetime (d : datetime) : Prop :=
  1 <= dt_year d <= 9999 /\ 1 <= dt_month d <= 12
  /\ 1 <= dt_day d <= Strptime.days_in_month (dt_year d) (dt_month d)
  /\ 0 <= dt_hour d <= 23 /\ 0 <= dt_minute d <= 59 /\ 0 <= dt_second d <= 59.

(** The conversion once the sign is chosen. *)
Definition convert_with (m : Z) (coords : value) : M float :=
  items <- lift (py_iter coords) ;;
  coords' <- mapM (fun i => lift (py_float i)) items ;;
  m <- lift (Ok m) ;;
  c0 <- lift (py_index coords' 0) ;;
  c1 <- lift (py_index coords' 1) ;;
  c2 <- lift (py_index coords' 2) ;;
  ret (F64.mul (F64.of_Z m) (dms c0 c1 c2)).

(** The extensions that a suffix in lower case can be equal to: the
    empty string, and a dot followed by at least one character, none of
    them a dot or an upper-case ASCII letter. *)
Definition usable_extension (e : string) : bool :=
  match e with
  | EmptyString => true
  | String c x =>
      Ascii.eqb c "."
      && negb (String.eqb x "")
      && match Str.rfind "." x with None => true | Some _ => false end
      && negb (has_upper x)
  end.

(* ===================================================================== *)
(** * Properties *)
(* ===================================================================== *)

(** ** Signs through rounding *)

Section Rounding.

Variables prec emax : Z.

Lemma shr_1_nonneg (mrs : shr_record) :
  0 <= shr_m mrs -> 0 <= shr_m (shr_1 mrs).
Proof.
  destruct mrs as [m r s]; simpl.
  destruct m as [|p|p]; simpl; try lia; destruct p; simpl; lia.
Qed.

Lemma iter_shr_1_nonneg (n : positive) :
  forall mrs, 0 <= shr_m mrs -> 0 <= shr_m (iter_pos shr_1 n mrs).
Proof.
  induction n as [n IH|n IH|]; intros mrs H; simpl.
  - apply IH, IH, shr_1_nonneg, H.
  - apply IH, IH, H.
  - apply shr_1_nonneg, H.
Qed.

Lemma shr_fexp_nonneg (m e : Z) (l : location) :
  0 <= m -> 0 <= shr_m (fst (shr_fexp prec emax m e l)).
Proof.
  intros H. unfold shr_fexp, shr.
  assert (H0 : 0 <= shr_m (shr_record_of_loc m l)).
  { destruct l as [|[| |]]; simpl; exact H. }
  destruct (fexp prec emax (Zdigits2 m + e) - e) as [|n|n]; simpl; auto.
  apply iter_shr_1_nonneg, H0.
Qed.

Lemma round_nearest_even_nonneg (m : Z) (l : location) :
  0 <= m -> 0 <= round_nearest_even m l.
Proof.
  intros H. destruct l as [|[| |]]; simpl; try lia.
  destruct (Z.even m); lia.
Qed.

Lemma binary_round_aux_signed (sx : bool) (mx ex : Z) (lx : location) :
  0 <= mx -> signed sx (binary_round_aux prec emax sx mx ex lx).
Proof.
  intros H. unfold binary_round_aux.
  pose proof (shr_fexp_nonneg mx ex lx H) as H1.
  destruct (shr_fexp prec emax mx ex lx) as [mrs' e']; simpl in H1.
  pose proof (shr_fexp_nonneg _ e' loc_Exact
                (round_nearest_even_nonneg _ (loc_of_shr_record mrs') H1)) as H2.
  destruct (shr_fexp prec emax _ e' loc_Exact) as [mrs'' e'']; simpl in H2.
  destruct (shr_m mrs'') as [|m|m]; simpl; try reflexivity; try lia.
  destruct (e'' <=? emax - prec); reflexivity.
Qed.

Lemma binary_round_aux_negb (sx : bool) (mx ex : Z) (lx : location) :
  binary_round_aux prec emax (negb sx) mx ex lx
  = SFopp (binary_round_aux prec emax sx mx ex lx).
Proof.
  unfold binary_round_aux.
  destruct (shr_fexp prec emax mx ex lx) as [mrs' e'].
  destruct (shr_fexp prec emax _ e' loc_Exact) as [mrs'' e''].
  destruct (shr_m mrs''); try reflexivity.
  destruct (e'' <=? emax - prec); reflexivity.
Qed.

Lemma binary_round_signed (sx : bool) (mx : positive) (ex : Z) :
  signed sx (binary_round prec emax sx mx ex).
Proof.
  unfold binary_round.
  destruct (shl_align mx ex _) as [mz ez].
  apply binary_round_aux_signed. lia.
Qed.

End Rounding.

(** ** Widths and well-formed results *)

Lemma digits2_bounds (p : positive) :
  2 ^ (Z.pos (digits2_pos p) - 1) <= Z.pos p < 2 ^ Z.pos (digits2_pos p).
Proof.
  induction p as [p IH|p IH|]; simpl digits2_pos.
  - rewrite Pos2Z.inj_succ. replace (Z.succ (Z.pos (digits2_pos p)) - 1) with (Z.succ (Z.pos (digits2_pos p) - 1)) by lia.
    rewrite !Z.pow_succ_r by lia. lia.
  - rewrite Pos2Z.inj_succ. replace (Z.succ (Z.pos (digits2_pos p)) - 1) with (Z.succ (Z.pos (digits2_pos p) - 1)) by lia.
    rewrite !Z.pow_succ_r by lia. lia.
  - simpl. lia.
Qed.

Lemma Zdigits2_nonneg (m : Z) : 0 <= Zdigits2 m.
Proof. destruct m; simpl; lia. Qed.

Lemma Zdigits2_le (m k : Z) : 0 <= m < 2 ^ k -> 0 <= k -> Zdigits2 m <= k.
Proof.
  intros [H0 H1] Hk. destruct m as [|p|p]; simpl; try lia.
  destruct (digits2_bounds p) as [Hl _].
  destruct (Z_le_gt_dec (Z.pos (digits2_pos p)) k) as [|Hgt]; [assumption|].
  exfalso.
  assert (2 ^ k <= 2 ^ (Z.pos (digits2_pos p) - 1)) by (apply Z.pow_le_mono_r; lia).
  lia.
Qed.

Lemma Zdigits2_lt_pow (m : Z) : 0 <= m -> m < 2 ^ Zdigits2 m.
Proof.
  intros H. destruct m as [|p|p]; simpl; try lia.
  apply digits2_bounds.
Qed.

Lemma Zdigits2_succ (m : Z) : 0 <= m -> Zdigits2 (m + 1) <= Zdigits2 m + 1.
Proof.
  intros H. apply Zdigits2_le.
  - pose proof (Zdigits2_lt_pow m H). pose proof (Zdigits2_nonneg m).
    rewrite Z.pow_add_r by lia. simpl (2 ^ 1). lia.
  - pose proof (Zdigits2_nonneg m). lia.
Qed.

Lemma shr_1_digits (r : shr_record) :
  0 <= shr_m r -> Zdigits2 (shr_m (shr_1 r)) = Z.max (Zdigits2 (shr_m r) - 1) 0.
Proof.
  destruct r as [m rb sb]; cbn [shr_m]. intros H.
  destruct m as [|p|p]; [reflexivity| |lia].
  destruct p; cbn [shr_1 shr_m Zdigits2 digits2_pos]; rewrite ?Pos2Z.inj_succ; lia.
Qed.

Lemma iter_shr_1_digits (n : positive) :
  forall r, 0 <= shr_m r ->
    Zdigits2 (shr_m (iter_pos shr_1 n r)) = Z.max (Zdigits2 (shr_m r) - Z.pos n) 0.
Proof.
  induction n as [n IH|n IH|]; intros r H; simpl iter_pos.
  - rewrite IH by (apply iter_shr_1_nonneg, shr_1_nonneg, H).
    rewrite IH by (apply shr_1_nonneg, H).
    rewrite shr_1_digits by exact H. lia.
  - rewrite IH by (apply iter_shr_1_nonneg, H).
    rewrite IH by exact H. lia.
  - apply shr_1_digits, H.
Qed.

Lemma fexp64_eq (e : Z) : fexp64 e = Z.max (e - 53) (-1074).
Proof. reflexivity. Qed.

Lemma Zdigits2_mono (m m' : Z) : 0 <= m <= m' -> Zdigits2 m <= Zdigits2 m'.
Proof.
  intros [H0 H1]. apply Zdigits2_le; [|apply Zdigits2_nonneg].
  pose proof (Zdigits2_lt_pow m' ltac:(lia)). lia.
Qed.

Lemma Zdigits2_ge (m k : Z) : 0 <= k -> 2 ^ k <= m -> k + 1 <= Zdigits2 m.
Proof.
  intros Hk H.
  assert (Hm : 0 <= m) by (pose proof (Z.pow_pos_nonneg 2 k); lia).
  pose proof (Zdigits2_lt_pow m Hm) as Hlt.
  pose proof (Zdigits2_nonneg m).
  destruct (Z_lt_le_dec (Zdigits2 m) (k + 1)) as [Hc|]; [|assumption].
  exfalso.
  assert (2 ^ Zdigits2 m <= 2 ^ k) by (apply Z.pow_le_mono_r; lia).
  lia.
Qed.

(** After [shr_fexp] on a mantissa whose exponent is not above the one
    its width asks for, the exponent is exactly the one the new width
    asks for. *)
Lemma shr_fexp_canonical (m e : Z) (l : location) :
  0 <= m -> e <= fexp64 (Zdigits2 m + e) ->
  0 <= shr_m (fst (shr_fexp F64.prec F64.emax m e l))
  /\ fexp64 (Zdigits2 (shr_m (fst (shr_fexp F64.prec F64.emax m e l)))
             + snd (shr_fexp F64.prec F64.emax m e l))
     = snd (shr_fexp F64.prec F64.emax m e l)
  /\ snd (shr_fexp F64.prec F64.emax m e l) = fexp64 (Zdigits2 m + e).
Proof.
  intros Hm He. split; [apply shr_fexp_nonneg, Hm|].
  unfold shr_fexp, shr.
  assert (Hr : shr_m (shr_record_of_loc m l) = m) by (destruct l as [|[| |]]; reflexivity).
  pose proof (Zdigits2_nonneg m) as Hd.
  destruct (fexp64 (Zdigits2 m + e) - e) as [|n|n] eqn:En; cbn [fst snd].
  - rewrite Hr. split; lia.
  - rewrite iter_shr_1_digits by (rewrite Hr; exact Hm). rewrite Hr.
    rewrite !fexp64_eq in *. split; lia.
  - lia.
Qed.

Lemma round_nearest_even_range (m : Z) (l : location) :
  m <= round_nearest_even m l <= m + 1.
Proof.
  destruct l as [|[| |]]; simpl; try lia. destruct (Z.even m); lia.
Qed.

(** Rounding gives a well-formed binary64 value. *)
Lemma binary_round_aux_valid (sx : bool) (mx ex : Z) (lx : location) :
  0 <= mx -> ex <= fexp64 (Zdigits2 mx + ex) ->
  F64.valid (binary_round_aux F64.prec F64.emax sx mx ex lx) = true.
Proof.
  intros Hm He. unfold binary_round_aux.
  destruct (shr_fexp_canonical mx ex lx Hm He) as (H1 & H2 & _).
  destruct (shr_fexp F64.prec F64.emax mx ex lx) as [mrs' e']. cbn [fst snd] in H1, H2.
  pose proof (round_nearest_even_range (shr_m mrs') (loc_of_shr_record mrs')) as Hr.
  set (m1 := round_nearest_even (shr_m mrs') (loc_of_shr_record mrs')) in *.
  assert (Hm1 : 0 <= m1) by lia.
  assert (He1 : e' <= fexp64 (Zdigits2 m1 + e')).
  { pose proof (Zdigits2_mono (shr_m mrs') m1 ltac:(lia)).
    rewrite fexp64_eq in *. lia. }
  destruct (shr_fexp_canonical m1 e' loc_Exact Hm1 He1) as (H3 & H4 & _).
  destruct (shr_fexp F64.prec F64.emax m1 e' loc_Exact) as [mrs'' e'']. cbn [fst snd] in H3, H4.
  destruct (shr_m mrs'') as [|m|m] eqn:Em; try reflexivity.
  destruct (e'' <=? F64.emax - F64.prec) eqn:Eb; [|reflexivity].
  unfold F64.valid, valid_binary, bounded, canonical_mantissa.
  rewrite Eb, andb_true_r. apply Z.eqb_eq. exact H4.
Qed.

Lemma digits2_pos_iter_xO (m d : positive) :
  Z.pos (digits2_pos (Pos.iter xO m d)) = Z.pos (digits2_pos m) + Z.pos d.
Proof.
  induction d as [|d IH] using Pos.peano_ind.
  - simpl. rewrite Pos2Z.inj_succ. lia.
  - rewrite Pos.iter_succ. cbn [digits2_pos]. rewrite !Pos2Z.inj_succ, IH. lia.
Qed.

Lemma binary_round_valid (sx : bool) (mx : positive) (ex : Z) :
  F64.valid (binary_round F64.prec F64.emax sx mx ex) = true.
Proof.
  unfold binary_round, shl_align.
  destruct (fexp64 (Z.pos (digits2_pos mx) + ex) - ex) as [|d|d] eqn:Ed;
    apply binary_round_aux_valid; try (apply Pos2Z.is_nonneg); cbn [Zdigits2].
  - lia.
  - lia.
  - rewrite digits2_pos_iter_xO. rewrite !fexp64_eq in *. lia.
Qed.

Lemma binary_normalize_valid (m e : Z) (sz : bool) :
  F64.valid (binary_normalize F64.prec F64.emax m e sz) = true.
Proof.
  destruct m; simpl; [reflexivity | apply binary_round_valid | apply binary_round_valid].
Qed.

Lemma add_valid (x y : float) :
  F64.valid x = true -> F64.valid y = true -> F64.valid (F64.add x y) = true.
Proof.
  intros Hx Hy.
  destruct x as [sx|sx| |sx mx ex], y as [sy|sy| |sy my ey];
    try exact Hx; try exact Hy; try reflexivity;
    try (destruct sx, sy; reflexivity).
  apply binary_normalize_valid.
Qed.

Lemma div_core_nonneg_canonical (mx my : positive) (ex ey : Z) :
  let '(mz, ez, lz) := SFdiv_core_binary F64.prec F64.emax (Z.pos mx) ex (Z.pos my) ey in
  0 <= mz /\ ez <= fexp64 (Zdigits2 mz + ez).
Proof.
  unfold SFdiv_core_binary.
  set (d1 := Zdigits2 (Z.pos mx)). set (d2 := Zdigits2 (Z.pos my)).
  set (e' := Z.min (fexp64 (d1 + ex - (d2 + ey))) (ex - ey)).
  set (s := ex - ey - e').
  assert (Hs : 0 <= s) by (unfold s, e'; lia).
  set (m' := match s with Z.pos _ => Z.shiftl (Z.pos mx) s | 0 => Z.pos mx | Z.neg _ => 0 end).
  assert (Hm' : m' = Z.pos mx * 2 ^ s).
  { unfold m'. destruct s as [|p|p] eqn:Es; [simpl; lia | apply Z.shiftl_mul_pow2; lia | lia]. }
  pose proof (Z.pow_pos_nonneg 2 s ltac:(lia) Hs) as Hpow.
  assert (Hq : 0 <= m' / Z.pos my) by (apply Z.div_pos; lia).
  assert (Hd : d1 + s - d2 <= Zdigits2 (m' / Z.pos my)).
  { pose proof (Zdigits2_nonneg (m' / Z.pos my)).
    destruct (Z_lt_le_dec (d1 - 1 + s - d2) 0) as [Hk|Hk]; [lia|].
    enough (d1 - 1 + s - d2 + 1 <= Zdigits2 (m' / Z.pos my)) by lia.
    apply Zdigits2_ge; [exact Hk|].
    apply Z.div_le_lower_bound; [lia|].
    destruct (digits2_bounds mx) as [Hl1 _]. destruct (digits2_bounds my) as [_ Hu2].
    fold (Zdigits2 (Z.pos mx)) in Hl1. fold d1 in Hl1.
    fold (Zdigits2 (Z.pos my)) in Hu2. fold d2 in Hu2.
    assert (Hd2 : 0 < d2) by (unfold d2; simpl; lia).
    assert (Hd1 : 0 < d1) by (unfold d1; simpl; lia).
    rewrite Hm'.
    assert (E : 2 ^ (d1 - 1) * 2 ^ s = 2 ^ d2 * 2 ^ (d1 - 1 + s - d2)).
    { rewrite <- !Z.pow_add_r by lia. f_equal. lia. }
    pose proof (Z.pow_pos_nonneg 2 (d1 - 1 + s - d2) ltac:(lia) Hk).
    nia. }
  unfold Z.div in Hq, Hd. destruct (Z.div_eucl m' (Z.pos my)) as [q r]. cbn [fst] in Hq, Hd.
  split; [exact Hq|].
  clear Hm' m' Hpow. subst s. subst e'. rewrite !fexp64_eq in *. lia.
Qed.

Lemma div_valid (x y : float) : F64.valid (F64.div x y) = true.
Proof.
  destruct x as [sx|sx| |sx mx ex], y as [sy|sy| |sy my ey]; try reflexivity.
  unfold F64.div, SFdiv.
  pose proof (div_core_nonneg_canonical mx my ex ey) as H.
  destruct (SFdiv_core_binary F64.prec F64.emax (Z.pos mx) ex (Z.pos my) ey) as [[mz ez] lz].
  apply binary_round_aux_valid; apply H.
Qed.

Lemma dms_valid (x0 x1 x2 : float) : F64.valid x0 = true -> F64.valid (dms x0 x1 x2) = true.
Proof.
  intros H. unfold dms. apply add_valid; [apply add_valid; [exact H|]|]; apply div_valid.
Qed.

Lemma binary_round_aux_finite (sx : bool) (mx ex : Z) (lx : location) :
  0 <= mx -> ex <= fexp64 (Zdigits2 mx + ex) -> Zdigits2 mx + ex <= 1023 ->
  fin_or_zero (binary_round_aux F64.prec F64.emax sx mx ex lx).
Proof.
  intros Hm He Hb. unfold binary_round_aux.
  destruct (shr_fexp_canonical mx ex lx Hm He) as (H1 & H2 & H2').
  destruct (shr_fexp F64.prec F64.emax mx ex lx) as [mrs' e']. cbn [fst snd] in H1, H2, H2'.
  pose proof (round_nearest_even_range (shr_m mrs') (loc_of_shr_record mrs')) as Hr.
  set (m1 := round_nearest_even (shr_m mrs') (loc_of_shr_record mrs')) in *.
  assert (Hm1 : 0 <= m1) by lia.
  pose proof (Zdigits2_mono (shr_m mrs') m1 ltac:(lia)) as Hmono.
  assert (Hsucc : Zdigits2 m1 <= Zdigits2 (shr_m mrs') + 1).
  { pose proof (Zdigits2_succ (shr_m mrs') H1).
    pose proof (Zdigits2_mono m1 (shr_m mrs' + 1) ltac:(lia)). lia. }
  assert (He1 : e' <= fexp64 (Zdigits2 m1 + e')) by (rewrite fexp64_eq in *; lia).
  destruct (shr_fexp_canonical m1 e' loc_Exact Hm1 He1) as (H3 & _ & H4).
  destruct (shr_fexp F64.prec F64.emax m1 e' loc_Exact) as [mrs'' e'']. cbn [fst snd] in H3, H4.
  destruct (shr_m mrs'') as [|m|m]; [exact I| |lia].
  replace (e'' <=? F64.emax - F64.prec) with true; [exact I|].
  symmetry. apply Z.leb_le. change (F64.emax - F64.prec) with 971.
  rewrite !fexp64_eq in *. lia.
Qed.

Lemma bounded_digits (m : positive) (e : Z) :
  bounded F64.prec F64.emax m e = true -> Z.pos (digits2_pos m) + e <= 1024.
Proof.
  unfold bounded, canonical_mantissa. intros H.
  apply andb_true_iff in H as [Hc Hb]. apply Z.eqb_eq in Hc. apply Z.leb_le in Hb.
  change (F64.emax - F64.prec) with 971 in Hb. rewrite fexp64_eq in Hc. lia.
Qed.

(** A finite number divided by a number of magnitude at least 2 is finite. *)
Lemma div_finite (x : float) (sy : bool) (my : positive) (ey : Z) :
  F64.is_finite x = true -> 2 <= Z.pos (digits2_pos my) + ey ->
  fin_or_zero (F64.div x (S754_finite sy my ey)).
Proof.
  intros Hx Hy.
  destruct x as [sx|sx| |sx mx ex]; try discriminate Hx; [exact I|].
  cbn [F64.is_finite] in Hx. apply bounded_digits in Hx.
  unfold F64.div, SFdiv.
  pose proof (div_core_nonneg_canonical mx my ex ey) as H.
  assert (Hu : let '(mz, ez, lz) :=
                 SFdiv_core_binary F64.prec F64.emax (Z.pos mx) ex (Z.pos my) ey in
               Zdigits2 mz + ez <= 1023).
  { clear H. unfold SFdiv_core_binary.
    set (d1 := Zdigits2 (Z.pos mx)). set (d2 := Zdigits2 (Z.pos my)).
    set (e' := Z.min (fexp64 (d1 + ex - (d2 + ey))) (ex - ey)).
    set (s := ex - ey - e').
    assert (Hs : 0 <= s) by (unfold s, e'; lia).
    set (m' := match s with Z.pos _ => Z.shiftl (Z.pos mx) s | 0 => Z.pos mx | Z.neg _ => 0 end).
    assert (Hm' : m' = Z.pos mx * 2 ^ s).
    { unfold m'. destruct s as [|p|p] eqn:Es; [simpl; lia | apply Z.shiftl_mul_pow2; lia | lia]. }
    pose proof (Z.pow_pos_nonneg 2 s ltac:(lia) Hs) as Hpow.
    assert (Hq : 0 <= m' / Z.pos my) by (apply Z.div_pos; lia).
    assert (Hd1 : 0 < d1) by (unfold d1; simpl; lia).
    assert (Hd2 : 0 < d2) by (unfold d2; simpl; lia).
    assert (Hd : Zdigits2 (m' / Z.pos my) <= Z.max (d1 + s - d2 + 1) 0).
    { apply Zdigits2_le; [|lia]. split; [exact Hq|].
      destruct (digits2_bounds mx) as [_ Hu1]. destruct (digits2_bounds my) as [Hl2 _].
      fold (Zdigits2 (Z.pos mx)) in Hu1. fold d1 in Hu1.
      fold (Zdigits2 (Z.pos my)) in Hl2. fold d2 in Hl2.
      apply Z.div_lt_upper_bound; [lia|]. rewrite Hm'.
      pose proof (Z.pow_pos_nonneg 2 (d2 - 1) ltac:(lia) ltac:(lia)).
      destruct (Z_lt_le_dec (d1 + s - d2 + 1) 0) as [Hk|Hk].
      - rewrite Z.max_r by lia. simpl (2 ^ 0).
        assert (2 ^ (d1 + s) <= 2 ^ (d2 - 1)) by (apply Z.pow_le_mono_r; lia).
        rewrite Z.pow_add_r in * by lia. nia.
      - rewrite Z.max_l by lia.
        assert (E : 2 ^ d1 * 2 ^ s = 2 ^ (d2 - 1) * 2 ^ (d1 + s - d2 + 1)).
        { rewrite <- !Z.pow_add_r by lia. f_equal. lia. }
        pose proof (Z.pow_pos_nonneg 2 (d1 + s - d2 + 1) ltac:(lia) Hk).
        nia. }
    unfold Z.div in Hd. destruct (Z.div_eucl m' (Z.pos my)) as [q r]. cbn [fst] in Hd.
    clear Hm' m' Hpow Hq. subst s. subst e'. subst d1 d2. cbn [Zdigits2] in *.
    rewrite !fexp64_eq in *. lia. }
  destruct (SFdiv_core_binary F64.prec F64.emax (Z.pos mx) ex (Z.pos my) ey) as [[mz ez] lz].
  apply binary_round_aux_finite; [apply H | apply H | exact Hu].
Qed.

Lemma add_fin_not_nan (x y : float) :
  F64.is_nan x = false -> fin_or_zero y -> F64.is_nan (F64.add x y) = false.
Proof.
  intros Hx Hy.
  destruct x as [sx|sx| |sx mx ex], y as [sy|sy| |sy my ey];
    try discriminate Hx; try contradiction; try reflexivity.
  - destruct sx, sy; reflexivity.
  - unfold F64.add, SFadd.
    match goal with |- F64.is_nan (binary_normalize _ _ ?m ?e ?s) = false =>
      destruct m; simpl binary_normalize; [reflexivity| |] end.
    + pose proof (binary_round_signed F64.prec F64.emax false p (Z.min ex ey)) as H.
      destruct (binary_round F64.prec F64.emax false p (Z.min ex ey)); simpl in *; tauto.
    + pose proof (binary_round_signed F64.prec F64.emax true p (Z.min ex ey)) as H.
      destruct (binary_round F64.prec F64.emax true p (Z.min ex ey)); simpl in *; tauto.
Qed.

Lemma fin_or_zero_not_nan (x : float) : fin_or_zero x -> F64.is_nan x = false.
Proof. destruct x; simpl; tauto. Qed.

Lemma is_finite_fin_or_zero (x : float) : F64.is_finite x = true -> fin_or_zero x.
Proof. destruct x; simpl; intros H; try discriminate; exact I. Qed.

Lemma mul_const_not_nan (s : bool) (m : positive) (e : Z) (y : float) :
  F64.is_nan y = false -> F64.is_nan (F64.mul (S754_finite s m e) y) = false.
Proof.
  destruct y as [sy|sy| |sy my ey]; intros H; try discriminate H; try reflexivity.
  unfold F64.mul, SFmul.
  pose proof (binary_round_aux_signed F64.prec F64.emax (xorb s sy) (Z.pos (m * my)) (e + ey)
                loc_Exact ltac:(lia)) as Hs.
  destruct (binary_round_aux F64.prec F64.emax (xorb s sy) (Z.pos (m * my)) (e + ey) loc_Exact);
    simpl in *; tauto.
Qed.

(** An [int] that converts to a float converts to a finite one. *)
Lemma py_float_int_finite (n : Z) (x : float) :
  py_float (CInt n) = Ok x -> F64.is_finite x = true.
Proof.
  unfold py_float. pose proof (binary_normalize_valid n 0 false) as Hv.
  unfold F64.of_Z.
  destruct (binary_normalize F64.prec F64.emax n 0 false) as [s|s| |s m e] eqn:E;
    simpl; intros H; inversion H; subst; try reflexivity.
  - destruct n as [|p|p]; simpl in E; try discriminate.
    + pose proof (binary_round_signed F64.prec F64.emax false p 0) as Hs.
      rewrite E in Hs. contradiction.
    + pose proof (binary_round_signed F64.prec F64.emax true p 0) as Hs.
      rewrite E in Hs. contradiction.
  - exact Hv.
Qed.

(** On finite components the sum is a number. *)
Lemma dms_not_nan (x0 x1 x2 : float) :
  F64.is_finite x0 = true -> F64.is_finite x1 = true -> F64.is_finite x2 = true ->
  F64.is_nan (dms x0 x1 x2) = false.
Proof.
  intros H0 H1 H2. unfold dms.
  change (F64.of_Z 60) with (S754_finite false 8444249301319680 (-47)).
  change (F64.of_Z 3600) with (S754_finite false 7916483719987200 (-41)).
  apply add_fin_not_nan.
  - apply add_fin_not_nan.
    + apply fin_or_zero_not_nan, is_finite_fin_or_zero, H0.
    + apply div_finite; [exact H1 | simpl; lia].
  - apply div_finite; [exact H2 | simpl; lia].
Qed.

(** ** Signs of the float operations *)

Lemma nonneg_iff (x : float) : F64.nonneg x = true <-> pos_or_zero x.
Proof.
  destruct x as [s|s| |s m e]; try destruct s; cbv; intuition congruence.
Qed.

Lemma nonpos_iff (x : float) : F64.nonpos x = true <-> neg_or_zero x.
Proof.
  destruct x as [s|s| |s m e]; try destruct s; cbv; intuition congruence.
Qed.

Lemma signed_pos_or_zero (x : float) : signed false x -> pos_or_zero x.
Proof. destruct x; simpl; auto. Qed.

Lemma signed_neg_or_zero (x : float) : signed true x -> neg_or_zero x.
Proof. destruct x; simpl; auto. Qed.

Lemma add_pos_or_zero (x y : float) :
  pos_or_zero x -> pos_or_zero y -> pos_or_zero (F64.add x y).
Proof.
  destruct x as [sx|sx| |sx mx ex], y as [sy|sy| |sy my ey];
    simpl; intros Hx Hy; subst; try contradiction; try exact I; try reflexivity.
  - destruct sx, sy; exact I.
  - apply signed_pos_or_zero. unfold F64.add, SFadd, cond_Zopp, binary_normalize.
    simpl Z.add. apply binary_round_signed.
Qed.

Lemma div_pos_or_zero (x : float) (m : positive) (e : Z) :
  pos_or_zero x -> pos_or_zero (F64.div x (S754_finite false m e)).
Proof.
  destruct x as [sx|sx| |sx mx ex]; simpl; intros Hx; subst;
    try contradiction; try exact I; try reflexivity.
  apply signed_pos_or_zero. unfold F64.div, SFdiv.
  destruct (SFdiv_core_binary F64.prec F64.emax (Z.pos mx) ex (Z.pos m) e)
    as [[mz ez] lz] eqn:E.
  apply binary_round_aux_signed.
  unfold SFdiv_core_binary in E.
  match type of E with
  | (let '(q, r) := Z.div_eucl ?a ?b in _) = _ =>
      assert (Ha : 0 <= a); [| pose proof (Z.div_pos a b Ha ltac:(lia)) as Hq;
                               unfold Z.div in Hq; destruct (Z.div_eucl a b) as [q r] ]
  end.
  - destruct (ex - e - _) as [|n|n]; try lia.
    apply Z.shiftl_nonneg. lia.
  - inversion E; subst. exact Hq.
Qed.

Lemma mul_pos_const (m : positive) (e : Z) (y : float) :
  pos_or_zero y -> pos_or_zero (F64.mul (S754_finite false m e) y).
Proof.
  destruct y as [sy|sy| |sy my ey]; simpl; intros Hy; subst;
    try contradiction; try exact I; try reflexivity.
  apply signed_pos_or_zero. unfold F64.mul, SFmul.
  apply (binary_round_aux_signed F64.prec F64.emax (xorb false false)). lia.
Qed.

Lemma mul_neg_const (m : positive) (e : Z) (y : float) :
  pos_or_zero y -> neg_or_zero (F64.mul (S754_finite true m e) y).
Proof.
  destruct y as [sy|sy| |sy my ey]; simpl; intros Hy; subst;
    try contradiction; try exact I; try reflexivity.
  apply signed_neg_or_zero. unfold F64.mul, SFmul.
  apply (binary_round_aux_signed F64.prec F64.emax (xorb true false)). lia.
Qed.

(** Multiplying by [-1.0] negates what multiplying by [1.0] gives. *)
Lemma mul_minus_one (y : float) :
  F64.mul (F64.of_Z (-1)) y = F64.opp (F64.mul (F64.of_Z 1) y).
Proof.
  change (F64.of_Z (-1)) with (S754_finite true 4503599627370496 (-52)).
  change (F64.of_Z 1) with (S754_finite false 4503599627370496 (-52)).
  destruct y as [sy|sy| |sy my ey]; try reflexivity.
  unfold F64.mul, F64.opp, SFmul.
  rewrite <- binary_round_aux_negb. destruct sy; reflexivity.
Qed.

Lemma dms_pos_or_zero (x0 x1 x2 : float) :
  pos_or_zero x0 -> pos_or_zero x1 -> pos_or_zero x2 -> pos_or_zero (dms x0 x1 x2).
Proof.
  intros H0 H1 H2. unfold dms.
  change (F64.of_Z 60) with (S754_finite false 8444249301319680 (-47)).
  change (F64.of_Z 3600) with (S754_finite false 7916483719987200 (-41)).
  apply add_pos_or_zero; [apply add_pos_or_zero; [exact H0|]|];
    apply div_pos_or_zero; assumption.
Qed.

Lemma shr_52 (m : positive) :
  iter_pos shr_1 52 (Build_shr_record (Z.pos (4503599627370496 * m)) false false)
  = Build_shr_record (Z.pos m) false false.
Proof. cbv. reflexivity. Qed.

Lemma digits_52 (m : positive) :
  Zdigits2 (Z.pos (4503599627370496 * m)) = Z.pos (digits2_pos m) + 52.
Proof.
  change (4503599627370496 * m)%positive with (Pos.iter xO m 52).
  cbv [Pos.iter Zdigits2 digits2_pos]. fold digits2_pos.
  rewrite !Pos2Z.inj_succ. lia.
Qed.

(** Multiplying a binary64 number by [1.0] gives the number back. *)
Lemma mul_one_valid (y : float) :
  F64.valid y = true -> F64.mul (F64.of_Z 1) y = y.
Proof.
  change (F64.of_Z 1) with (S754_finite false 4503599627370496 (-52)).
  destruct y as [sy|sy| |sy my ey]; try reflexivity.
  unfold F64.valid. simpl valid_binary. unfold bounded, canonical_mantissa.
  intros H. apply andb_true_iff in H as [Hc Hb].
  apply Z.eqb_eq in Hc.
  unfold F64.mul, SFmul, binary_round_aux.
  unfold shr_fexp at 1.
  replace (Zdigits2 (Z.pos (4503599627370496 * my)) + (-52 + ey))
    with (Z.pos (digits2_pos my) + ey) by (rewrite digits_52; lia).
  rewrite Hc. replace (ey - (-52 + ey)) with 52 by lia.
  unfold shr, shr_record_of_loc. rewrite shr_52.
  cbv [shr_m loc_of_shr_record round_nearest_even].
  unfold shr_fexp. cbv [Zdigits2].
  replace (-52 + ey + 52) with ey by lia.
  rewrite Hc, Z.sub_diag.
  cbv [shr shr_record_of_loc shr_m].
  rewrite Hb. reflexivity.
Qed.

(** ** The monad *)

Lemma bind_ret {A B} (a : A) (f : A -> M B) : bind (ret a) f = f a.
Proof. unfold bind, ret; simpl. destruct (f a); reflexivity. Qed.

Lemma bind_lift_ok {A B} (a : A) (f : A -> M B) : bind (lift (Ok a)) f = f a.
Proof. exact (bind_ret a f). Qed.

Lemma bind_lift_raise {A B} (e : exn) (f : A -> M B) :
  bind (lift (Raise e)) f = ([], Raise e).
Proof. reflexivity. Qed.

Lemma bind_raise {A B} (e : exn) (f : A -> M B) : bind (raise e) f = raise e.
Proof. reflexivity. Qed.

Lemma bind_assoc {A B C} (m : M A) (f : A -> M B) (g : B -> M C) :
  bind (bind m f) g = bind m (fun a => bind (f a) g).
Proof.
  destruct m as [l [a|e]]; unfold bind; simpl; [|reflexivity].
  destruct (f a) as [l1 [b|e1]]; simpl; [|reflexivity].
  destruct (g b) as [l2 r2]; simpl. rewrite app_assoc. reflexivity.
Qed.

Lemma bind_snd_raise {A B} (m : M A) (f : A -> M B) (e : exn) :
  snd m = Raise e -> snd (bind m f) = Raise e.
Proof. intros H. unfold bind. rewrite H. reflexivity. Qed.

(** ** Coordinate conversion *)

(** What the conversion does on a triple whose components convert. *)
Lemma convert_triple (deg min sec : component) (ref : string) (x0 x1 x2 : float) :
  py_float deg = Ok x0 -> py_float min = Ok x1 -> py_float sec = Ok x2 ->
  convert_coords_to_decimal (VTuple [deg; min; sec]) (VStr ref)
  = if Str.mem (Str.upper ref) ["W"; "S"]
    then ([], Ok (F64.mul (F64.of_Z (-1)) (dms x0 x1 x2)))
    else if Str.mem (Str.upper ref) ["E"; "N"]
         then ([], Ok (F64.mul (F64.of_Z 1) (dms x0 x1 x2)))
         else ([PrintBadRef (VStr ref)], Raise UnboundLocalError).
Proof.
  intros H0 H1 H2. unfold convert_coords_to_decimal.
  simpl py_upper. rewrite bind_lift_ok. cbn [py_in].
  destruct (Str.mem (Str.upper ref) ["W"; "S"]);
    [| destruct (Str.mem (Str.upper ref) ["E"; "N"]) ];
    unfold bind, lift, ret, emit, mapM; simpl; rewrite H0, H1, H2; reflexivity.
Qed.

Lemma mem_four (u : string) :
  Str.mem u ["N"; "S"; "E"; "W"] = Str.mem u ["W"; "S"] || Str.mem u ["E"; "N"].
Proof.
  unfold Str.mem; simpl.
  destruct (String.eqb u "N"), (String.eqb u "S"), (String.eqb u "E"), (String.eqb u "W");
    reflexivity.
Qed.

Lemma mem_south_west (u : string) : Str.mem u ["S"; "W"] = Str.mem u ["W"; "S"].
Proof.
  unfold Str.mem; simpl. destruct (String.eqb u "S"), (String.eqb u "W"); reflexivity.
Qed.

Lemma mem_north_east (u : string) : Str.mem u ["N"; "E"] = Str.mem u ["E"; "N"].
Proof.
  unfold Str.mem; simpl. destruct (String.eqb u "N"), (String.eqb u "E"); reflexivity.
Qed.

Lemma mem_exclusive (u : string) :
  Str.mem u ["W"; "S"] = true -> Str.mem u ["E"; "N"] = false.
Proof.
  unfold Str.mem; simpl.
  destruct (String.eqb_spec u "W"), (String.eqb_spec u "S"); subst; simpl;
    try reflexivity; discriminate.
Qed.

Lemma mapM_lift_silent {A B} (f : A -> outcome B) (l : list A) :
  fst (mapM (fun a => lift (f a)) l) = [].
Proof.
  induction l as [|a l IH]; simpl; [reflexivity|].
  unfold bind, lift, ret in *; simpl.
  destruct (f a); simpl; [|reflexivity].
  destruct (snd (mapM _ l)); simpl; rewrite IH; reflexivity.
Qed.

(** C1. For a triple whose components convert to the floats [x0], [x1],
    [x2] and a reference whose upper case is N, S, E or W, the
    conversion prints nothing and returns the binary64 value
    [(x0 + x1 / 60.0) + x2 / 3600.0], each operation rounded to
    nearest, multiplied by [1.0] for N and E, the negation of that for
    S and W; the factor [1.0] changes nothing as soon as the degrees
    are a well-formed binary64 value; for components [>= 0] the result
    is [>= 0] for N and E and [<= 0] for S and W.  (10, 30, 0) gives
    10.5 for "N" and -10.5 for "S", in either case of the letter; one
    minute is 1/60 and one second 1/3600 of a degree, sixty minutes
    and 3600 seconds are one degree, and (10, 30, 36) gives 10.51. *)
Theorem convert_coords_to_decimal_spec :
  forall (deg min sec : component) (ref : string) (x0 x1 x2 : float),
    py_float deg = Ok x0 -> py_float min = Ok x1 -> py_float sec = Ok x2 ->
    Str.mem (Str.upper ref) ["N"; "S"; "E"; "W"] = true ->
    let v := F64.add (F64.add x0 (F64.div x1 (F64.of_Z 60))) (F64.div x2 (F64.of_Z 3600)) in
    let r := convert_coords_to_decimal (VTuple [deg; min; sec]) (VStr ref) in
    (Str.mem (Str.upper ref) ["N"; "E"] = true ->
       r = ([], Ok (F64.mul (F64.of_Z 1) v)))
    /\ (Str.mem (Str.upper ref) ["S"; "W"] = true ->
       r = ([], Ok (F64.opp (F64.mul (F64.of_Z 1) v))))
    /\ (F64.valid x0 = true -> F64.mul (F64.of_Z 1) v = v)
    /\ (F64.nonneg x0 = true -> F64.nonneg x1 = true -> F64.nonneg x2 = true ->
        exists y, r = ([], Ok y)
          /\ (Str.mem (Str.upper ref) ["N"; "E"] = true -> F64.nonneg y = true)
          /\ (Str.mem (Str.upper ref) ["S"; "W"] = true -> F64.nonpos y = true))
    /\ convert_coords_to_decimal (VTuple [CInt 10; CInt 30; CInt 0]) (VStr "N")
       = ([], Ok (F64.of_bin 21 (-1)))
    /\ convert_coords_to_decimal (VTuple [CInt 10; CInt 30; CInt 0]) (VStr "S")
       = ([], Ok (F64.opp (F64.of_bin 21 (-1))))
    /\ convert_coords_to_decimal (VTuple [CInt 10; CInt 30; CInt 0]) (VStr "n")
       = ([], Ok (F64.of_bin 21 (-1)))
    /\ convert_coords_to_decimal (VTuple [CInt 10; CInt 30; CInt 0]) (VStr "s")
       = ([], Ok (F64.opp (F64.of_bin 21 (-1))))
    /\ convert_coords_to_decimal (VTuple [CInt 0; CInt 1; CInt 0]) (VStr "N")
       = ([], Ok (F64.of_bin 4803839602528529 (-58)))       (* 0.016666666666666666 *)
    /\ convert_coords_to_decimal (VTuple [CInt 0; CInt 0; CInt 1]) (VStr "E")
       = ([], Ok (F64.of_bin 5124095576030431 (-64)))       (* 0.0002777777777777778 *)
    /\ convert_coords_to_decimal (VTuple [CInt 0; CInt 60; CInt 0]) (VStr "N")
       = ([], Ok (F64.of_bin 1 0))
    /\ convert_coords_to_decimal (VTuple [CInt 0; CInt 0; CInt 3600]) (VStr "N")
       = ([], Ok (F64.of_bin 1 0))
    /\ convert_coords_to_decimal (VTuple [CInt 10; CInt 30; CInt 36]) (VStr "N")
       = ([], Ok (F64.of_bin 5916604010457989 (-49)))       (* 10.51 *)
    /\ convert_coords_to_decimal (VTuple [CInt 10; CInt 30; CInt 36]) (VStr "W")
       = ([], Ok (F64.opp (F64.of_bin 5916604010457989 (-49)))).
Proof.
  intros deg min sec ref x0 x1 x2 H0 H1 H2 Href v r.
  pose proof (convert_triple deg min sec ref x0 x1 x2 H0 H1 H2) as Hc.
  change (dms x0 x1 x2) with v in Hc. fold r in Hc.
  rewrite mem_four in Href. rewrite mem_north_east, mem_south_west.
  assert (Hn : Str.mem (Str.upper ref) ["E"; "N"] = true ->
               r = ([], Ok (F64.mul (F64.of_Z 1) v))).
  { intros HE. rewrite Hc, HE.
    destruct (Str.mem (Str.upper ref) ["W"; "S"]) eqn:HW; [|reflexivity].
    apply mem_exclusive in HW. congruence. }
  assert (Hs : Str.mem (Str.upper ref) ["W"; "S"] = true ->
               r = ([], Ok (F64.opp (F64.mul (F64.of_Z 1) v)))).
  { intros HW. rewrite Hc, HW, mul_minus_one. reflexivity. }
  split; [exact Hn|]. split; [exact Hs|].
  split; [intros Hv; apply mul_one_valid; exact (dms_valid x0 x1 x2 Hv)|].
  split.
  - intros P0 P1 P2.
    apply nonneg_iff in P0. apply nonneg_iff in P1. apply nonneg_iff in P2.
    pose proof (dms_pos_or_zero x0 x1 x2 P0 P1 P2) as Pv.
    change (dms x0 x1 x2) with v in Pv.
    destruct (Str.mem (Str.upper ref) ["W"; "S"]) eqn:HW.
    + exists (F64.mul (F64.of_Z (-1)) v). split; [rewrite Hc; reflexivity|].
      split.
      * intros HE. apply mem_exclusive in HW. congruence.
      * intros _. apply nonpos_iff.
        change (F64.of_Z (-1)) with (S754_finite true 4503599627370496 (-52)).
        apply mul_neg_const, Pv.
    + rewrite orb_false_l in Href. exists (F64.mul (F64.of_Z 1) v).
      split; [rewrite Hc, Href; reflexivity|].
      split.
      * intros _. apply nonneg_iff.
        change (F64.of_Z 1) with (S754_finite false 4503599627370496 (-52)).
        apply mul_pos_const, Pv.
      * intros HF. discriminate.
  - repeat split; vm_compute; reflexivity.
Qed.

Lemma convert_coords_to_decimal_spec_witness :
  let coords := VTuple [CFloat (F64.of_Z 48); CInt 51;
                        CStr "29.6" (Some (F64.of_bin 4165829655317709 (-47)))] in
  convert_coords_to_decimal coords (VStr "w")
  = ([], Ok (F64.opp (F64.of_bin 1719045870265507 (-45))))   (* -48.858222222222224 *)
  /\ exists y, convert_coords_to_decimal coords (VStr "w") = ([], Ok y)
               /\ F64.nonpos y = true.
Proof.
  intros coords.
  destruct (convert_coords_to_decimal_spec
              (CFloat (F64.of_Z 48)) (CInt 51)
              (CStr "29.6" (Some (F64.of_bin 4165829655317709 (-47)))) "w"
              (F64.of_Z 48) (F64.of_Z 51) (F64.of_bin 4165829655317709 (-47))
              eq_refl eq_refl eq_refl eq_refl)
    as (_ & HS & Hone & Hsign & _).
  split.
  - subst coords. rewrite (HS eq_refl). vm_compute. reflexivity.
  - destruct (Hsign eq_refl eq_refl eq_refl) as (y & Hy & _ & Hneg).
    exists y. split; [exact Hy | apply Hneg; reflexivity].
Defined.

(** C2. For a reference whose upper case is none of N, S, E, W the
    conversion prints the complaint and raises: it returns no value,
    whatever the coordinates are, and on a triple of components that
    convert the exception is the unbound local [mul]. *)
Theorem convert_invalid_ref_fails :
  forall (coords : value) (ref : string),
    Str.mem (Str.upper ref) ["N"; "S"; "E"; "W"] = false ->
    let r := convert_coords_to_decimal coords (VStr ref) in
    fst r = [PrintBadRef (VStr ref)]
    /\ (exists e, snd r = Raise e)
    /\ (forall y, snd r <> Ok y)
    /\ (forall deg min sec x0 x1 x2,
          coords = VTuple [deg; min; sec] ->
          py_float deg = Ok x0 -> py_float min = Ok x1 -> py_float sec = Ok x2 ->
          snd r = Raise UnboundLocalError).
Proof.
  intros coords ref Href r.
  assert (Hr : fst r = [PrintBadRef (VStr ref)] /\ exists e, snd r = Raise e).
  { subst r. unfold convert_coords_to_decimal. simpl py_upper. rewrite bind_lift_ok. cbn [py_in].
    rewrite mem_four in Href. apply orb_false_iff in Href as [HW HE].
    rewrite HW, HE.
    rewrite bind_assoc. unfold emit at 1. unfold bind at 1. simpl fst. simpl snd.
    destruct (py_iter coords) as [items|e] eqn:Hi.
    - rewrite bind_lift_ok.
      pose proof (mapM_lift_silent py_float items) as Hl.
      destruct (mapM (fun i => lift (py_float i)) items) as [l [cs|e]] eqn:Hm;
        simpl in Hl; subst l.
      + unfold bind, lift; simpl. eauto.
      + unfold bind, lift; simpl. eauto.
    - rewrite bind_lift_raise. simpl. eauto. }
  destruct Hr as [Hlog [e He]].
  split; [exact Hlog|]. split; [eauto|]. split.
  - intros y Hy. congruence.
  - intros deg min sec x0 x1 x2 -> H0 H1 H2. subst r.
    rewrite (convert_triple deg min sec ref x0 x1 x2 H0 H1 H2).
    rewrite mem_four in Href. apply orb_false_iff in Href as [HW HE].
    rewrite HW, HE. reflexivity.
Qed.

Lemma convert_invalid_ref_fails_witness :
  convert_coords_to_decimal (VTuple [CInt 10; CInt 30; CInt 0]) (VStr "X")
  = ([PrintBadRef (VStr "X")], Raise UnboundLocalError).
Proof.
  pose proof (convert_invalid_ref_fails (VTuple [CInt 10; CInt 30; CInt 0]) "X" eq_refl)
    as [Hlog [_ [_ H]]].
  specialize (H (CInt 10) (CInt 30) (CInt 0) _ _ _ eq_refl eq_refl eq_refl eq_refl).
  destruct (convert_coords_to_decimal (VTuple [CInt 10; CInt 30; CInt 0]) (VStr "X"))
    as [l o].
  simpl in *. subst. reflexivity.
Defined.

(** ** File discovery *)

Lemma lower_char_dot (a : ascii) :
  Ascii.eqb (Str.lower_char a) "." = Ascii.eqb a ".".
Proof. destruct a as [[] [] [] [] [] [] [] []]; reflexivity. Qed.

Lemma lower_upper_char (a : ascii) :
  Str.lower_char (Str.upper_char a) = Str.lower_char a.
Proof. destruct a as [[] [] [] [] [] [] [] []]; reflexivity. Qed.

Lemma lower_lower_char (a : ascii) :
  Str.lower_char (Str.lower_char a) = Str.lower_char a.
Proof. destruct a as [[] [] [] [] [] [] [] []]; reflexivity. Qed.

Lemma lower_upper (s : string) : Str.lower (Str.upper s) = Str.lower s.
Proof.
  induction s as [|a s IH]; simpl; [reflexivity|].
  rewrite lower_upper_char, IH. reflexivity.
Qed.

Lemma lower_lower (s : string) : Str.lower (Str.lower s) = Str.lower s.
Proof.
  induction s as [|a s IH]; simpl; [reflexivity|].
  rewrite lower_lower_char, IH. reflexivity.
Qed.

Lemma length_lower (s : string) : String.length (Str.lower s) = String.length s.
Proof. induction s as [|a s IH]; simpl; congruence. Qed.

Lemma rfind_lower (s : string) : Str.rfind "." (Str.lower s) = Str.rfind "." s.
Proof.
  induction s as [|a s IH]; simpl; [reflexivity|].
  rewrite IH, lower_char_dot. reflexivity.
Qed.

Lemma substring_lower (s : string) :
  forall i k, substring i k (Str.lower s) = Str.lower (substring i k s).
Proof.
  induction s as [|a s IH]; intros [|i] [|k]; simpl; try reflexivity.
  - rewrite IH. reflexivity.
  - apply IH.
  - apply IH.
Qed.

(** Taking the suffix and lowering the case commute. *)
Lemma suffix_lower (n : string) :
  suffix_of_name (Str.lower n) = Str.lower (suffix_of_name n).
Proof.
  unfold suffix_of_name. rewrite rfind_lower, length_lower.
  destruct (Str.rfind "." n) as [i|]; [|reflexivity].
  destruct ((0 <? i)%nat && (i <? String.length n - 1)%nat); [|reflexivity].
  apply substring_lower.
Qed.

Lemma is_photo_name_lower (n n' : string) :
  Str.lower n = Str.lower n' -> is_photo_name n = is_photo_name n'.
Proof.
  intros H. unfold is_photo_name.
  rewrite <- (suffix_lower n), <- (suffix_lower n'), H. reflexivity.
Qed.

Lemma mem_In (x : string) (l : list string) : Str.mem x l = true <-> In x l.
Proof.
  unfold Str.mem. rewrite existsb_exists. split.
  - intros [y [Hy He]]. apply String.eqb_eq in He. subst. exact Hy.
  - intros H. exists x. split; [exact H | apply String.eqb_refl].
Qed.

Lemma filter_none {A} (f : A -> bool) (l : list A) :
  (forall x, In x l -> f x = false) -> filter f l = [].
Proof.
  induction l as [|a l IH]; intros H; simpl; [reflexivity|].
  rewrite (H a (or_introl eq_refl)). apply IH.
  intros x Hx. apply H. right. exact Hx.
Qed.

Lemma suffix_single (p : string) : suffix [p] = suffix_of_name p.
Proof. reflexivity. Qed.


(** ** Record assembly *)

Lemma bind_ok {A B} (l : list event) (a : A) (f : A -> M B) :
  bind (l, Ok a) f = (l ++ fst (f a), snd (f a)).
Proof. reflexivity. Qed.

Lemma bind_err {A B} (l : list event) (e : exn) (f : A -> M B) :
  bind (l, Raise e) f = (l, Raise e).
Proof. reflexivity. Qed.

Lemma bind_ok_inv {A B} (m : M A) (f : A -> M B) (log : list event) (b : B) :
  bind m f = (log, Ok b) ->
  exists l1 a l2, m = (l1, Ok a) /\ f a = (l2, Ok b) /\ log = l1 ++ l2.
Proof.
  destruct m as [l1 [a|e]]; unfold bind; simpl; intros H; [|discriminate].
  exists l1, a, (fst (f a)). destruct (f a) as [l2 r2]; simpl in *.
  inversion H; subst. auto.
Qed.

Lemma loop_cons (w : world) (photo : path) (rest : list path) (df : frame Z) (i : nat) :
  construct_df_loop w (photo :: rest) df i
  = (r <- process w photo ;;
     match r with
     | None => construct_df_loop w rest df i
     | Some d => construct_df_loop w rest (df ++ [d]) (S i)
     end).
Proof.
  cbn [construct_df_loop]. unfold process.
  destruct (negb (Str.mem (Str.lower (suffix photo)) [".jpg"; ".jpeg"; ".heic"])).
  - rewrite bind_ret. reflexivity.
  - rewrite bind_assoc. reflexivity.
Qed.

Lemma loop_nil (w : world) (df : frame Z) (i : nat) :
  construct_df_loop w [] df i = ret (df, i).
Proof. reflexivity. Qed.

Lemma loop_app (w : world) (l1 l2 : list path) :
  forall df i,
    construct_df_loop w (l1 ++ l2) df i
    = (st <- construct_df_loop w l1 df i ;; construct_df_loop w l2 (fst st) (snd st)).
Proof.
  induction l1 as [|p l1 IH]; intros df i.
  - rewrite loop_nil, bind_ret. reflexivity.
  - rewrite <- app_comm_cons, !loop_cons, bind_assoc.
    destruct (process w p) as [l [[d|]|e]];
      rewrite ?bind_ok, ?bind_err, ?IH; reflexivity.
Qed.

(** Every row the loop adds is the row of one of the photos, and the
    counter counts the rows added. *)
Lemma loop_rows (w : world) (photos : list path) :
  forall df i log df' i',
    construct_df_loop w photos df i = (log, Ok (df', i')) ->
    exists rs, df' = df ++ rs /\ i' = (i + List.length rs)%nat
               /\ Forall (fun r => exists p l, In p photos /\ process w p = (l, Ok (Some r))) rs.
Proof.
  induction photos as [|p photos IH]; intros df i log df' i' H.
  - rewrite loop_nil in H. inversion H; subst. exists [].
    rewrite app_nil_r, Nat.add_0_r. auto.
  - rewrite loop_cons in H. apply bind_ok_inv in H as [l1 [r [l2 [Hp [Hk _]]]]].
    destruct r as [d|].
    + apply IH in Hk as [rs [Hdf [Hi Hrs]]]. exists (d :: rs).
      rewrite <- app_assoc in Hdf. simpl in *. split; [exact Hdf|]. split; [lia|].
      constructor.
      * exists p, l1. auto.
      * eapply Forall_impl; [|exact Hrs]. intros r [q [l [Hq Hr]]]. exists q, l. auto.
    + apply IH in Hk as [rs [Hdf [Hi Hrs]]]. exists rs. split; [exact Hdf|]. split; [exact Hi|].
      eapply Forall_impl; [|exact Hrs]. intros r [q [l [Hq Hr]]]. exists q, l.
      split; [right; exact Hq | exact Hr].
Qed.

(** A photo on which the turn raises ends the whole loop. *)
Lemma loop_aborts (w : world) (pre : list path) (p : path) (post : list path)
      (df : frame Z) (i : nat) (l1 l2 : list event) (st : frame Z * nat) (e : exn) :
  construct_df_loop w pre df i = (l1, Ok st) ->
  process w p = (l2, Raise e) ->
  construct_df_loop w (pre ++ p :: post) df i = (l1 ++ l2, Raise e).
Proof.
  intros Hpre Hp. rewrite loop_app, Hpre, bind_ok, loop_cons, Hp, bind_err.
  reflexivity.
Qed.

(** A photo that the turn passes over without printing leaves the loop
    as it would be without it. *)
Lemma loop_skips (w : world) (pre : list path) (p : path) (post : list path) :
  process w p = ([], Ok None) ->
  forall df i,
    construct_df_loop w (pre ++ p :: post) df i = construct_df_loop w (pre ++ post) df i.
Proof.
  intros Hp df i. rewrite !loop_app.
  destruct (construct_df_loop w pre df i) as [l [st|e]]; [|reflexivity].
  rewrite !bind_ok, loop_cons, Hp. change (@pair (list event) (outcome (option (row Z))) [] (Ok None))
    with (@ret (option (row Z)) None).
  rewrite bind_ret. reflexivity.
Qed.

Lemma subscript_ok_inv (d : option dict) (k : string) (l : list event) (v : value) :
  subscript d k = (l, Ok v) ->
  exists d', d = Some d' /\ dict_get (KName k) d' = Some v /\ l = [].
Proof.
  unfold subscript. destruct d as [d'|]; [|discriminate].
  destruct (dict_get (KName k) d') as [v'|] eqn:E; [|discriminate].
  intros H. inversion H; subst. exists d'. auto.
Qed.

Lemma lift_ok_inv {A} (o : outcome A) (l : list event) (a : A) :
  lift o = (l, Ok a) -> o = Ok a /\ l = [].
Proof. unfold lift. intros H. inversion H; subst. auto. Qed.

(** What a row is made of when the body of the [try] succeeds. *)
Lemma make_record_ok_inv (photo : path) (img_tags : dict) (img_gps : option dict)
      (log : list event) (r : row Z) :
  make_record photo img_tags img_gps = (log, Ok r) ->
  exists gps lat latref lon lonref s l1 l2,
    img_gps = Some gps
    /\ dict_get (KName "GPSLatitude") gps = Some lat
    /\ dict_get (KName "GPSLatitudeRef") gps = Some latref
    /\ convert_coords_to_decimal lat latref = (l1, Ok (latitude r))
    /\ dict_get (KName "GPSLongitude") gps = Some lon
    /\ dict_get (KName "GPSLongitudeRef") gps = Some lonref
    /\ convert_coords_to_decimal lon lonref = (l2, Ok (longitude r))
    /\ dict_get (KName "DateTime") img_tags = Some (VStr s)
    /\ Strptime.strptime s = Ok (datetime_ r)
    /\ day r = dt_day (datetime_ r)
    /\ filename r = name photo.
Proof.
  unfold make_record. intros H.
  apply bind_ok_inv in H as (? & lat & ? & Hlat & H & _).
  apply subscript_ok_inv in Hlat as (gps & Hg & Hlat & _).
  apply bind_ok_inv in H as (? & latref & ? & Hlatref & H & _).
  apply subscript_ok_inv in Hlatref as (gps1 & Hg1 & Hlatref & _).
  apply bind_ok_inv in H as (l1 & latitude & ? & Hc1 & H & _).
  apply bind_ok_inv in H as (? & lon & ? & Hlon & H & _).
  apply subscript_ok_inv in Hlon as (gps2 & Hg2 & Hlon & _).
  apply bind_ok_inv in H as (? & lonref & ? & Hlonref & H & _).
  apply subscript_ok_inv in Hlonref as (gps3 & Hg3 & Hlonref & _).
  apply bind_ok_inv in H as (l2 & longitude & ? & Hc2 & H & _).
  apply bind_ok_inv in H as (? & dt & ? & Hdt & H & _).
  apply subscript_ok_inv in Hdt as (tags & Ht & Hdt & _).
  apply bind_ok_inv in H as (? & date & ? & Hparse & H & _).
  apply lift_ok_inv in Hparse as [Hparse _].
  inversion H; subst. inversion Ht; subst.
  rewrite Hg1 in Hg2, Hg3. inversion Hg1; subst. inversion Hg2; subst. inversion Hg3; subst.
  destruct dt as [s| | |]; simpl in Hparse; try discriminate.
  exists gps3, lat, latref, lon, lonref, s, l1, l2. simpl. repeat split; assumption.
Qed.

Lemma process_some_inv (w : world) (p : path) (l : list event) (r : row Z) :
  process w p = (l, Ok (Some r)) ->
  Str.mem (Str.lower (suffix p)) [".jpg"; ".jpeg"; ".heic"] = true
  /\ exists img, get_image w p = ([], Ok img)
                 /\ make_record p (get_labeled_exif img) (get_gps_info img) = (l, Ok r).
Proof.
  unfold process.
  destruct (Str.mem (Str.lower (suffix p)) [".jpg"; ".jpeg"; ".heic"]); simpl negb; cbv iota;
    [|discriminate].
  intros H. split; [reflexivity|].
  apply bind_ok_inv in H as (l0 & img & l1 & Hm & Hk & Hlog).
  assert (Hi : get_image w p = ([], Ok img)).
  { unfold get_image in *.
    destruct (resolve (fs w) p) as [[[e| |]|]|]; try discriminate.
    inversion Hm; subst. reflexivity. }
  rewrite Hi in Hm. inversion Hm; subst. simpl.
  exists img. split; [exact Hi|].
  unfold get_exif in Hk.
  destruct (make_record p (get_labeled_exif img) (get_gps_info img)) as [l' [r'|e]];
    unfold except_KeyError in Hk; simpl in Hk.
  - inversion Hk; subst. reflexivity.
  - destruct e; discriminate.
Qed.

Lemma construct_df_ok_inv (w : world) (photos : list path) (log : list event) (df : frame Z) :
  construct_df w (Some photos) = (log, Ok df) ->
  exists l i, construct_df_loop w photos [] O = (l, Ok (df, i))
              /\ log = l ++ [PrintCounts i (List.length photos)].
Proof.
  unfold construct_df. intros H.
  apply bind_ok_inv in H as (l & [df' i] & l' & Hloop & Hk & Hlog).
  unfold bind, emit, ret in Hk; simpl in Hk. inversion Hk; subst.
  exists l, i. auto.
Qed.

Lemma construct_df_snd (w : world) (photos : list path) :
  snd (construct_df w (Some photos))
  = match snd (construct_df_loop w photos [] O) with
    | Ok st => Ok (fst st)
    | Raise e => Raise e
    end.
Proof.
  unfold construct_df, bind. destruct (snd (construct_df_loop w photos [] O)); reflexivity.
Qed.

(** C10. [construct_df] passes over, without opening it, every file
    whose lower-cased suffix is not .jpg, .jpeg or .heic: the loop runs
    as if the file were not in the list, so the outcome is the same; and
    every row of the frame it returns bears the name of a listed file
    with one of the three suffixes, whichever extensions discovery was
    asked for. *)
Theorem construct_df_rechecks_extension :
  forall (w : world),
    (forall pre p post,
        ~ In (Str.lower (suffix p)) [".jpg"; ".jpeg"; ".heic"] ->
        process w p = ([], Ok None)
        /\ (forall df i, construct_df_loop w (pre ++ p :: post) df i
                         = construct_df_loop w (pre ++ post) df i)
        /\ snd (construct_df w (Some (pre ++ p :: post)))
           = snd (construct_df w (Some (pre ++ post))))
    /\ (forall photos log df r,
          construct_df w (Some photos) = (log, Ok df) -> In r df ->
          exists p, In p photos /\ filename r = name p
                    /\ In (Str.lower (suffix p)) [".jpg"; ".jpeg"; ".heic"])
    /\ (forall dir exts l1 photos l2 df r,
          get_photos_from_path w dir exts = (l1, Ok (Some photos)) ->
          construct_df w (Some photos) = (l2, Ok df) -> In r df ->
          In (Str.lower (suffix_of_name (filename r))) [".jpg"; ".jpeg"; ".heic"]).
Proof.
  intros w.
  assert (Hrows : forall photos log df r,
             construct_df w (Some photos) = (log, Ok df) -> In r df ->
             exists p, In p photos /\ filename r = name p
                       /\ In (Str.lower (suffix p)) [".jpg"; ".jpeg"; ".heic"]).
  { intros photos log df r H Hr.
    apply construct_df_ok_inv in H as (l & i & Hloop & _).
    apply loop_rows in Hloop as (rs & Hdf & _ & Hrs). simpl in Hdf. subst rs.
    rewrite Forall_forall in Hrs. destruct (Hrs r Hr) as (p & lp & Hp & Hproc).
    apply process_some_inv in Hproc as (Hsuf & img & _ & Hrec).
    apply make_record_ok_inv in Hrec
      as (? & ? & ? & ? & ? & ? & ? & ? & _ & _ & _ & _ & _ & _ & _ & _ & _ & _ & Hname).
    exists p. rewrite <- mem_In. auto. }
  split; [|split].
  - intros pre p post Hsuf.
    assert (Hp : process w p = ([], Ok None)).
    { unfold process.
      destruct (Str.mem (Str.lower (suffix p)) [".jpg"; ".jpeg"; ".heic"]) eqn:E;
        [|reflexivity].
      apply mem_In in E. contradiction. }
    split; [exact Hp|]. split.
    + apply loop_skips, Hp.
    + rewrite !construct_df_snd, (loop_skips w pre p post Hp). reflexivity.
  - exact Hrows.
  - intros dir exts l1 photos l2 df r _ Hdf Hr.
    destruct (Hrows photos l2 df r Hdf Hr) as (p & _ & Hname & Hsuf).
    rewrite Hname. exact Hsuf.
Qed.

Lemma construct_df_rechecks_extension_witness :
  get_photos_from_path png_world ["trip"; "assets"] [".png"]
  = ([], Ok (Some [["trip"; "assets"; "pic.png"]]))
  /\ process png_world ["trip"; "assets"; "pic.png"] = ([], Ok None)
  /\ snd (construct_df png_world (Some ([] ++ ["trip"; "assets"; "pic.png"] :: [])))
     = snd (construct_df png_world (Some ([] ++ [])))
  /\ exists p, In p [["trip"; "assets"; "IMG_1.JPG"]]
               /\ filename sample_row = name p
               /\ In (Str.lower (suffix p)) [".jpg"; ".jpeg"; ".heic"].
Proof.
  split; [reflexivity|].
  destruct (construct_df_rechecks_extension png_world) as [H _].
  destruct (H [] ["trip"; "assets"; "pic.png"] []) as (H1 & _ & H3).
  - simpl. intros [E|[E|[E|[]]]]; discriminate E.
  - split; [exact H1|]. split; [exact H3|].
    destruct (construct_df_rechecks_extension sample_world) as (_ & H2 & _).
    apply (H2 [["trip"; "assets"; "IMG_1.JPG"]] [PrintCounts 1 1] [sample_row] sample_row).
    + reflexivity.
    + left. reflexivity.
Defined.

(** *** Malformed values *)

Lemma bind_raise_inv {A B} (m : M A) (f : A -> M B) (log : list event) (e : exn) :
  bind m f = (log, Raise e) ->
  m = (log, Raise e)
  \/ exists l1 a l2, m = (l1, Ok a) /\ f a = (l2, Raise e) /\ log = l1 ++ l2.
Proof.
  destruct m as [l1 [a|e1]]; unfold bind; simpl; intros H.
  - right. exists l1, a, (fst (f a)). destruct (f a) as [l2 r2]; simpl in *.
    inversion H; subst. auto.
  - left. inversion H; subst. reflexivity.
Qed.

Lemma mapM_lift_raise {A B} (f : A -> outcome B) (l : list A) :
  forall lg e, mapM (fun a => lift (f a)) l = (lg, Raise e) ->
               exists a, In a l /\ f a = Raise e.
Proof.
  induction l as [|a l IH]; intros lg e H; simpl in H; [discriminate|].
  apply bind_raise_inv in H as [H | (l1 & b & l2 & Hf & H & _)].
  - exists a. split; [left; reflexivity|]. unfold lift in H. inversion H. reflexivity.
  - apply bind_raise_inv in H as [H | (l3 & bs & l4 & _ & H & _)]; [|discriminate].
    destruct (IH _ _ H) as (a' & Ha' & Hfa'). exists a'. split; [right; exact Ha' | exact Hfa'].
Qed.

Lemma py_float_raise (c : component) (e : exn) : py_float c = Raise e -> e <> KeyError.
Proof.
  destruct c as [x|n|s [x|]|]; simpl; try discriminate;
    try (intros H; inversion H; discriminate).
  destruct (F64.is_inf (F64.of_Z n)); intros H; inversion H; discriminate.
Qed.

(** The conversion never raises [KeyError]. *)
Lemma convert_raise_not_KeyError (coords ref : value) (l : list event) (e : exn) :
  convert_coords_to_decimal coords ref = (l, Raise e) -> e <> KeyError.
Proof.
  unfold convert_coords_to_decimal. intros H.
  apply bind_raise_inv in H as [H | (? & u & ? & _ & H & _)].
  { destruct ref; inversion H; discriminate. }
  apply bind_raise_inv in H as [H | (? & mul & ? & _ & H & _)].
  { destruct (py_in u ["W"; "S"]); [discriminate|].
    destruct (py_in u ["E"; "N"]); discriminate. }
  apply bind_raise_inv in H as [H | (? & items & ? & _ & H & _)].
  { destruct coords; inversion H; discriminate. }
  apply bind_raise_inv in H as [H | (? & cs & ? & _ & H & _)].
  { apply mapM_lift_raise in H as (a & _ & Ha). eapply py_float_raise, Ha. }
  apply bind_raise_inv in H as [H | (? & m & ? & _ & H & _)].
  { destruct mul; inversion H; discriminate. }
  apply bind_raise_inv in H as [H | (? & c0 & ? & _ & H & _)].
  { unfold py_index, lift in H. destruct (nth_error cs 0); inversion H; discriminate. }
  apply bind_raise_inv in H as [H | (? & c1 & ? & _ & H & _)].
  { unfold py_index, lift in H. destruct (nth_error cs 1); inversion H; discriminate. }
  apply bind_raise_inv in H as [H | (? & c2 & ? & _ & H & _)].
  { unfold py_index, lift in H. destruct (nth_error cs 2); inversion H; discriminate. }
  discriminate.
Qed.

(** Whatever [strptime] refuses, it refuses with [ValueError]. *)
Lemma strptime_raise (s : string) (e : exn) :
  Strptime.strptime s = Raise e -> e = ValueError.
Proof.
  unfold Strptime.strptime.
  destruct (Strptime.re_match (list_ascii_of_string s)) as [f|]; [|intros H; inversion H; reflexivity].
  destruct (Strptime.f_rest f); [|intros H; inversion H; reflexivity].
  match goal with |- (if ?b then _ else _) = _ -> _ => destruct b end;
    intros H; inversion H; reflexivity.
Qed.

(** The body of the [try] when the latitude does not convert. *)
Lemma make_record_latitude_raises (p : path) (tags gps : dict) (lat latref : value)
      (l : list event) (e : exn) :
  dict_get (KName "GPSLatitude") gps = Some lat ->
  dict_get (KName "GPSLatitudeRef") gps = Some latref ->
  convert_coords_to_decimal lat latref = (l, Raise e) ->
  make_record p tags (Some gps) = (l, Raise e).
Proof.
  intros Hlat Href Hc. unfold make_record, subscript.
  rewrite Hlat, Href, !bind_ret, Hc. reflexivity.
Qed.

(** The body of the [try] when the capture time does not parse. *)
Lemma make_record_datetime_raises (p : path) (tags gps : dict)
      (lat latref lon lonref dt : value) (la lo : list event) (y1 y2 : float) (e : exn) :
  dict_get (KName "GPSLatitude") gps = Some lat ->
  dict_get (KName "GPSLatitudeRef") gps = Some latref ->
  convert_coords_to_decimal lat latref = (la, Ok y1) ->
  dict_get (KName "GPSLongitude") gps = Some lon ->
  dict_get (KName "GPSLongitudeRef") gps = Some lonref ->
  convert_coords_to_decimal lon lonref = (lo, Ok y2) ->
  dict_get (KName "DateTime") tags = Some dt ->
  py_strptime dt = Raise e ->
  make_record p tags (Some gps) = (la ++ lo, Raise e).
Proof.
  intros Hlat Hlatref Hc1 Hlon Hlonref Hc2 Hdt Hparse. unfold make_record, subscript.
  rewrite Hlat, Hlatref, !bind_ret, Hc1, bind_ok.
  rewrite Hlon, Hlonref, !bind_ret, Hc2, bind_ok. simpl fst. simpl snd.
  rewrite Hdt, bind_ret, Hparse. simpl. rewrite app_nil_r. reflexivity.
Qed.

(** Any exception of the body of the [try] other than [KeyError]
    leaves [construct_df], whatever files come after. *)
Lemma construct_df_aborts (w : world) (pre : list path) (p : path) (post : list path)
      (img : exif) (l1 l2 : list event) (st : frame Z * nat) (e : exn) :
  construct_df_loop w pre [] O = (l1, Ok st) ->
  Str.mem (Str.lower (suffix p)) [".jpg"; ".jpeg"; ".heic"] = true ->
  get_image w p = ([], Ok img) ->
  make_record p (get_labeled_exif img) (get_gps_info img) = (l2, Raise e) ->
  e <> KeyError ->
  construct_df w (Some (pre ++ p :: post)) = (l1 ++ l2, Raise e).
Proof.
  intros Hpre Hs Hi Hr He. unfold construct_df.
  rewrite (loop_aborts w pre p post [] O l1 l2 st e Hpre); [reflexivity|].
  unfold process. rewrite Hs, Hi. simpl negb. cbv iota.
  rewrite bind_ok. unfold get_exif, except_KeyError. rewrite Hr. simpl.
  destruct e; try reflexivity. congruence.
Qed.

(** C3, as the code runs.  Take a batch whose files before [p] go
    through, and a photo [p] that is opened and has its GPS directory.
    If its coordinates convert and its capture time is a text that
    [strptime] refuses, or if the first component of its latitude is
    not a number, the exception ([ValueError] for the capture time, the
    one [float] raised for the component) is not caught by the handler
    of [KeyError]: it leaves [construct_df], no frame is returned and
    the files after [p] are never read. *)
Theorem construct_df_malformed_aborts :
  forall (w : world) (pre post : list path) (p : path) (img : exif) (gps : dict)
         (l1 : list event) (st : frame Z * nat),
    construct_df_loop w pre [] O = (l1, Ok st) ->
    Str.mem (Str.lower (suffix p)) [".jpg"; ".jpeg"; ".heic"] = true ->
    get_image w p = ([], Ok img) ->
    get_gps_info img = Some gps ->
    (forall lat latref lon lonref la lo y1 y2 s e,
        dict_get (KName "GPSLatitude") gps = Some lat ->
        dict_get (KName "GPSLatitudeRef") gps = Some latref ->
        convert_coords_to_decimal lat latref = (la, Ok y1) ->
        dict_get (KName "GPSLongitude") gps = Some lon ->
        dict_get (KName "GPSLongitudeRef") gps = Some lonref ->
        convert_coords_to_decimal lon lonref = (lo, Ok y2) ->
        dict_get (KName "DateTime") (get_labeled_exif img) = Some (VStr s) ->
        Strptime.strptime s = Raise e ->
        e = ValueError
        /\ construct_df w (Some (pre ++ p :: post)) = (l1 ++ la ++ lo, Raise ValueError))
    /\ (forall c rest ref e,
        dict_get (KName "GPSLatitude") gps = Some (VTuple (c :: rest)) ->
        dict_get (KName "GPSLatitudeRef") gps = Some (VStr ref) ->
        py_float c = Raise e ->
        snd (construct_df w (Some (pre ++ p :: post))) = Raise e).
Proof.
  intros w pre post p img gps l1 st Hpre Hs Hi Hg. split.
  - intros lat latref lon lonref la lo y1 y2 s e Hlat Hlatref Hc1 Hlon Hlonref Hc2 Hdt Hparse.
    pose proof (strptime_raise s e Hparse) as ->. split; [reflexivity|].
    apply (construct_df_aborts w pre p post img l1 (la ++ lo) st ValueError Hpre Hs Hi);
      [|discriminate].
    rewrite Hg.
    exact (make_record_datetime_raises p _ gps lat latref lon lonref (VStr s) la lo y1 y2
             ValueError Hlat Hlatref Hc1 Hlon Hlonref Hc2 Hdt Hparse).
  - intros c rest ref e Hlat Href Hf.
    assert (Hc : exists lg, convert_coords_to_decimal (VTuple (c :: rest)) (VStr ref)
                            = (lg, Raise e)).
    { unfold convert_coords_to_decimal. simpl py_upper. rewrite bind_lift_ok. cbn [py_in].
      destruct (Str.mem (Str.upper ref) ["W"; "S"]);
        [| destruct (Str.mem (Str.upper ref) ["E"; "N"]) ];
        unfold bind, lift, ret, emit, mapM; simpl; rewrite Hf; simpl; eauto. }
    destruct Hc as [lg Hc].
    rewrite (construct_df_aborts w pre p post img l1 lg st e Hpre Hs Hi);
      [reflexivity | | eapply py_float_raise, Hf].
    rewrite Hg. exact (make_record_latitude_raises p _ gps _ _ lg e Hlat Href Hc).
Qed.

Lemma construct_df_malformed_aborts_witness :
  construct_df batch_world (Some ([in_assets "a.jpg"] ++ in_assets "b.jpg" :: [in_assets "d.jpg"]))
  = ([], Raise ValueError)
  /\ snd (construct_df batch_world
            (Some ([in_assets "a.jpg"] ++ in_assets "c.jpg" :: [in_assets "d.jpg"])))
     = Raise ValueError
  /\ construct_df batch_world (Some [in_assets "a.jpg"; in_assets "d.jpg"])
     = ([PrintCounts 2 2], Ok [row_a; row_d]).
Proof.
  split; [|split; [|reflexivity]].
  - destruct (construct_df_malformed_aborts batch_world [in_assets "a.jpg"] [in_assets "d.jpg"]
                (in_assets "b.jpg") (mkExif [(306, VStr "2023-07-15 10:20:30")] good_gps)
                _ [] ([row_a], 1%nat) eq_refl eq_refl eq_refl eq_refl) as [H _].
    destruct (H (VTuple [CInt 10; CInt 30; CInt 0]) (VStr "N")
                (VTuple [CInt 20; CInt 0; CInt 0]) (VStr "E") [] []
                (F64.of_bin 21 (-1)) (F64.of_Z 20) "2023-07-15 10:20:30" ValueError
                eq_refl eq_refl eq_refl eq_refl eq_refl eq_refl eq_refl eq_refl) as [_ H'].
    exact H'.
  - destruct (construct_df_malformed_aborts batch_world [in_assets "a.jpg"] [in_assets "d.jpg"]
                (in_assets "c.jpg")
                (mkExif [(306, VStr "2023:07:16 10:20:30")]
                        [(1, VStr "N"); (2, VTuple [CStr "abc" None; CInt 30; CInt 0]);
                         (3, VStr "E"); (4, VTuple [CInt 20; CInt 0; CInt 0])])
                _ [] ([row_a], 1%nat) eq_refl eq_refl eq_refl eq_refl) as [_ H].
    exact (H (CStr "abc" None) [CInt 30; CInt 0] "N" ValueError eq_refl eq_refl eq_refl).
Defined.

(** C4, as the code runs.  Take a batch whose files before [p] go
    through, and a photo [p] that is opened and has its GPS directory.
    When the latitude or its reference is the missing tag, [p] gives no
    row and the loop goes on as if [p] were not listed.  But when the
    longitude, its reference or the capture time is the missing tag
    and the latitude, looked up and converted first, does not convert,
    the exception of the conversion leaves [construct_df] and the batch
    is lost. *)
Theorem construct_df_missing_tag_aborts :
  forall (w : world) (pre post : list path) (p : path) (img : exif) (gps : dict)
         (l1 : list event) (st : frame Z * nat),
    construct_df_loop w pre [] O = (l1, Ok st) ->
    Str.mem (Str.lower (suffix p)) [".jpg"; ".jpeg"; ".heic"] = true ->
    get_image w p = ([], Ok img) ->
    get_gps_info img = Some gps ->
    (dict_get (KName "GPSLatitude") gps = None
     \/ dict_get (KName "GPSLatitudeRef") gps = None ->
     construct_df_loop w (pre ++ p :: post) [] O = construct_df_loop w (pre ++ post) [] O)
    /\ (forall lat latref l2 e,
        dict_get (KName "GPSLatitude") gps = Some lat ->
        dict_get (KName "GPSLatitudeRef") gps = Some latref ->
        dict_get (KName "GPSLongitude") gps = None
        \/ dict_get (KName "GPSLongitudeRef") gps = None
        \/ dict_get (KName "DateTime") (get_labeled_exif img) = None ->
        convert_coords_to_decimal lat latref = (l2, Raise e) ->
        construct_df w (Some (pre ++ p :: post)) = (l1 ++ l2, Raise e)).
Proof.
  intros w pre post p img gps l1 st Hpre Hs Hi Hg. split.
  - intros Hmiss. apply loop_skips.
    unfold process. rewrite Hs, Hi. simpl negb. cbv iota. rewrite bind_ok.
    unfold get_exif, except_KeyError, make_record, subscript. rewrite Hg.
    destruct (dict_get (KName "GPSLatitude") gps) as [lat|] eqn:E1; [|reflexivity].
    destruct Hmiss as [Hm|Hm]; [discriminate|]. rewrite Hm, bind_ret. reflexivity.
  - intros lat latref l2 e Hlat Hlatref _ Hc.
    apply (construct_df_aborts w pre p post img l1 l2 st e Hpre Hs Hi).
    + rewrite Hg. exact (make_record_latitude_raises p _ gps lat latref l2 e Hlat Hlatref Hc).
    + eapply convert_raise_not_KeyError, Hc.
Qed.

Lemma construct_df_missing_tag_aborts_witness :
  construct_df_loop batch_world ([in_assets "a.jpg"] ++ in_assets "g.jpg" :: [in_assets "d.jpg"])
                    [] O
  = construct_df_loop batch_world ([in_assets "a.jpg"] ++ [in_assets "d.jpg"]) [] O
  /\ construct_df batch_world
       (Some ([in_assets "a.jpg"] ++ in_assets "m.jpg" :: [in_assets "d.jpg"]))
     = ([PrintBadRef (VStr "X")], Raise UnboundLocalError)
  /\ construct_df batch_world (Some [in_assets "a.jpg"; in_assets "d.jpg"])
     = ([PrintCounts 2 2], Ok [row_a; row_d]).
Proof.
  split; [|split; [|reflexivity]].
  - destruct (construct_df_missing_tag_aborts batch_world [in_assets "a.jpg"]
                [in_assets "d.jpg"] (in_assets "g.jpg")
                (mkExif [(306, VStr "2023:07:16 10:20:30")] [])
                _ [] ([row_a], 1%nat) eq_refl eq_refl eq_refl eq_refl) as [H _].
    apply H. left. reflexivity.
  - destruct (construct_df_missing_tag_aborts batch_world [in_assets "a.jpg"]
                [in_assets "d.jpg"] (in_assets "m.jpg")
                (mkExif [(306, VStr "2023:07:16 10:20:30")]
                        [(1, VStr "X"); (2, VTuple [CInt 10; CInt 30; CInt 0])])
                _ [] ([row_a], 1%nat) eq_refl eq_refl eq_refl eq_refl) as [_ H].
    exact (H (VTuple [CInt 10; CInt 30; CInt 0]) (VStr "X") [PrintBadRef (VStr "X")]
             UnboundLocalError eq_refl eq_refl (or_introl eq_refl) eq_refl).
Defined.

(** What does hold of a missing tag: when the body of the [try] ends
    in a [KeyError], the file gives no row and the loop goes on as if
    the file were not listed. *)
Lemma process_KeyError (w : world) (p : path) (img : exif) (l : list event) :
  Str.mem (Str.lower (suffix p)) [".jpg"; ".jpeg"; ".heic"] = true ->
  get_image w p = ([], Ok img) ->
  make_record p (get_labeled_exif img) (get_gps_info img) = (l, Raise KeyError) ->
  process w p = (l, Ok None).
Proof.
  intros Hs Hi Hr. unfold process. rewrite Hs, Hi. simpl negb. cbv iota.
  rewrite bind_ok. unfold get_exif, except_KeyError. rewrite Hr. reflexivity.
Qed.

Lemma get_gps_info_some (img : exif) :
  get_gps_info img = Some (map (fun kv => (tag_get GPSTAGS (fst kv), snd kv)) (gps_ifd img)).
Proof. reflexivity. Qed.

(** A file whose GPS directory has no latitude, or no latitude
    reference, is passed over in silence. *)
Lemma construct_df_skips_no_latitude (w : world) (pre : list path) (p : path)
      (post : list path) (img : exif) (gps : dict) :
  get_image w p = ([], Ok img) ->
  get_gps_info img = Some gps ->
  dict_get (KName "GPSLatitude") gps = None
  \/ dict_get (KName "GPSLatitudeRef") gps = None ->
  forall df i,
    construct_df_loop w (pre ++ p :: post) df i = construct_df_loop w (pre ++ post) df i.
Proof.
  intros Hi Hg Hmiss. apply loop_skips.
  destruct (Str.mem (Str.lower (suffix p)) [".jpg"; ".jpeg"; ".heic"]) eqn:Hs.
  - apply (process_KeyError w p img [] Hs Hi).
    unfold make_record, subscript. rewrite Hg.
    destruct (dict_get (KName "GPSLatitude") gps) as [lat|] eqn:E1; [|reflexivity].
    destruct Hmiss as [Hm|Hm]; [discriminate|]. rewrite Hm.
    rewrite bind_ret. reflexivity.
  - unfold process. rewrite Hs. reflexivity.
Qed.

(** ** The cache decision and the missing directory *)

(** C5, as the code runs.  When neither the cache file nor the assets
    directory exists, discovery prints its complaint and returns [None];
    [get_df] hands that [None] to [construct_df], whose loop raises
    [TypeError], and the exception leaves [get_df]. *)
Theorem get_df_invalid_directory :
  forall (w : world),
    path_exists w (joinpath (cwd w) "saved_df.csv") = false ->
    path_exists w (ASSETS_PATH w) = false ->
    get_photos_from_path w (ASSETS_PATH w) default_extensions
    = ([PrintInvalidPath (ASSETS_PATH w)], Ok None)
    /\ get_df w = ([PrintInvalidPath (ASSETS_PATH w)], Raise TypeError).
Proof.
  intros w Hcache Hdir.
  assert (H : get_photos_from_path w (ASSETS_PATH w) default_extensions
              = ([PrintInvalidPath (ASSETS_PATH w)], Ok None)).
  { unfold get_photos_from_path. rewrite Hdir. reflexivity. }
  split; [exact H|].
  unfold get_df. rewrite Hcache, H. reflexivity.
Qed.

Lemma get_df_invalid_directory_witness :
  get_df empty_world = ([PrintInvalidPath ["trip"; "assets"]], Raise TypeError).
Proof.
  apply (get_df_invalid_directory empty_world); reflexivity.
Defined.

(** ** Day normalisation *)

Lemma fold_min_le (l : list Z) :
  forall a, fold_left Z.min l a <= a /\ Forall (fun x => fold_left Z.min l a <= x) l.
Proof.
  induction l as [|x l IH]; intros a; simpl.
  - split; [lia | constructor].
  - destruct (IH (Z.min a x)) as [H1 H2]. split; [lia|].
    constructor; [lia | exact H2].
Qed.

Lemma fold_min_In (l : list Z) :
  forall a, fold_left Z.min l a = a \/ In (fold_left Z.min l a) l.
Proof.
  induction l as [|x l IH]; intros a; simpl; [left; reflexivity|].
  destruct (IH (Z.min a x)) as [H|H]; [|right; right; exact H].
  rewrite H. destruct (Z.min_spec a x) as [[_ E]|[_ E]]; rewrite E; auto.
Qed.

(** [series_min] is the least element of a series that is not empty. *)
Lemma series_min_spec (s : list Z) :
  s <> [] -> In (series_min s) s /\ Forall (fun d => series_min s <= d) s.
Proof.
  destruct s as [|d s]; [congruence|]. intros _. unfold series_min.
  destruct (fold_min_le s d) as [H1 H2]. split.
  - destruct (fold_min_In s d) as [H|H]; [left; symmetry; exact H | right; exact H].
  - constructor; assumption.
Qed.

Lemma set_day_map {D E F} (f : E -> F) (g : row D -> E) (df : frame D) :
  set_day df (map f (map g df)) = map (fun r => with_day r (f (g r))) df.
Proof.
  induction df as [|r df IH]; simpl; [reflexivity|].
  rewrite IH. reflexivity.
Qed.

Lemma day_to_one_eq (df : frame Z) :
  df <> [] ->
  day_to_one df
  = ret (map (fun r => with_day r (day r - series_min (map day df) + 1)) df).
Proof.
  intros Hne. unfold day_to_one, col_day.
  destruct df as [|r0 df0]; [congruence|]. rewrite bind_ret.
  unfold normalize_days, series_sub. rewrite set_day_map. f_equal.
  apply map_ext. intros r. f_equal. lia.
Qed.

Lemma day_to_str_eq (df : frame Z) :
  df <> [] ->
  day_to_str df = ret (map (fun r => with_day r (DayStr (Str.of_Z (day r)))) df).
Proof.
  intros Hne. unfold day_to_str, col_day.
  destruct df as [|r0 df0]; [congruence|]. rewrite bind_ret.
  unfold astype_str. rewrite set_day_map. reflexivity.
Qed.



(** ** The rows of the dataset *)

Lemma mapM_lift_In {A B} (f : A -> outcome B) (l : list A) :
  forall lg bs b,
    mapM (fun a => lift (f a)) l = (lg, Ok bs) -> In b bs ->
    exists a, In a l /\ f a = Ok b.
Proof.
  induction l as [|a l IH]; intros lg bs b H Hb.
  - simpl in H. inversion H; subst. contradiction.
  - simpl in H.
    apply bind_ok_inv in H as (? & b0 & ? & Hf & H & _).
    apply lift_ok_inv in Hf as [Hf _].
    apply bind_ok_inv in H as (lg' & bs' & ? & Hm & H & _).
    inversion H; subst. destruct Hb as [<-|Hb].
    + exists a. split; [left; reflexivity | exact Hf].
    + destruct (IH lg' bs' b Hm Hb) as (a' & Ha' & Hfa').
      exists a'. split; [right; exact Ha' | exact Hfa'].
Qed.

Lemma py_index_In (l : list float) (i : nat) (x : float) :
  py_index l i = Ok x -> In x l.
Proof.
  unfold py_index. destruct (nth_error l i) as [y|] eqn:E; [|discriminate].
  intros H. inversion H; subst. eapply nth_error_In, E.
Qed.

(** A conversion that returns, on finite components, returns a number. *)
Lemma convert_ok_not_nan (coords ref : value) (l : list event) (y : float) :
  convert_coords_to_decimal coords ref = (l, Ok y) ->
  finite_components coords ->
  F64.is_nan y = false.
Proof.
  unfold convert_coords_to_decimal. intros H Hfin.
  apply bind_ok_inv in H as (? & u & ? & _ & H & _).
  apply bind_ok_inv in H as (? & mul & ? & Hmul & H & _).
  apply bind_ok_inv in H as (? & items & ? & Hit & H & _).
  apply lift_ok_inv in Hit as [Hit _].
  apply bind_ok_inv in H as (lg & cs & ? & Hcs & H & _).
  apply bind_ok_inv in H as (? & m & ? & Hm & H & _).
  apply lift_ok_inv in Hm as [Hm _].
  apply bind_ok_inv in H as (? & c0 & ? & H0 & H & _).
  apply lift_ok_inv in H0 as [H0 _].
  apply bind_ok_inv in H as (? & c1 & ? & H1 & H & _).
  apply lift_ok_inv in H1 as [H1 _].
  apply bind_ok_inv in H as (? & c2 & ? & H2 & H & _).
  apply lift_ok_inv in H2 as [H2 _].
  inversion H; subst y.
  assert (Hc : forall c, In c cs -> F64.is_finite c = true).
  { intros c Hc. destruct (mapM_lift_In py_float items lg cs c Hcs Hc) as (a & Ha & Hfa).
    exact (Hfin items a c Hit Ha Hfa). }
  pose proof (dms_not_nan c0 c1 c2 (Hc _ (py_index_In _ _ _ H0))
                (Hc _ (py_index_In _ _ _ H1)) (Hc _ (py_index_In _ _ _ H2))) as Hv.
  destruct mul as [m'|]; [|discriminate]. inversion Hm; subst m'.
  assert (Hsign : m = -1 \/ m = 1).
  { destruct (py_in u ["W"; "S"]); [left; inversion Hmul; reflexivity|].
    destruct (py_in u ["E"; "N"]); [right; inversion Hmul; reflexivity|].
    unfold bind, emit, ret in Hmul; simpl in Hmul. discriminate. }
  destruct Hsign as [-> | ->].
  - change (F64.of_Z (-1)) with (S754_finite true 4503599627370496 (-52)).
    apply mul_const_not_nan, Hv.
  - change (F64.of_Z 1) with (S754_finite false 4503599627370496 (-52)).
    apply mul_const_not_nan, Hv.
Qed.

Lemma get_photos_ok_inv (w : world) (dir : path) (exts : list string)
      (l : list event) (photos : list path) :
  get_photos_from_path w dir exts = (l, Ok (Some photos)) ->
  forall p, In p photos -> exists n, p = joinpath dir n.
Proof.
  unfold get_photos_from_path.
  destruct (path_exists w dir); simpl negb; cbv iota; [|discriminate].
  intros H. apply bind_ok_inv in H as (? & names & ? & _ & H & _).
  inversion H; subst. intros p Hp. apply in_map_iff in Hp as (n & Hn & _).
  exists n. symmetry. exact Hn.
Qed.

(** What [get_df] returns when it builds the dataset. *)
Lemma get_df_fresh_inv (w : world) (log : list event) (df : frame daycell) :
  path_exists w (joinpath (cwd w) "saved_df.csv") = false ->
  get_df w = (log, Ok df) ->
  exists l1 photos l2 df0,
    get_photos_from_path w (ASSETS_PATH w) default_extensions = (l1, Ok (Some photos))
    /\ construct_df w (Some photos) = (l2, Ok df0)
    /\ df0 <> []
    /\ df = map (fun r => with_day r (DayStr (Str.of_Z (day r - series_min (map day df0) + 1))))
                df0.
Proof.
  intros Hcache H. unfold get_df in H. rewrite Hcache in H.
  apply bind_ok_inv in H as (l1 & photo_list & ? & Hph & H & _).
  apply bind_ok_inv in H as (l2 & df0 & ? & Hdf & H & _).
  destruct photo_list as [photos|]; [|discriminate].
  apply bind_ok_inv in H as (? & df1 & ? & Hone & H & _).
  apply bind_ok_inv in H as (? & df2 & ? & Hstr & H & _).
  assert (Hne : df0 <> []).
  { intros ->. discriminate. }
  rewrite (day_to_one_eq df0 Hne) in Hone. inversion Hone; subst df1.
  rewrite day_to_str_eq in Hstr by (destruct df0; simpl; congruence).
  inversion Hstr; subst df2.
  unfold bind, emit, ret in H; simpl in H. inversion H; subst df.
  exists l1, photos, l2, df0. rewrite map_map. auto.
Qed.

Lemma name_joinpath (d : path) (n : string) : name (joinpath d n) = n.
Proof. unfold name, joinpath. apply last_last. Qed.

Lemma get_photos_ok_dir (w : world) (dir : path) (exts : list string)
      (l : list event) (photos : list path) :
  get_photos_from_path w dir exts = (l, Ok (Some photos)) ->
  exists es, resolve (fs w) dir = Some (Dir es)
             /\ photos = map (joinpath dir)
                             (filter (fun n => Str.mem (Str.lower (suffix_of_name n)) exts)
                                     (map fst es)).
Proof.
  unfold get_photos_from_path, path_exists, listdir.
  destruct (resolve (fs w) dir) as [[c|es]|]; simpl negb; cbv iota; try discriminate.
  rewrite bind_ret. intros H. inversion H. exists es. split; reflexivity.
Qed.

Lemma get_image_ok_inv (w : world) (p : path) (l : list event) (img : exif) :
  get_image w p = (l, Ok img) -> resolve (fs w) p = Some (File (Image img)).
Proof.
  unfold get_image. destruct (resolve (fs w) p) as [[[e|t|]|es]|]; try discriminate.
  intros H. inversion H. reflexivity.
Qed.

(** C7, where it fails.  The pipeline returns a row whose latitude is a
    NaN, the missing value of pandas, and whose day is the text "1". *)
Lemma get_df_row_with_null_latitude :
  get_df nan_world
  = ([PrintCounts 1 1; ToCsv ["trip"; "saved_df.csv"] [nan_row]], Ok [nan_row])
  /\ isnull (latitude nan_row) = true
  /\ day nan_row = DayStr "1".
Proof. repeat split; vm_compute; reflexivity. Qed.

(** C7, amended.  In every dataset that [get_df] builds, each row is
    that of the photo of the assets directory that its file name
    names: its timestamp is parsed from the [DateTime] tag of that
    photo and its latitude and longitude are converted from the GPS
    tags of that photo.  The latitude and the longitude are not null
    when no coordinate component of the photo files in the assets
    directory is a NaN or an infinity, and the day is the decimal text
    of an integer [>= 1]. *)
Theorem get_df_rows_invariant :
  forall (w : world) (log : list event) (df : frame daycell),
    path_exists w (joinpath (cwd w) "saved_df.csv") = false ->
    get_df w = (log, Ok df) ->
    forall r, In r df ->
      (exists img gps s lat latref lon lonref,
          resolve (fs w) (joinpath (ASSETS_PATH w) (filename r)) = Some (File (Image img))
          /\ dict_get (KName "DateTime") (get_labeled_exif img) = Some (VStr s)
          /\ Strptime.strptime s = Ok (datetime_ r)
          /\ get_gps_info img = Some gps
          /\ dict_get (KName "GPSLatitude") gps = Some lat
          /\ dict_get (KName "GPSLatitudeRef") gps = Some latref
          /\ snd (convert_coords_to_decimal lat latref) = Ok (latitude r)
          /\ dict_get (KName "GPSLongitude") gps = Some lon
          /\ dict_get (KName "GPSLongitudeRef") gps = Some lonref
          /\ snd (convert_coords_to_decimal lon lonref) = Ok (longitude r))
      /\ ((forall n img, get_image w (joinpath (ASSETS_PATH w) n) = ([], Ok img) ->
                         finite_coordinates img) ->
          isnull (latitude r) = false /\ isnull (longitude r) = false)
      /\ (exists n, day r = DayStr (Str.of_Z n) /\ 1 <= n).
Proof.
  intros w log df Hcache H r Hr.
  apply (get_df_fresh_inv w log df Hcache) in H
    as (l1 & photos & l2 & df0 & Hph & Hdf & Hne & ->).
  apply in_map_iff in Hr as (r0 & <- & Hr0).
  apply construct_df_ok_inv in Hdf as (l & i & Hloop & _).
  apply loop_rows in Hloop as (rs & Hrs & _ & Hall). simpl in Hrs. subst rs.
  rewrite Forall_forall in Hall. destruct (Hall r0 Hr0) as (p & lp & Hp & Hproc).
  apply process_some_inv in Hproc as (_ & img & Himg & Hrec).
  apply make_record_ok_inv in Hrec
    as (gps & lat & latref & lon & lonref & s & la & lo
        & Hg & Hlat & Hlatref & Hc1 & Hlon & Hlonref & Hc2 & Hdt & Hparse & _ & Hname).
  destruct (get_photos_ok_inv _ _ _ _ _ Hph p Hp) as (n & ->).
  rewrite name_joinpath in Hname.
  simpl. split; [|split].
  - exists img, gps, s, lat, latref, lon, lonref. rewrite Hname, Hc1, Hc2.
    apply get_image_ok_inv in Himg. repeat split; assumption.
  - intros Hnn.
    pose proof (Hnn n img Himg) as Hi. unfold isnull. split.
    + eapply convert_ok_not_nan; [exact Hc1|]. eapply Hi; eauto.
    + eapply convert_ok_not_nan; [exact Hc2|]. eapply Hi; eauto.
  - exists (day r0 - series_min (map day df0) + 1). split; [reflexivity|].
    assert (Hs : map day df0 <> []) by (destruct df0; simpl; congruence).
    destruct (series_min_spec (map day df0) Hs) as [_ Hle].
    rewrite Forall_forall in Hle. pose proof (Hle (day r0) (in_map day df0 r0 Hr0)). lia.
Qed.

Lemma get_df_rows_invariant_witness :
  isnull (latitude one_photo_row) = false /\ isnull (longitude one_photo_row) = false.
Proof.
  assert (Hrun : get_df one_photo_world
                 = ([PrintCounts 1 1; ToCsv ["trip"; "saved_df.csv"] [one_photo_row]],
                    Ok [one_photo_row])) by reflexivity.
  destruct (get_df_rows_invariant one_photo_world _ _ eq_refl Hrun one_photo_row
              (or_introl eq_refl)) as (_ & H & _).
  apply H. intros n img Hi gps v Hg Hv items c x Hit Hc Hf.
  unfold get_image, one_photo_world, ASSETS_PATH, joinpath in Hi.
  do 3 (cbn -[String.eqb] in Hi; rewrite ?String.eqb_refl in Hi).
  destruct (String.eqb "IMG_1.JPG" n); [|discriminate].
  inversion Hi; subst img. inversion Hg; subst gps.
  destruct Hv as [Hv|Hv]; inversion Hv; subst v; inversion Hit; subst items;
    simpl in Hc; destruct Hc as [<-|[<-|[<-|[]]]]; inversion Hf; reflexivity.
Defined.


(** ** Tag names *)

Lemma labelled_get_gen (registry : list (Z * string)) (k : Z) (n : string)
      (items : list (Z * value)) :
  tag_get registry k = KName n ->
  (forall k', tag_get registry k' = KName n -> k' = k) ->
  forall acc,
    fold_left (fun acc kv => if key_eqb (fst kv) (KName n) then Some (snd kv) else acc)
              (map (fun kv => (tag_get registry (fst kv), snd kv)) items) acc
    = fold_left (fun acc kv => if fst kv =? k then Some (snd kv) else acc) items acc.
Proof.
  intros Hk Hinj. induction items as [|[k' v] items IH]; intros acc; simpl; [reflexivity|].
  rewrite IH. f_equal.
  destruct (Z.eqb_spec k' k) as [->|Hne].
  - rewrite Hk. simpl. rewrite String.eqb_refl. reflexivity.
  - destruct (tag_get registry k') as [m|j] eqn:E; simpl; [|reflexivity].
    destruct (String.eqb_spec m n) as [->|]; [|reflexivity].
    exfalso. apply Hne, Hinj, E.
Qed.

Lemma TAGS_DateTime (k : Z) : tag_get TAGS k = KName "DateTime" -> k = 306.
Proof.
  unfold TAGS. cbn [tag_get].
  repeat match goal with
         | |- context [?a =? k] => destruct (Z.eqb_spec a k); [subst; try discriminate; try reflexivity|]
         end; try discriminate; auto.
Qed.

Lemma GPSTAGS_inj (k : Z) (n : string) (k0 : Z) :
  In (k0, n) GPSTAGS -> tag_get GPSTAGS k = KName n -> k = k0.
Proof.
  unfold GPSTAGS. cbn [tag_get In].
  intros Hin.
  repeat match goal with
         | |- context [?a =? k] => destruct (Z.eqb_spec a k); [subst k|]
         end; intros H; try discriminate H;
    inversion H; subst n;
    repeat (destruct Hin as [Hin|Hin]; [inversion Hin; try reflexivity|]); try contradiction.
Qed.

(** X1. Looking a tag up by its name in the labelled dictionaries gives
    the value that the image holds under the tag's numeric id (the last
    one, should the id be listed twice), whatever other ids the image
    holds: 306 for [DateTime] in the base directory, 1 to 4 for the
    latitude and longitude tags of the GPS directory.  [get_gps_info]
    always returns a dictionary, the empty one for an image without GPS
    directory. *)
Theorem tag_names_resolve :
  forall (e : exif),
    dict_get (KName "DateTime") (get_labeled_exif e) = raw_get 306 (exif_items e)
    /\ exists gps,
         get_gps_info e = Some gps
         /\ dict_get (KName "GPSLatitudeRef") gps = raw_get 1 (gps_ifd e)
         /\ dict_get (KName "GPSLatitude") gps = raw_get 2 (gps_ifd e)
         /\ dict_get (KName "GPSLongitudeRef") gps = raw_get 3 (gps_ifd e)
         /\ dict_get (KName "GPSLongitude") gps = raw_get 4 (gps_ifd e)
         /\ (gps_ifd e = [] -> gps = []).
Proof.
  intros e. split.
  - unfold dict_get, get_labeled_exif, raw_get.
    apply labelled_get_gen; [reflexivity | apply TAGS_DateTime].
  - exists (map (fun kv => (tag_get GPSTAGS (fst kv), snd kv)) (gps_ifd e)).
    split; [reflexivity|].
    unfold dict_get, raw_get.
    repeat split.
    + apply labelled_get_gen; [reflexivity|].
      intros k'. apply (GPSTAGS_inj k' "GPSLatitudeRef" 1). simpl. tauto.
    + apply labelled_get_gen; [reflexivity|].
      intros k'. apply (GPSTAGS_inj k' "GPSLatitude" 2). simpl. tauto.
    + apply labelled_get_gen; [reflexivity|].
      intros k'. apply (GPSTAGS_inj k' "GPSLongitudeRef" 3). simpl. tauto.
    + apply labelled_get_gen; [reflexivity|].
      intros k'. apply (GPSTAGS_inj k' "GPSLongitude" 4). simpl. tauto.
    + intros ->. reflexivity.
Qed.


(** ** More on the conversion *)

Lemma mapM_lift_ok {A B} (f : A -> outcome B) (l : list A) (bs : list B) :
  Forall2 (fun a b => f a = Ok b) l bs ->
  mapM (fun a => lift (f a)) l = ret bs.
Proof.
  induction 1 as [|a b l bs Hab _ IH]; simpl; [reflexivity|].
  rewrite Hab, bind_lift_ok, IH, bind_ret. reflexivity.
Qed.

Lemma convert_west_south (coords : value) (ref : string) :
  Str.mem (Str.upper ref) ["W"; "S"] = true ->
  convert_coords_to_decimal coords (VStr ref) = convert_with (-1) coords.
Proof.
  intros H. unfold convert_coords_to_decimal, convert_with. simpl py_upper.
  rewrite bind_lift_ok. cbn [py_in]. rewrite H, bind_ret. reflexivity.
Qed.

Lemma convert_east_north (coords : value) (ref : string) :
  Str.mem (Str.upper ref) ["W"; "S"] = false ->
  Str.mem (Str.upper ref) ["E"; "N"] = true ->
  convert_coords_to_decimal coords (VStr ref) = convert_with 1 coords.
Proof.
  intros H1 H2. unfold convert_coords_to_decimal, convert_with. simpl py_upper.
  rewrite bind_lift_ok. cbn [py_in]. rewrite H1, H2, bind_ret. reflexivity.
Qed.

Lemma convert_with_floats (m : Z) (items : list component) (xs : list float) :
  Forall2 (fun c x => py_float c = Ok x) items xs ->
  convert_with m (VTuple items)
  = (c0 <- lift (py_index xs 0) ;;
     c1 <- lift (py_index xs 1) ;;
     c2 <- lift (py_index xs 2) ;;
     ret (F64.mul (F64.of_Z m) (dms c0 c1 c2))).
Proof.
  intros H. unfold convert_with. simpl py_iter.
  rewrite bind_lift_ok, (mapM_lift_ok py_float items xs H), bind_ret, bind_lift_ok.
  reflexivity.
Qed.

Lemma mem_four_cases (u : string) :
  Str.mem u ["N"; "S"; "E"; "W"] = true ->
  Str.mem u ["W"; "S"] = true
  \/ (Str.mem u ["W"; "S"] = false /\ Str.mem u ["E"; "N"] = true).
Proof.
  rewrite mem_four. destruct (Str.mem u ["W"; "S"]); simpl; auto.
Qed.

(** X2. On a tuple whose components all convert, with a known
    hemisphere letter: fewer than three components raise [IndexError];
    components after the third are converted and then left out of the
    sum.  Whatever the length, one component that does not convert
    fails the conversion, be it one that the sum would leave out. *)
Theorem convert_arity :
  (forall (items : list component) (xs : list float) (ref : string),
      Forall2 (fun c x => py_float c = Ok x) items xs ->
      Str.mem (Str.upper ref) ["N"; "S"; "E"; "W"] = true ->
      ((List.length items < 3)%nat ->
       convert_coords_to_decimal (VTuple items) (VStr ref) = ([], Raise IndexError))
      /\ (forall d m s rest,
             items = d :: m :: s :: rest ->
             convert_coords_to_decimal (VTuple items) (VStr ref)
             = convert_coords_to_decimal (VTuple [d; m; s]) (VStr ref)))
  /\ (forall (items : list component) (c : component) (e : exn) (ref : string),
         In c items -> py_float c = Raise e ->
         exists e', snd (convert_coords_to_decimal (VTuple items) (VStr ref)) = Raise e'
                    /\ e' <> KeyError).
Proof.
  split.
  - intros items xs ref Hxs Href.
    assert (Hgen : forall m, convert_with m (VTuple items)
                             = (c0 <- lift (py_index xs 0) ;;
                                c1 <- lift (py_index xs 1) ;;
                                c2 <- lift (py_index xs 2) ;;
                                ret (F64.mul (F64.of_Z m) (dms c0 c1 c2))))
      by (intros m; apply convert_with_floats, Hxs).
    split.
    + intros Hlen. pose proof (Forall2_length Hxs) as Hl.
      assert (Hidx : forall m, convert_with m (VTuple items) = ([], Raise IndexError)).
      { intros m. rewrite Hgen.
        destruct xs as [|x0 [|x1 [|x2 xs']]]; simpl in Hl; try reflexivity. lia. }
      destruct (mem_four_cases _ Href) as [HW | [HW HE]].
      * rewrite convert_west_south by exact HW. apply Hidx.
      * rewrite convert_east_north by assumption. apply Hidx.
    + intros d m s rest ->.
      inversion Hxs as [|? x0 ? xs0 H0 Hxs0]; subst.
      inversion Hxs0 as [|? x1 ? xs1 H1 Hxs1]; subst.
      inversion Hxs1 as [|? x2 ? xs2 H2 Hxs2]; subst.
      assert (H3 : Forall2 (fun c x => py_float c = Ok x) [d; m; s] [x0; x1; x2])
        by (repeat constructor; assumption).
      destruct (mem_four_cases _ Href) as [HW | [HW HE]].
      * rewrite !convert_west_south by exact HW.
        rewrite (convert_with_floats _ _ _ Hxs), (convert_with_floats _ _ _ H3). reflexivity.
      * rewrite !convert_east_north by assumption.
        rewrite (convert_with_floats _ _ _ Hxs), (convert_with_floats _ _ _ H3). reflexivity.
  - intros items c e ref Hc Hf.
    destruct (convert_coords_to_decimal (VTuple items) (VStr ref)) as [l [y|e']] eqn:E.
    + exfalso. unfold convert_coords_to_decimal in E.
      apply bind_ok_inv in E as (? & u & ? & _ & E & _).
      apply bind_ok_inv in E as (? & mul & ? & _ & E & _).
      apply bind_ok_inv in E as (? & its & ? & Hit & E & _).
      apply lift_ok_inv in Hit as [Hit _]. inversion Hit; subst its.
      apply bind_ok_inv in E as (lg & cs & ? & Hcs & _ & _).
      clear - Hcs Hc Hf. revert lg cs Hcs.
      induction items as [|a items IH]; intros lg cs Hcs; [contradiction|].
      simpl in Hcs.
      apply bind_ok_inv in Hcs as (? & b & ? & Hb & Hcs & _).
      apply lift_ok_inv in Hb as [Hb _].
      apply bind_ok_inv in Hcs as (lg' & cs' & ? & Hcs' & _ & _).
      destruct Hc as [->|Hc]; [congruence|]. exact (IH Hc lg' cs' Hcs').
    + exists e'. split; [reflexivity|]. eapply convert_raise_not_KeyError, E.
Qed.

Lemma convert_arity_witness :
  convert_coords_to_decimal (VTuple [CInt 10; CInt 30]) (VStr "N") = ([], Raise IndexError)
  /\ convert_coords_to_decimal (VTuple [CInt 10; CInt 30; CInt 0; CInt 7]) (VStr "N")
     = convert_coords_to_decimal (VTuple [CInt 10; CInt 30; CInt 0]) (VStr "N")
  /\ exists e', snd (convert_coords_to_decimal
                       (VTuple [CInt 10; CInt 30; CInt 0; CNone]) (VStr "N")) = Raise e'
                /\ e' <> KeyError.
Proof.
  destruct convert_arity as [H1 H2]. split; [|split].
  - assert (F : Forall2 (fun c x => py_float c = Ok x)
                        [CInt 10; CInt 30] [F64.of_Z 10; F64.of_Z 30])
      by (repeat constructor).
    destruct (H1 _ _ "N" F eq_refl) as [H _]. apply H. simpl. lia.
  - assert (F : Forall2 (fun c x => py_float c = Ok x)
                        [CInt 10; CInt 30; CInt 0; CInt 7]
                        [F64.of_Z 10; F64.of_Z 30; F64.of_Z 0; F64.of_Z 7])
      by (repeat constructor).
    destruct (H1 _ _ "N" F eq_refl) as [_ H]. exact (H _ _ _ _ eq_refl).
  - apply (H2 [CInt 10; CInt 30; CInt 0; CNone] CNone TypeError "N").
    + simpl. tauto.
    + reflexivity.
Defined.

(** A [bytes] reference is equal to none of the letters. *)
Lemma convert_bytes_ref (coords : value) (b : string) :
  fst (convert_coords_to_decimal coords (VBytes b)) = [PrintBadRef (VBytes b)]
  /\ exists e, snd (convert_coords_to_decimal coords (VBytes b)) = Raise e.
Proof.
  unfold convert_coords_to_decimal. simpl py_upper. rewrite bind_lift_ok. cbn [py_in].
  rewrite bind_assoc. unfold emit at 1. unfold bind at 1. simpl fst. simpl snd.
  destruct (py_iter coords) as [items|e] eqn:Hi.
  - rewrite bind_lift_ok.
    pose proof (mapM_lift_silent py_float items) as Hl.
    destruct (mapM (fun i => lift (py_float i)) items) as [l [cs|e]] eqn:Hm;
      simpl in Hl; subst l.
    + unfold bind, lift; simpl. eauto.
    + unfold bind, lift; simpl. eauto.
  - rewrite bind_lift_raise. simpl. eauto.
Qed.

(** X3. The conversion raises nothing but [AttributeError],
    [TypeError], [ValueError], [OverflowError], [UnboundLocalError] and
    [IndexError], so never the [KeyError] that [construct_df] handles.
    On a reference that is a [str] or a [bytes] it never raises
    [AttributeError]; on one that is a tuple or an integer, which have
    no [upper], it raises [AttributeError] and prints nothing.  A
    [bytes] reference, should it spell N, S, E or W, is equal to none
    of the letters: the complaint is printed and the conversion
    raises. *)
Theorem convert_exceptions :
  forall (coords ref : value),
    (forall (l : list event) (e : exn),
        convert_coords_to_decimal coords ref = (l, Raise e) ->
        In e [AttributeError; TypeError; ValueError; OverflowError;
              UnboundLocalError; IndexError]
        /\ match ref with
           | VStr _ | VBytes _ => e <> AttributeError
           | VTuple _ | VInt _ => e = AttributeError /\ l = []
           end)
    /\ (forall b, ref = VBytes b ->
          fst (convert_coords_to_decimal coords ref) = [PrintBadRef ref]
          /\ exists e, snd (convert_coords_to_decimal coords ref) = Raise e).
Proof.
  intros coords ref. split; [|intros b ->; apply convert_bytes_ref].
  intros l e H.
  assert (Hnone : forall u, py_upper ref = Ok u ->
            In e [TypeError; ValueError; OverflowError; UnboundLocalError; IndexError]).
  { intros u0 Hu0. unfold convert_coords_to_decimal in H. rewrite Hu0 in H.
    apply bind_raise_inv in H as [H | (? & u & ? & _ & H & _)]; [discriminate|].
    apply bind_raise_inv in H as [H | (? & mul & ? & _ & H & _)].
    { destruct (py_in u ["W"; "S"]); [discriminate|].
      destruct (py_in u ["E"; "N"]); discriminate. }
    apply bind_raise_inv in H as [H | (? & items & ? & _ & H & _)].
    { destruct coords; inversion H; simpl; tauto. }
    apply bind_raise_inv in H as [H | (? & cs & ? & _ & H & _)].
    { apply mapM_lift_raise in H as (a & _ & Ha).
      destruct a as [fx|nn|s' [fy|]|]; simpl in Ha; try discriminate;
        try (inversion Ha; simpl; tauto).
      destruct (F64.is_inf (F64.of_Z nn)); inversion Ha; simpl; tauto. }
    apply bind_raise_inv in H as [H | (? & m & ? & _ & H & _)].
    { destruct mul; inversion H; simpl; tauto. }
    apply bind_raise_inv in H as [H | (? & c0 & ? & _ & H & _)].
    { unfold py_index, lift in H. destruct (nth_error cs 0); inversion H; simpl; tauto. }
    apply bind_raise_inv in H as [H | (? & c1 & ? & _ & H & _)].
    { unfold py_index, lift in H. destruct (nth_error cs 1); inversion H; simpl; tauto. }
    apply bind_raise_inv in H as [H | (? & c2 & ? & _ & H & _)].
    { unfold py_index, lift in H. destruct (nth_error cs 2); inversion H; simpl; tauto. }
    discriminate. }
  destruct ref as [s|b|t|n].
  - pose proof (Hnone _ eq_refl) as Hin. split; [right; exact Hin|].
    intros ->. simpl in Hin. intuition discriminate.
  - pose proof (Hnone _ eq_refl) as Hin. split; [right; exact Hin|].
    intros ->. simpl in Hin. intuition discriminate.
  - unfold convert_coords_to_decimal in H. simpl in H. inversion H; subst.
    split; [simpl; tauto | split; reflexivity].
  - unfold convert_coords_to_decimal in H. simpl in H. inversion H; subst.
    split; [simpl; tauto | split; reflexivity].
Qed.

Lemma convert_exceptions_witness :
  (In UnboundLocalError [AttributeError; TypeError; ValueError; OverflowError;
                         UnboundLocalError; IndexError]
   /\ UnboundLocalError <> AttributeError)
  /\ fst (convert_coords_to_decimal (VTuple [CInt 10; CInt 30; CInt 0]) (VBytes "N"))
     = [PrintBadRef (VBytes "N")].
Proof.
  destruct (convert_exceptions (VTuple [CInt 10; CInt 30; CInt 0]) (VBytes "N")) as [H1 H2].
  split.
  - exact (H1 [PrintBadRef (VBytes "N")] UnboundLocalError eq_refl).
  - exact (proj1 (H2 "N" eq_refl)).
Defined.

(** X4. The reference matters only through its sign: two references
    that both upper-case to W or S, or both to E or N, give the same
    outcome, and a reference of the first kind gives the outcome of one
    of the second kind with the result negated, the same lines printed
    and the same exception raised. *)
Theorem convert_hemisphere :
  forall (coords : value) (r1 r2 : string),
    (Str.mem (Str.upper r1) ["W"; "S"] = true ->
     Str.mem (Str.upper r2) ["W"; "S"] = true ->
     convert_coords_to_decimal coords (VStr r1) = convert_coords_to_decimal coords (VStr r2))
    /\ (Str.mem (Str.upper r1) ["E"; "N"] = true ->
        Str.mem (Str.upper r2) ["E"; "N"] = true ->
        convert_coords_to_decimal coords (VStr r1) = convert_coords_to_decimal coords (VStr r2))
    /\ (Str.mem (Str.upper r1) ["E"; "N"] = true ->
        Str.mem (Str.upper r2) ["W"; "S"] = true ->
        convert_coords_to_decimal coords (VStr r2)
        = (fst (convert_coords_to_decimal coords (VStr r1)),
           match snd (convert_coords_to_decimal coords (VStr r1)) with
           | Ok y => Ok (F64.opp y)
           | Raise e => Raise e
           end)).
Proof.
  intros coords r1 r2.
  assert (Hex : forall r, Str.mem (Str.upper r) ["E"; "N"] = true ->
                          Str.mem (Str.upper r) ["W"; "S"] = false).
  { intros r H. destruct (Str.mem (Str.upper r) ["W"; "S"]) eqn:E; [|reflexivity].
    apply mem_exclusive in E. congruence. }
  split; [|split].
  - intros H1 H2. rewrite !convert_west_south by assumption. reflexivity.
  - intros H1 H2. rewrite !convert_east_north by auto. reflexivity.
  - intros H1 H2. rewrite convert_west_south by exact H2.
    rewrite convert_east_north by auto.
    unfold convert_with.
    destruct (py_iter coords) as [items|e]; [|reflexivity].
    rewrite !bind_lift_ok.
    pose proof (mapM_lift_silent py_float items) as Hl.
    destruct (mapM (fun i => lift (py_float i)) items) as [lg [cs|e]]; simpl in Hl; subst lg;
      [|reflexivity].
    rewrite !bind_ok, !bind_lift_ok.
    destruct (py_index cs 0) as [c0|e]; [|reflexivity]. rewrite !bind_lift_ok.
    destruct (py_index cs 1) as [c1|e]; [|reflexivity]. rewrite !bind_lift_ok.
    destruct (py_index cs 2) as [c2|e]; [|reflexivity]. rewrite !bind_lift_ok.
    unfold ret. cbn [fst snd]. rewrite mul_minus_one. reflexivity.
Qed.

Lemma convert_hemisphere_witness :
  convert_coords_to_decimal (VTuple [CInt 10; CInt 30; CInt 0]) (VStr "w")
  = ([], Ok (F64.opp (F64.of_bin 21 (-1)))).
Proof.
  destruct (convert_hemisphere (VTuple [CInt 10; CInt 30; CInt 0]) "e" "w") as (_ & _ & H).
  rewrite (H eq_refl eq_refl). reflexivity.
Defined.


(** ** The frame as a function of the list of photos *)

Lemma rows_of_cons (w : world) (p : path) (photos : list path) :
  rows_of w (p :: photos)
  = match snd (process w p) with Ok (Some r) => [r] | _ => [] end ++ rows_of w photos.
Proof. reflexivity. Qed.

Lemma rows_of_app (w : world) (l1 l2 : list path) :
  rows_of w (l1 ++ l2) = rows_of w l1 ++ rows_of w l2.
Proof. unfold rows_of. apply flat_map_app. Qed.

Lemma rows_of_length (w : world) (photos : list path) :
  (List.length (rows_of w photos) <= List.length photos)%nat.
Proof.
  induction photos as [|p photos IH]; [apply Nat.le_refl|].
  rewrite rows_of_cons, length_app.
  destruct (snd (process w p)) as [[r|]|e]; simpl; lia.
Qed.

(** The state the loop ends in, when it ends. *)
Lemma loop_ok_val (w : world) (photos : list path) :
  forall df i log st,
    construct_df_loop w photos df i = (log, Ok st) ->
    st = (df ++ rows_of w photos, (i + List.length (rows_of w photos))%nat).
Proof.
  induction photos as [|p photos IH]; intros df i log st H.
  - rewrite loop_nil in H. inversion H; subst. simpl.
    rewrite app_nil_r, Nat.add_0_r. reflexivity.
  - rewrite loop_cons in H.
    apply bind_ok_inv in H as (l1 & r & l2 & Hp & H & _).
    rewrite rows_of_cons, Hp. cbn [snd].
    destruct r as [d|]; apply IH in H; subst st.
    + rewrite <- app_assoc, length_app. simpl. f_equal. lia.
    + reflexivity.
Qed.

(** The loop ends exactly when no turn raises. *)
Lemma loop_ok_iff (w : world) (photos : list path) :
  forall df i,
    (exists st, snd (construct_df_loop w photos df i) = Ok st)
    <-> Forall (fun p => exists r, snd (process w p) = Ok r) photos.
Proof.
  induction photos as [|p photos IH]; intros df i.
  - split; [constructor|]. intros _. exists (df, i). reflexivity.
  - rewrite loop_cons. split.
    + intros [st H].
      destruct (process w p) as [l [r|e]] eqn:Hp.
      * rewrite bind_ok in H. constructor; [exists r; rewrite Hp; reflexivity|].
        destruct r as [d|].
        -- apply (IH (df ++ [d]) (S i)). exists st.
           destruct (construct_df_loop w photos (df ++ [d]) (S i)); exact H.
        -- apply (IH df i). exists st.
           destruct (construct_df_loop w photos df i); exact H.
      * rewrite bind_err in H. discriminate.
    + intros Hall. inversion Hall as [|? ? [r Hr] Hrest]; subst.
      destruct (process w p) as [l [r'|e]]; cbn [snd] in Hr; [|discriminate].
      rewrite bind_ok.
      destruct r' as [d|].
      * destruct (proj2 (IH (df ++ [d]) (S i)) Hrest) as [st Hst]. exists st.
        destruct (construct_df_loop w photos (df ++ [d]) (S i)); exact Hst.
      * destruct (proj2 (IH df i) Hrest) as [st Hst]. exists st.
        destruct (construct_df_loop w photos df i); exact Hst.
Qed.

Lemma construct_df_ok_iff (w : world) (photos : list path) (df : frame Z) :
  snd (construct_df w (Some photos)) = Ok df
  <-> Forall (fun p => exists r, snd (process w p) = Ok r) photos /\ df = rows_of w photos.
Proof.
  rewrite construct_df_snd. split.
  - intros H.
    destruct (construct_df_loop w photos [] O) as [l [st|e]] eqn:Hl; simpl in H; [|discriminate].
    split.
    + apply (loop_ok_iff w photos [] O). exists st. rewrite Hl. reflexivity.
    + apply loop_ok_val in Hl. subst st. inversion H. reflexivity.
  - intros [Hall ->].
    destruct (proj2 (loop_ok_iff w photos [] O) Hall) as [st Hst].
    destruct (construct_df_loop w photos [] O) as [l [st'|e]] eqn:Hl; simpl in Hst;
      [|discriminate].
    apply loop_ok_val in Hl. subst st'. reflexivity.
Qed.

(** X5. When [construct_df] returns, its frame holds, in the order of
    the list, the row of each photo that gives one; the last line it
    prints counts the rows of the frame and the photos of the list, and
    there are no more rows than photos. *)
Theorem construct_df_frame :
  forall (w : world) (photos : list path) (log : list event) (df : frame Z),
    construct_df w (Some photos) = (log, Ok df) ->
    df = rows_of w photos
    /\ (List.length df <= List.length photos)%nat
    /\ exists l, log = l ++ [PrintCounts (List.length df) (List.length photos)].
Proof.
  intros w photos log df H.
  apply construct_df_ok_inv in H as (l & i & Hl & ->).
  apply loop_ok_val in Hl. inversion Hl; subst.
  split; [reflexivity|]. split; [apply rows_of_length|].
  exists l. reflexivity.
Qed.

Lemma construct_df_frame_witness :
  [row_a; row_d] = rows_of batch_world [in_assets "a.jpg"; in_assets "g.jpg"; in_assets "d.jpg"]
  /\ (List.length [row_a; row_d] <= 3)%nat
  /\ exists l, [PrintCounts 2 3] = l ++ [PrintCounts 2 3].
Proof.
  apply (construct_df_frame batch_world
           [in_assets "a.jpg"; in_assets "g.jpg"; in_assets "d.jpg"]
           [PrintCounts 2 3] [row_a; row_d]).
  vm_compute. reflexivity.
Defined.

(** X6. [construct_df] returns on the concatenation of two lists
    exactly when it returns on both, and the frame is then the first
    frame followed by the second: one photo that raises, in either
    list, loses the rows of both. *)
Theorem construct_df_app :
  forall (w : world) (l1 l2 : list path) (df : frame Z),
    snd (construct_df w (Some (l1 ++ l2))) = Ok df
    <-> exists df1 df2,
        snd (construct_df w (Some l1)) = Ok df1
        /\ snd (construct_df w (Some l2)) = Ok df2
        /\ df = df1 ++ df2.
Proof.
  intros w l1 l2 df. rewrite construct_df_ok_iff, Forall_app, rows_of_app. split.
  - intros [[H1 H2] ->]. exists (rows_of w l1), (rows_of w l2).
    rewrite !construct_df_ok_iff. auto.
  - intros (df1 & df2 & H1 & H2 & ->).
    apply construct_df_ok_iff in H1 as [H1 ->].
    apply construct_df_ok_iff in H2 as [H2 ->]. auto.
Qed.


(** ** Files that do not open *)

Lemma process_unreadable (w : world) (p : path) :
  Str.mem (Str.lower (suffix p)) [".jpg"; ".jpeg"; ".heic"] = true ->
  (forall e, resolve (fs w) p <> Some (File (Image e))) ->
  process w p
  = ([], Raise match resolve (fs w) p with
               | Some (File _) => UnidentifiedImageError
               | Some (Dir _) => IsADirectoryError
               | None => if through_file (fs w) p then NotADirectoryError
                         else FileNotFoundError
               end).
Proof.
  intros Hs Hn. unfold process, get_image, open_error. rewrite Hs. simpl negb. cbv iota.
  destruct (resolve (fs w) p) as [[[e|t|]|es]|] eqn:Hr; try reflexivity.
  exfalso. exact (Hn e eq_refl).
Qed.



(** ** The cache file *)

Lemma bind_quiet {A B} (m : M A) (f : A -> M B) :
  existsb is_write (fst m) = false ->
  (forall a, existsb is_write (fst (f a)) = false) ->
  existsb is_write (fst (bind m f)) = false.
Proof.
  intros Hm Hf. unfold bind. destruct (snd m) as [a|e]; cbn [fst]; [|exact Hm].
  rewrite existsb_app, Hm, Hf. reflexivity.
Qed.

Lemma lift_quiet {A} (o : outcome A) : existsb is_write (fst (lift o)) = false.
Proof. reflexivity. Qed.

Lemma convert_quiet (coords ref : value) :
  existsb is_write (fst (convert_coords_to_decimal coords ref)) = false.
Proof.
  unfold convert_coords_to_decimal.
  apply bind_quiet; [apply lift_quiet|]. intros u.
  apply bind_quiet.
  { destruct (py_in u ["W"; "S"]); [reflexivity|].
    destruct (py_in u ["E"; "N"]); reflexivity. }
  intros mul. apply bind_quiet; [apply lift_quiet|]. intros items.
  apply bind_quiet; [rewrite mapM_lift_silent; reflexivity|]. intros cs.
  repeat (apply bind_quiet; [apply lift_quiet|]; intros ?).
  reflexivity.
Qed.

Lemma subscript_quiet (d : option dict) (k : string) :
  existsb is_write (fst (subscript d k)) = false.
Proof.
  unfold subscript. destruct d as [d|]; [|reflexivity].
  destruct (dict_get (KName k) d); reflexivity.
Qed.

Lemma make_record_quiet (p : path) (tags : dict) (gps : option dict) :
  existsb is_write (fst (make_record p tags gps)) = false.
Proof.
  unfold make_record.
  repeat (apply bind_quiet;
          [first [apply subscript_quiet | apply convert_quiet | apply lift_quiet]|];
          intros ?).
  reflexivity.
Qed.

Lemma process_quiet (w : world) (p : path) :
  existsb is_write (fst (process w p)) = false.
Proof.
  unfold process.
  destruct (negb (Str.mem (Str.lower (suffix p)) [".jpg"; ".jpeg"; ".heic"])); [reflexivity|].
  apply bind_quiet.
  { unfold get_image. destruct (resolve (fs w) p) as [[[e|t|]|es]|]; reflexivity. }
  intros img. unfold except_KeyError.
  pose proof (make_record_quiet p (get_labeled_exif (get_exif img))
                                (get_gps_info (get_exif img))) as H.
  destruct (snd (make_record p (get_labeled_exif (get_exif img))
                             (get_gps_info (get_exif img)))) as [r|[]]; exact H.
Qed.

Lemma loop_quiet (w : world) (photos : list path) :
  forall df i, existsb is_write (fst (construct_df_loop w photos df i)) = false.
Proof.
  induction photos as [|p photos IH]; intros df i; [reflexivity|].
  rewrite loop_cons. apply bind_quiet; [apply process_quiet|].
  intros [d|]; apply IH.
Qed.

Lemma construct_df_quiet (w : world) (photos : option (list path)) :
  existsb is_write (fst (construct_df w photos)) = false.
Proof.
  destruct photos as [l|]; [|reflexivity]. unfold construct_df.
  apply bind_quiet; [apply loop_quiet|]. intros r. reflexivity.
Qed.

Lemma get_photos_quiet (w : world) (dir : path) (exts : list string) :
  existsb is_write (fst (get_photos_from_path w dir exts)) = false.
Proof.
  unfold get_photos_from_path. destruct (negb (path_exists w dir)); [reflexivity|].
  apply bind_quiet; [|intros; reflexivity].
  unfold listdir. destruct (resolve (fs w) dir) as [[c|es]|]; reflexivity.
Qed.

Lemma col_day_quiet {D} (df : frame D) : existsb is_write (fst (col_day df)) = false.
Proof. destruct df; reflexivity. Qed.

Lemma day_to_one_quiet (df : frame Z) : existsb is_write (fst (day_to_one df)) = false.
Proof. unfold day_to_one. apply bind_quiet; [apply col_day_quiet|]. reflexivity. Qed.

Lemma day_to_str_quiet (df : frame Z) : existsb is_write (fst (day_to_str df)) = false.
Proof. unfold day_to_str. apply bind_quiet; [apply col_day_quiet|]. reflexivity. Qed.

Ltac quiet_in Q lem H := pose proof lem as Q; rewrite H in Q; cbn [fst] in Q.

(** X8. [get_df] never writes the cache file unless it returns: a run
    that raises has written nothing.  A run that finds the cache file
    reads it, prints nothing and writes nothing.  A run that builds the
    frame writes it once, as its last effect, to [saved_df.csv] of the
    working directory, and what it writes there is the frame it
    returns. *)
Theorem get_df_cache_writes :
  forall (w : world) (log : list event),
    (forall e, get_df w = (log, Raise e) -> existsb is_write log = false)
    /\ (forall df, get_df w = (log, Ok df) ->
          if path_exists w (joinpath (cwd w) "saved_df.csv")
          then log = []
               /\ resolve (fs w) (joinpath (cwd w) "saved_df.csv") = Some (File (Table df))
          else exists l, log = l ++ [ToCsv (joinpath (cwd w) "saved_df.csv") df]
                         /\ existsb is_write l = false).
Proof.
  intros w log. split.
  - intros e H. unfold get_df in H.
    destruct (path_exists w (joinpath (cwd w) "saved_df.csv")).
    + unfold read_csv in H.
      destruct (resolve (fs w) (joinpath (cwd w) "saved_df.csv")) as [[[x|t|]|es]|];
        inversion H; reflexivity.
    + apply bind_raise_inv in H as [H | (l1 & ph & ? & H1 & H & ->)].
      { quiet_in Q (get_photos_quiet w (ASSETS_PATH w) default_extensions) H. exact Q. }
      quiet_in Q1 (get_photos_quiet w (ASSETS_PATH w) default_extensions) H1.
      apply bind_raise_inv in H as [H | (l2 & df0 & ? & H2 & H & ->)].
      { quiet_in Q (construct_df_quiet w ph) H.
        rewrite !existsb_app, Q1, Q. reflexivity. }
      quiet_in Q2 (construct_df_quiet w ph) H2.
      apply bind_raise_inv in H as [H | (l3 & df1 & ? & H3 & H & ->)].
      { quiet_in Q (day_to_one_quiet df0) H.
        rewrite !existsb_app, Q1, Q2, Q. reflexivity. }
      quiet_in Q3 (day_to_one_quiet df0) H3.
      apply bind_raise_inv in H as [H | (l4 & df2 & ? & H4 & H & ->)].
      { quiet_in Q (day_to_str_quiet df1) H.
        rewrite !existsb_app, Q1, Q2, Q3, Q. reflexivity. }
      discriminate.
  - intros df H. unfold get_df in H.
    destruct (path_exists w (joinpath (cwd w) "saved_df.csv")).
    + unfold read_csv in H.
      destruct (resolve (fs w) (joinpath (cwd w) "saved_df.csv")) as [[[x|t|]|es]|];
        inversion H; subst. auto.
    + apply bind_ok_inv in H as (l1 & ph & ? & H1 & H & ->).
      quiet_in Q1 (get_photos_quiet w (ASSETS_PATH w) default_extensions) H1.
      apply bind_ok_inv in H as (l2 & df0 & ? & H2 & H & ->).
      quiet_in Q2 (construct_df_quiet w ph) H2.
      apply bind_ok_inv in H as (l3 & df1 & ? & H3 & H & ->).
      quiet_in Q3 (day_to_one_quiet df0) H3.
      apply bind_ok_inv in H as (l4 & df2 & ? & H4 & H & ->).
      quiet_in Q4 (day_to_str_quiet df1) H4.
      unfold bind, emit, ret in H; simpl in H. inversion H; subst.
      exists (l1 ++ l2 ++ l3 ++ l4). split.
      * rewrite <- !app_assoc. reflexivity.
      * rewrite !existsb_app, Q1, Q2, Q3, Q4. reflexivity.
Qed.

Lemma get_df_cache_writes_witness :
  existsb is_write [PrintInvalidPath ["trip"; "assets"]] = false
  /\ exists l, [PrintCounts 1 1; ToCsv ["trip"; "saved_df.csv"] [one_photo_row]]
               = l ++ [ToCsv ["trip"; "saved_df.csv"] [one_photo_row]]
               /\ existsb is_write l = false.
Proof.
  split.
  - destruct (get_df_cache_writes empty_world [PrintInvalidPath ["trip"; "assets"]]) as [H _].
    apply (H TypeError). reflexivity.
  - destruct (get_df_cache_writes one_photo_world
                [PrintCounts 1 1; ToCsv ["trip"; "saved_df.csv"] [one_photo_row]]) as [_ H].
    exact (H [one_photo_row] eq_refl).
Defined.

(** ** A run that finds no row *)

(** X9. Without a cache file, a run whose photos give no row at all
    raises [AttributeError] at the day column, after the count line and
    before anything is written; so does, printing the count of zero
    photos, a run on an [assets] directory none of whose entries has a
    photo suffix. *)
Theorem get_df_no_rows :
  forall (w : world),
    path_exists w (joinpath (cwd w) "saved_df.csv") = false ->
    (forall l1 photos l2,
        get_photos_from_path w (ASSETS_PATH w) default_extensions = (l1, Ok (Some photos)) ->
        construct_df w (Some photos) = (l2, Ok []) ->
        get_df w = (l1 ++ l2, Raise AttributeError))
    /\ (forall es,
          resolve (fs w) (ASSETS_PATH w) = Some (Dir es) ->
          (forall n, In n (map fst es) -> is_photo_name n = false) ->
          get_df w = ([PrintCounts 0 0], Raise AttributeError)).
Proof.
  intros w Hcache.
  assert (Hgen : forall l1 photos l2,
             get_photos_from_path w (ASSETS_PATH w) default_extensions
             = (l1, Ok (Some photos)) ->
             construct_df w (Some photos) = (l2, Ok []) ->
             get_df w = (l1 ++ l2, Raise AttributeError)).
  { intros l1 photos l2 H1 H2. unfold get_df. rewrite Hcache, H1, bind_ok, H2.
    cbn [fst snd]. rewrite bind_ok. cbn. rewrite app_nil_r. reflexivity. }
  split; [exact Hgen|].
  intros es Hdir Hnone.
  apply (Hgen [] [] [PrintCounts 0 0]); [|reflexivity].
  unfold get_photos_from_path, path_exists, listdir. rewrite Hdir. simpl negb. cbv iota.
  rewrite bind_ret.
  rewrite (filter_none _ (map fst es)); [reflexivity|].
  intros n Hn. rewrite suffix_single. exact (Hnone n Hn).
Qed.

Lemma get_df_no_rows_witness :
  get_df png_world = ([PrintCounts 0 0], Raise AttributeError)
  /\ get_df png_world = ([] ++ [PrintCounts 0 0], Raise AttributeError).
Proof.
  destruct (get_df_no_rows png_world eq_refl) as [H1 H2]. split.
  - apply (H2 [("pic.png", File (Image sample_exif))]); [reflexivity|].
    intros n [<-|[]]. reflexivity.
  - apply (H1 [] [] [PrintCounts 0 0]); reflexivity.
Defined.

(** ** The day column of a fresh frame *)

Lemma days_in_month_le (y m : Z) : Strptime.days_in_month y m <= 31.
Proof.
  unfold Strptime.days_in_month.
  destruct (m =? 2); [destruct (Strptime.is_leap y); lia|].
  destruct ((m =? 4) || (m =? 6) || (m =? 9) || (m =? 11)); lia.
Qed.

Lemma strptime_ok_day (s : string) (d : datetime) :
  Strptime.strptime s = Ok d -> 1 <= dt_day d <= 31.
Proof.
  unfold Strptime.strptime.
  destruct (Strptime.re_match (list_ascii_of_string s)) as [f|]; [|discriminate].
  destruct (Strptime.f_rest f); [|discriminate].
  match goal with |- (if ?b then _ else _) = _ -> _ => destruct b eqn:E end; [|discriminate].
  intros H. inversion H; subst d. cbn [dt_day].
  repeat (apply andb_true_iff in E as [E ?]).
  pose proof (days_in_month_le (Strptime.f_Y f) (Strptime.f_m f)). lia.
Qed.

Lemma construct_df_row_day (w : world) (photos : list path) (log : list event)
      (df : frame Z) (r : row Z) :
  construct_df w (Some photos) = (log, Ok df) -> In r df ->
  day r = dt_day (datetime_ r) /\ 1 <= day r <= 31.
Proof.
  intros H Hr. apply construct_df_ok_inv in H as (l & i & H & _).
  apply loop_rows in H as (rs & Hdf & _ & Hall). simpl in Hdf. subst rs.
  rewrite Forall_forall in Hall. destruct (Hall r Hr) as (p & lp & _ & Hp).
  apply process_some_inv in Hp as (_ & img & _ & Hm).
  apply make_record_ok_inv in Hm
    as (gps & lat & latref & lon & lonref & s & l1 & l2 & _ & _ & _ & _ & _ & _ & _ & _ & Hs & Hd & _).
  split; [exact Hd|]. rewrite Hd. exact (strptime_ok_day s _ Hs).
Qed.

(** X10. In the frame that a run without cache builds, the day of a
    row is the decimal text of its day of the month less a common
    offset: the earliest day of the month among the rows becomes day 1,
    whatever the months and years are.  Every day is the text of
    a number from 1 to 31, some row has day ["1"], and the rows are,
    day apart, those of [construct_df], in its order. *)
Theorem get_df_fresh_days :
  forall (w : world) (log : list event) (df : frame daycell),
    path_exists w (joinpath (cwd w) "saved_df.csv") = false ->
    get_df w = (log, Ok df) ->
    exists (photos : list path) (m : Z),
      snd (get_photos_from_path w (ASSETS_PATH w) default_extensions) = Ok (Some photos)
      /\ df = map (fun r => with_day r (DayStr (Str.of_Z (dt_day (datetime_ r) - m + 1))))
                  (rows_of w photos)
      /\ (exists r, In r df /\ dt_day (datetime_ r) = m /\ day r = DayStr "1")
      /\ (forall r, In r df ->
            exists n, day r = DayStr (Str.of_Z n) /\ 1 <= n <= 31
                      /\ n = dt_day (datetime_ r) - m + 1).
Proof.
  intros w log df Hcache H.
  apply (get_df_fresh_inv w log df Hcache) in H as (l1 & photos & l2 & df0 & H1 & H2 & Hne & ->).
  pose proof (construct_df_row_day w photos l2 df0) as Hday. specialize (Hday).
  assert (Hrows : df0 = rows_of w photos).
  { apply construct_df_ok_inv in H2 as (l & i & Hl & _).
    apply loop_ok_val in Hl. inversion Hl. reflexivity. }
  assert (Hs : map day df0 <> []) by (destruct df0; simpl; congruence).
  destruct (series_min_spec (map day df0) Hs) as [Hin Hmin].
  set (m := series_min (map day df0)) in *.
  exists photos, m. split; [rewrite H1; reflexivity|].
  assert (Heq : map (fun r => with_day r (DayStr (Str.of_Z (day r - m + 1)))) df0
                = map (fun r => with_day r (DayStr (Str.of_Z (dt_day (datetime_ r) - m + 1))))
                      df0).
  { apply map_ext_in. intros r Hr. destruct (Hday r H2 Hr) as [-> _]. reflexivity. }
  split; [rewrite Heq, Hrows; reflexivity|]. split.
  - apply in_map_iff in Hin as (r0 & Hr0 & Hin0).
    exists (with_day r0 (DayStr (Str.of_Z (day r0 - m + 1)))). split.
    + apply in_map_iff. exists r0. auto.
    + destruct (Hday r0 H2 Hin0) as [Hd _]. cbn [with_day datetime_ day].
      split; [congruence|]. rewrite Hr0. replace (m - m + 1) with 1 by lia. reflexivity.
  - intros r Hr. apply in_map_iff in Hr as (r0 & <- & Hr0).
    destruct (Hday r0 H2 Hr0) as [Hd Hrange].
    rewrite Forall_forall in Hmin.
    assert (Hle : m <= day r0) by (apply Hmin, in_map, Hr0).
    assert (H1m : 1 <= m).
    { apply in_map_iff in Hin as (r1 & Hr1 & Hin1).
      destruct (Hday r1 H2 Hin1) as [_ ?]. lia. }
    exists (day r0 - m + 1). cbn [with_day datetime_ day].
    split; [reflexivity|]. split; [lia|]. rewrite Hd. reflexivity.
Qed.

Lemma get_df_fresh_days_witness :
  exists (photos : list path) (m : Z),
    snd (get_photos_from_path one_photo_world (ASSETS_PATH one_photo_world) default_extensions)
    = Ok (Some photos)
    /\ [one_photo_row]
       = map (fun r => with_day r (DayStr (Str.of_Z (dt_day (datetime_ r) - m + 1))))
             (rows_of one_photo_world photos)
    /\ (exists r, In r [one_photo_row] /\ dt_day (datetime_ r) = m /\ day r = DayStr "1")
    /\ (forall r, In r [one_photo_row] ->
          exists n, day r = DayStr (Str.of_Z n) /\ 1 <= n <= 31
                    /\ n = dt_day (datetime_ r) - m + 1).
Proof.
  apply (get_df_fresh_days one_photo_world
           [PrintCounts 1 1; ToCsv ["trip"; "saved_df.csv"] [one_photo_row]]);
    reflexivity.
Defined.

(** ** The names in a fresh frame *)



(** X11. In the frame that a run without cache builds, every file name
    is the bare name of an entry of the [assets] directory itself, with
    a photo suffix, and that entry is an image file. *)
Theorem get_df_filenames :
  forall (w : world) (log : list event) (df : frame daycell),
    path_exists w (joinpath (cwd w) "saved_df.csv") = false ->
    get_df w = (log, Ok df) ->
    exists es,
      resolve (fs w) (ASSETS_PATH w) = Some (Dir es)
      /\ forall r, In r df ->
           In (filename r) (map fst es)
           /\ is_photo_name (filename r) = true
           /\ exists img, resolve (fs w) (joinpath (ASSETS_PATH w) (filename r))
                          = Some (File (Image img)).
Proof.
  intros w log df Hcache H.
  apply (get_df_fresh_inv w log df Hcache) in H as (l1 & photos & l2 & df0 & H1 & H2 & _ & ->).
  apply get_photos_ok_dir in H1 as (es & Hdir & Hph).
  exists es. split; [exact Hdir|].
  intros r Hr. apply in_map_iff in Hr as (r0 & <- & Hr0). cbn [with_day filename].
  apply construct_df_ok_inv in H2 as (l & i & H2 & _).
  apply loop_rows in H2 as (rs & Hdf & _ & Hall). simpl in Hdf. subst rs.
  rewrite Forall_forall in Hall. destruct (Hall r0 Hr0) as (p & lp & Hp & Hproc).
  apply process_some_inv in Hproc as (_ & img & Himg & Hm).
  apply make_record_ok_inv in Hm
    as (gps & lat & latref & lon & lonref & s & la & lo & _ & _ & _ & _ & _ & _ & _ & _ & _ & _ & Hn).
  rewrite Hph in Hp. apply in_map_iff in Hp as (n & <- & Hn').
  apply filter_In in Hn' as [Hin Hsuf].
  rewrite name_joinpath in Hn. rewrite Hn.
  split; [exact Hin|]. split; [exact Hsuf|].
  exists img. exact (get_image_ok_inv _ _ _ _ Himg).
Qed.

Lemma get_df_filenames_witness :
  exists es,
    resolve (fs one_photo_world) (ASSETS_PATH one_photo_world) = Some (Dir es)
    /\ forall r, In r [one_photo_row] ->
         In (filename r) (map fst es)
         /\ is_photo_name (filename r) = true
         /\ exists img, resolve (fs one_photo_world)
                                (joinpath (ASSETS_PATH one_photo_world) (filename r))
                        = Some (File (Image img)).
Proof.
  apply (get_df_filenames one_photo_world
           [PrintCounts 1 1; ToCsv ["trip"; "saved_df.csv"] [one_photo_row]]);
    reflexivity.
Defined.


(** ** Parsing what EXIF writes *)

Lemma range_cases (n lo : Z) (len : nat) :
  lo <= n < lo + Z.of_nat len -> In n (map (fun i => lo + Z.of_nat i) (seq 0 len)).
Proof.
  intros H. apply in_map_iff. exists (Z.to_nat (n - lo)). split; [lia|].
  apply in_seq. lia.
Qed.

Ltac by_cases Hn lo len tac :=
  apply (range_cases _ lo len) in Hn;
  cbv [seq map] in Hn;
  repeat (destruct Hn as [<-|Hn]; [tac|]);
  destruct Hn.

Lemma digit_spec (k : Z) :
  0 <= k <= 9 ->
  Str.is_digit (digit k) = true
  /\ Str.is_space (digit k) = false
  /\ Z.of_N (Str.code (digit k)) - 48 = k.
Proof.
  intros H. assert (Hn : 0 <= k < 0 + Z.of_nat 10) by lia. clear H.
  by_cases Hn 0 10%nat ltac:(vm_compute; auto).
Qed.

Lemma int_of_fmt2 (n : Z) : 0 <= n <= 99 -> Strptime.int_of (fmt2 n) = n.
Proof.
  intros H. unfold Strptime.int_of, fmt2. cbn [fold_left].
  destruct (digit_spec (n / 10)) as (-> & _ & ->); [Z.div_mod_to_equations; lia|].
  destruct (digit_spec (n mod 10)) as (-> & _ & ->); [Z.div_mod_to_equations; lia|].
  Z.div_mod_to_equations; lia.
Qed.

Lemma int_of_fmt4 (n : Z) : 0 <= n <= 9999 -> Strptime.int_of (fmt4 n) = n.
Proof.
  intros H. unfold Strptime.int_of, fmt4. cbn [fold_left].
  destruct (digit_spec (n / 1000)) as (-> & _ & ->); [Z.div_mod_to_equations; lia|].
  destruct (digit_spec (n / 100 mod 10)) as (-> & _ & ->); [Z.div_mod_to_equations; lia|].
  destruct (digit_spec (n / 10 mod 10)) as (-> & _ & ->); [Z.div_mod_to_equations; lia|].
  destruct (digit_spec (n mod 10)) as (-> & _ & ->); [Z.div_mod_to_equations; lia|].
  Z.div_mod_to_equations; lia.
Qed.

Lemma group_Y {A} (y : Z) (rest : list ascii) (k : list ascii -> list ascii -> option A) (a : A) :
  0 <= y <= 9999 ->
  k (fmt4 y) rest = Some a ->
  Strptime.group Strptime.re_Y (fmt4 y ++ rest) k = Some a.
Proof.
  intros H Hk. unfold Strptime.re_Y, fmt4 in *.
  cbn [Strptime.group Strptime.take_seq app]. unfold Strptime.dg.
  destruct (digit_spec (y / 1000)) as (-> & _); [Z.div_mod_to_equations; lia|].
  destruct (digit_spec (y / 100 mod 10)) as (-> & _); [Z.div_mod_to_equations; lia|].
  destruct (digit_spec (y / 10 mod 10)) as (-> & _); [Z.div_mod_to_equations; lia|].
  destruct (digit_spec (y mod 10)) as (-> & _); [Z.div_mod_to_equations; lia|].
  rewrite Hk. reflexivity.
Qed.

Ltac group_case Hk := vm_compute in Hk |- *; rewrite Hk; reflexivity.

Lemma group_m {A} (n : Z) (rest : list ascii) (k : list ascii -> list ascii -> option A) (a : A) :
  1 <= n <= 12 ->
  k (fmt2 n) rest = Some a ->
  Strptime.group Strptime.re_m (fmt2 n ++ rest) k = Some a.
Proof.
  intros H Hk. assert (Hn : 1 <= n < 1 + Z.of_nat 12) by lia. clear H. revert Hk.
  by_cases Hn 1 12%nat ltac:(intros Hk; group_case Hk).
Qed.

Lemma group_d {A} (n : Z) (rest : list ascii) (k : list ascii -> list ascii -> option A) (a : A) :
  1 <= n <= 31 ->
  k (fmt2 n) rest = Some a ->
  Strptime.group Strptime.re_d (fmt2 n ++ rest) k = Some a.
Proof.
  intros H Hk. assert (Hn : 1 <= n < 1 + Z.of_nat 31) by lia. clear H. revert Hk.
  by_cases Hn 1 31%nat ltac:(intros Hk; group_case Hk).
Qed.

Lemma group_H {A} (n : Z) (rest : list ascii) (k : list ascii -> list ascii -> option A) (a : A) :
  0 <= n <= 23 ->
  k (fmt2 n) rest = Some a ->
  Strptime.group Strptime.re_H (fmt2 n ++ rest) k = Some a.
Proof.
  intros H Hk. assert (Hn : 0 <= n < 0 + Z.of_nat 24) by lia. clear H. revert Hk.
  by_cases Hn 0 24%nat ltac:(intros Hk; group_case Hk).
Qed.

Lemma group_M {A} (n : Z) (rest : list ascii) (k : list ascii -> list ascii -> option A) (a : A) :
  0 <= n <= 59 ->
  k (fmt2 n) rest = Some a ->
  Strptime.group Strptime.re_M (fmt2 n ++ rest) k = Some a.
Proof.
  intros H Hk. assert (Hn : 0 <= n < 0 + Z.of_nat 60) by lia. clear H. revert Hk.
  by_cases Hn 0 60%nat ltac:(intros Hk; group_case Hk).
Qed.

Lemma group_S {A} (n : Z) (rest : list ascii) (k : list ascii -> list ascii -> option A) (a : A) :
  0 <= n <= 59 ->
  k (fmt2 n) rest = Some a ->
  Strptime.group Strptime.re_S (fmt2 n ++ rest) k = Some a.
Proof.
  intros H Hk. assert (Hn : 0 <= n < 0 + Z.of_nat 60) by lia. clear H. revert Hk.
  by_cases Hn 0 60%nat ltac:(intros Hk; group_case Hk).
Qed.

Lemma lit_cons {A} (c : ascii) (s : list ascii) (k : list ascii -> option A) :
  Strptime.lit c (c :: s) k = k s.
Proof. unfold Strptime.lit. rewrite Ascii.eqb_refl. reflexivity. Qed.

Lemma spaces1_blank {A} (n : Z) (rest : list ascii) (k : list ascii -> option A) :
  0 <= n <= 99 ->
  Strptime.spaces1 (" "%char :: fmt2 n ++ rest) k = k (fmt2 n ++ rest).
Proof.
  intros H. unfold fmt2. cbn [Strptime.spaces1 Strptime.spaces app].
  change (Str.is_space " ") with true. cbv iota.
  destruct (digit_spec (n / 10)) as (_ & -> & _); [Z.div_mod_to_equations; lia|].
  reflexivity.
Qed.

(** X12. A date and time that [datetime] admits, written the way EXIF
    writes it (four digits for the year, two for each other field,
    [YYYY:MM:DD HH:MM:SS]), is read back as itself. *)
Theorem strptime_format_round_trip :
  forall (d : datetime),
    valid_datetime d ->
    Strptime.strptime (format_datetime d) = Ok d.
Proof.
  intros [y m dd hh mi ss] (Hy & Hm & Hd & Hh & Hmi & Hs). cbn [dt_year dt_month dt_day dt_hour dt_minute dt_second] in *.
  pose proof (days_in_month_le y m) as Hdm.
  assert (Hre : Strptime.re_match
                  (list_ascii_of_string (format_datetime (mkDatetime y m dd hh mi ss)))
                = Some (Strptime.mkFields y m dd hh mi ss [])).
  { unfold format_datetime. rewrite list_ascii_of_string_of_list_ascii.
    cbn [dt_year dt_month dt_day dt_hour dt_minute dt_second].
    unfold Strptime.re_match.
    apply group_Y; [lia|]. rewrite lit_cons.
    apply group_m; [lia|]. rewrite lit_cons.
    apply group_d; [lia|]. rewrite spaces1_blank by lia.
    apply group_H; [lia|]. rewrite lit_cons.
    apply group_M; [lia|]. rewrite lit_cons.
    apply group_S; [lia|].
    rewrite int_of_fmt4 by lia. rewrite !int_of_fmt2 by lia. reflexivity. }
  unfold Strptime.strptime. rewrite Hre.
  cbn [Strptime.f_rest Strptime.f_Y Strptime.f_m Strptime.f_d Strptime.f_H Strptime.f_M
       Strptime.f_S].
  replace ((1 <=? y) && (y <=? 9999) && (1 <=? m) && (m <=? 12) && (1 <=? dd)
           && (dd <=? Strptime.days_in_month y m) && (hh <=? 23) && (mi <=? 59) && (ss <=? 59))
    with true; [reflexivity|].
  symmetry. repeat (apply andb_true_iff; split); apply Z.leb_le; lia.
Qed.

Lemma strptime_format_round_trip_witness :
  Strptime.strptime "2024:02:29 23:59:07" = Ok (mkDatetime 2024 2 29 23 59 7).
Proof.
  apply (strptime_format_round_trip (mkDatetime 2024 2 29 23 59 7)).
  unfold valid_datetime. vm_compute. intuition discriminate.
Defined.


(** ** The shape of a suffix *)

Lemma rfind_suffix (c : ascii) (s : string) :
  forall i, Str.rfind c s = Some i ->
            (i < String.length s)%nat
            /\ exists x, substring i (String.length s - i) s = String c x
                         /\ Str.rfind c x = None
                         /\ String.length x = (String.length s - i - 1)%nat
                         /\ s = (substring 0 i s ++ String c x)%string.
Proof.
  induction s as [|a s IH]; intros i H; simpl in H; [discriminate|].
  destruct (Str.rfind c s) as [j|] eqn:E.
  - inversion H; subst i. destruct (IH j eq_refl) as (Hlt & x & Hx & Hr & Hl & Hs).
    split; [simpl; lia|]. exists x. cbn [String.length substring Nat.sub].
    split; [exact Hx|]. split; [exact Hr|]. split; [lia|].
    simpl. rewrite <- Hs. reflexivity.
  - destruct (Ascii.eqb a c) eqn:Ea; [|discriminate]. inversion H; subst i.
    apply Ascii.eqb_eq in Ea. subst a.
    split; [simpl; lia|]. exists s. cbn [String.length Nat.sub substring].
    assert (Hsub : forall t, substring 0 (String.length t) t = t)
      by (induction t as [|b t IHt]; simpl; [reflexivity | rewrite IHt; reflexivity]).
    rewrite Hsub. repeat split; [exact E | lia].
Qed.

Lemma rfind_app (c : ascii) (stem x : string) :
  Str.rfind c x = None ->
  Str.rfind c (stem ++ String c x)%string = Some (String.length stem).
Proof.
  intros Hx. induction stem as [|a stem IH]; simpl.
  - rewrite Hx, Ascii.eqb_refl. reflexivity.
  - rewrite IH. reflexivity.
Qed.

Lemma substring_app (stem ext : string) :
  substring (String.length stem) (String.length ext) (stem ++ ext)%string = ext.
Proof.
  induction stem as [|a stem IH]; simpl; [|exact IH].
  induction ext as [|b ext IHe]; simpl; [reflexivity | rewrite IHe; reflexivity].
Qed.

Lemma length_app_string (s t : string) :
  String.length (s ++ t)%string = (String.length s + String.length t)%nat.
Proof. induction s as [|a s IH]; simpl; congruence. Qed.

(** The suffix is empty, or a dot and a non-empty text without dot,
    after a stem that is not empty. *)
Lemma suffix_shape (n : string) :
  suffix_of_name n = ""
  \/ exists stem x, n = (stem ++ String "." x)%string /\ suffix_of_name n = String "." x
                    /\ stem <> "" /\ x <> "" /\ Str.rfind "." x = None.
Proof.
  unfold suffix_of_name. destruct (Str.rfind "." n) as [i|] eqn:E; [|left; reflexivity].
  destruct ((0 <? i)%nat && (i <? String.length n - 1)%nat) eqn:B; [|left; reflexivity].
  right. apply andb_true_iff in B as [B1 B2].
  apply Nat.ltb_lt in B1. apply Nat.ltb_lt in B2.
  destruct (rfind_suffix "." n i E) as (Hlt & x & Hx & Hr & Hl & Hs).
  exists (substring 0 i n), x. split; [exact Hs|]. split; [exact Hx|].
  split; [|split; [|exact Hr]].
  - destruct n as [|a n]; [simpl in Hlt; lia|].
    destruct i as [|i]; [lia|]. simpl. discriminate.
  - intros ->. simpl in Hl. lia.
Qed.

Lemma suffix_of_app (stem x : string) :
  stem <> "" -> x <> "" -> Str.rfind "." x = None ->
  suffix_of_name (stem ++ String "." x)%string = String "." x.
Proof.
  intros Hs Hx Hr. unfold suffix_of_name. rewrite (rfind_app "." stem x Hr).
  rewrite length_app_string.
  assert (H1 : (0 < String.length stem)%nat) by (destruct stem; [congruence | simpl; lia]).
  assert (H2 : (0 < String.length x)%nat) by (destruct x; [congruence | simpl; lia]).
  replace ((0 <? String.length stem)%nat) with true by (symmetry; apply Nat.ltb_lt; exact H1).
  replace ((String.length stem <? String.length stem + String.length (String "." x) - 1)%nat)
    with true by (symmetry; apply Nat.ltb_lt; simpl; lia).
  cbn [andb].
  replace (String.length stem + String.length (String "." x) - String.length stem)%nat
    with (String.length (String "." x)) by lia.
  apply substring_app.
Qed.

Lemma lower_dot_inv (ext x : string) :
  Str.lower ext = String "." x ->
  exists y, ext = String "." y /\ Str.lower y = x.
Proof.
  destruct ext as [|a y]; simpl; [discriminate|]. intros H. injection H as Ha Hy.
  exists y. split; [|exact Hy]. f_equal.
  apply Ascii.eqb_eq. rewrite <- lower_char_dot, Ha. reflexivity.
Qed.

(** X13. A name is taken for a photo exactly when it is a stem that is
    not empty followed by an extension that is [.jpg], [.jpeg] or
    [.heic] up to the case of its letters: a name that is nothing but
    the extension is not, nor one with something after the extension. *)
Theorem photo_name_shape :
  forall (n : string),
    is_photo_name n = true
    <-> exists stem ext, n = (stem ++ ext)%string /\ stem <> ""
                         /\ In (Str.lower ext) [".jpg"; ".jpeg"; ".heic"].
Proof.
  intros n. unfold is_photo_name, default_extensions. rewrite mem_In. split.
  - intros H. destruct (suffix_shape n) as [E | (stem & x & Hn & E & Hs & _)].
    + rewrite E in H. simpl in H. intuition discriminate.
    + exists stem, (String "." x). split; [exact Hn|]. split; [exact Hs|].
      rewrite <- E. exact H.
  - intros (stem & ext & -> & Hs & H).
    assert (Hext : exists y, ext = String "." y /\ y <> "" /\ Str.rfind "." y = None).
    { simpl in H. destruct H as [H|[H|[H|[]]]]; symmetry in H;
        apply lower_dot_inv in H as (y & -> & Hy); exists y; (split; [reflexivity|]);
        (split; [intros ->; discriminate|]);
        rewrite <- rfind_lower, Hy; reflexivity. }
    destruct Hext as (y & -> & Hy & Hr).
    rewrite (suffix_of_app stem y Hs Hy Hr). exact H.
Qed.

(** ** The extensions that can be asked for *)

Lemma has_upper_lower (s : string) : has_upper (Str.lower s) = false.
Proof.
  unfold has_upper. induction s as [|a s IH]; [reflexivity|].
  cbn [Str.lower list_ascii_of_string existsb]. rewrite IH, orb_false_r.
  destruct a as [[] [] [] [] [] [] [] []]; reflexivity.
Qed.

Lemma usable_lower_suffix (n : string) :
  usable_extension (Str.lower (suffix_of_name n)) = true.
Proof.
  destruct (suffix_shape n) as [-> | (stem & x & _ & -> & _ & Hx & Hr)]; [reflexivity|].
  cbn [Str.lower usable_extension]. change (Str.lower_char ".") with "."%char.
  rewrite Ascii.eqb_refl, rfind_lower, Hr, has_upper_lower.
  destruct x; [congruence | reflexivity].
Qed.

Lemma mem_filter (f : string -> bool) (x : string) (l : list string) :
  f x = true -> Str.mem x (filter f l) = Str.mem x l.
Proof.
  intros Hx. unfold Str.mem. induction l as [|e l IH]; [reflexivity|].
  cbn [filter existsb]. destruct (f e) eqn:Fe.
  - cbn [existsb]. rewrite IH. reflexivity.
  - rewrite IH. destruct (String.eqb x e) eqn:E; [|reflexivity].
    apply String.eqb_eq in E. congruence.
Qed.

(** X14. Discovery lowers the suffix of each entry but not the
    extensions it is given.  So the only extensions that can find
    anything are the empty one and a dot followed by dot-free text
    without upper-case ASCII letters: taking the other extensions out
    of the list changes nothing, and every path found has an extension
    of the list of that kind as its suffix in lower case. *)
Theorem get_photos_usable_extensions :
  forall (w : world) (dir : path) (exts : list string),
    get_photos_from_path w dir exts
    = get_photos_from_path w dir (filter usable_extension exts)
    /\ forall photos p,
         snd (get_photos_from_path w dir exts) = Ok (Some photos) -> In p photos ->
         exists e, In e exts /\ usable_extension e = true /\ Str.lower (suffix p) = e.
Proof.
  intros w dir exts.
  assert (Hf : forall names,
             filter (fun p => Str.mem (Str.lower (suffix [p])) exts) names
             = filter (fun p => Str.mem (Str.lower (suffix [p])) (filter usable_extension exts))
                      names).
  { intros names. apply filter_ext. intros n. rewrite suffix_single.
    symmetry. apply mem_filter, usable_lower_suffix. }
  split.
  - unfold get_photos_from_path. destruct (negb (path_exists w dir)); [reflexivity|].
    destruct (listdir w dir) as [l [names|e]]; [|reflexivity].
    rewrite !bind_ok. rewrite Hf. reflexivity.
  - intros photos p H Hp.
    destruct (get_photos_from_path w dir exts) as [l r] eqn:E. cbn [snd] in H. subst r.
    apply get_photos_ok_dir in E as (es & _ & ->).
    apply in_map_iff in Hp as (n & <- & Hn). apply filter_In in Hn as [_ Hn].
    unfold suffix. rewrite name_joinpath.
    exists (Str.lower (suffix_of_name n)).
    split; [apply mem_In; exact Hn|]. split; [apply usable_lower_suffix | reflexivity].
Qed.

Lemma get_photos_usable_extensions_witness :
  get_photos_from_path sample_world ["trip"; "assets"] [".JPG"; "jpg"; ".heic"]
  = get_photos_from_path sample_world ["trip"; "assets"] [".heic"]
  /\ exists e, In e [".JPG"; "jpg"; ".heic"] /\ usable_extension e = true
               /\ Str.lower (suffix ["trip"; "assets"; "b.Heic"]) = e.
Proof.
  destruct (get_photos_usable_extensions sample_world ["trip"; "assets"]
              [".JPG"; "jpg"; ".heic"]) as [H1 H2].
  split; [exact H1|].
  apply (H2 [["trip"; "assets"; "b.Heic"]]); [reflexivity | left; reflexivity].
Defined.


(** ** The callbacks *)

Lemma append_assoc_string (a b c : string) : ((a ++ b) ++ c = a ++ (b ++ c))%string.
Proof. induction a as [|x a IH]; simpl; [reflexivity | rewrite IH; reflexivity]. Qed.

Lemma substring_split (s : string) :
  forall i, (i <= String.length s)%nat ->
            s = (substring 0 i s ++ substring i (String.length s - i) s)%string.
Proof.
  induction s as [|a s IH]; intros [|i] H; simpl in *; try reflexivity; try lia.
  - f_equal. clear. induction s as [|b s IH]; simpl; [reflexivity | rewrite <- IH; reflexivity].
  - f_equal. apply IH. lia.
Qed.

Lemma endswith_iff (s p : string) :
  endswith s p = true <-> exists stem, s = (stem ++ p)%string.
Proof.
  unfold endswith. split.
  - intros H. apply andb_true_iff in H as [Hl He].
    apply Nat.leb_le in Hl. apply String.eqb_eq in He.
    exists (substring 0 (String.length s - String.length p) s).
    pose proof (substring_split s (String.length s - String.length p) ltac:(lia)) as Hsp.
    replace (String.length s - (String.length s - String.length p))%nat
      with (String.length p) in Hsp by lia.
    rewrite He in Hsp. exact Hsp.
  - intros [stem ->]. rewrite length_app_string. apply andb_true_iff. split.
    + apply Nat.leb_le. lia.
    + replace (String.length stem + String.length p - String.length p)%nat
        with (String.length stem) by lia.
      rewrite substring_app. apply String.eqb_refl.
Qed.

Lemma app_last_char (a b : string) (x y : ascii) :
  (a ++ String x "" = b ++ String y "")%string -> x = y.
Proof.
  revert b. induction a as [|c a IH]; intros [|d b] H; simpl in H.
  - inversion H. reflexivity.
  - inversion H as [[Hc Hb]]. destruct b; discriminate.
  - inversion H as [[Hc Ha]]. destruct a; discriminate.
  - inversion H as [[Hc Ha]]. exact (IH b Ha).
Qed.

Lemma endswith_jpg (x : string) : endswith (x ++ ".jpg")%string ".heic" = false.
Proof.
  destruct (endswith (x ++ ".jpg")%string ".heic") eqn:E; [|reflexivity].
  apply endswith_iff in E as [stem E].
  change ".jpg" with (".jp" ++ "g")%string in E.
  change ".heic" with (".hei" ++ "c")%string in E.
  rewrite <- !append_assoc_string in E. apply app_last_char in E. discriminate.
Qed.

Lemma startswith_app (s t p : string) :
  startswith s p = true -> startswith (s ++ t)%string p = true.
Proof.
  revert s. induction p as [|a p IH]; intros s H; [destruct (s ++ t)%string; reflexivity|].
  destruct s as [|b s]; simpl in *; [discriminate|].
  apply andb_true_iff in H as [H1 H2]. rewrite H1, (IH s H2). reflexivity.
Qed.

Lemma startswith_heic_app (s : string) :
  s <> "" ->
  startswith (s ++ ".heic")%string ".heic" = true ->
  startswith s ".heic" = true /\ (5 <= String.length s)%nat.
Proof.
  intros Hs H.
  destruct s as [|c1 [|c2 [|c3 [|c4 [|c5 s]]]]]; [congruence| | | | |];
    cbn [append startswith] in H |- *;
    repeat (apply andb_true_iff in H as [? H]);
    repeat match goal with
           | E : Ascii.eqb _ _ = true |- _ => apply Ascii.eqb_eq in E; try discriminate E; subst
           end.
  split; [|simpl; lia].
  destruct s; reflexivity.
Qed.

(** In a name that ends with [.heic], [replace] works on the stem and
    on the ending apart. *)
Lemma replace_from_heic (stem : string) :
  forall k, (k <= String.length stem)%nat ->
            replace_from ".heic" ".jpg" k (stem ++ ".heic")%string
            = (replace_from ".heic" ".jpg" k stem ++ ".jpg")%string.
Proof.
  induction stem as [|c stem IH]; intros k Hk.
  - simpl in Hk. assert (k = O) by lia. subst k. reflexivity.
  - destruct k as [|k].
    + cbn [append replace_from].
      destruct (startswith (String c (stem ++ ".heic")) ".heic") eqn:E.
      * destruct (startswith_heic_app (String c stem) ltac:(discriminate) E) as [E' Hl].
        rewrite E'. simpl in Hl. cbn [String.length Nat.sub].
        rewrite IH by lia. reflexivity.
      * destruct (startswith (String c stem) ".heic") eqn:E'.
        -- apply (startswith_app _ ".heic") in E'. cbn [append] in E'. congruence.
        -- rewrite (IH O) by lia. reflexivity.
    + cbn [append replace_from]. apply IH. simpl in Hk. lia.
Qed.

Lemma filter_first {A} (f : A -> bool) (l : list A) (r : A) (rs : list A) :
  filter f l = r :: rs ->
  exists pre post, l = pre ++ r :: post /\ f r = true /\ Forall (fun x => f x = false) pre.
Proof.
  induction l as [|a l IH]; simpl; [discriminate|].
  destruct (f a) eqn:E.
  - intros H. inversion H; subst. exists [], l. auto.
  - intros H. destruct (IH H) as (pre & post & -> & Hr & Hpre).
    exists (a :: pre), post. auto.
Qed.

Lemma SFeqb_not_nan (x y : float) : SFeqb x y = true -> F64.is_nan x = false /\ F64.is_nan y = false.
Proof.
  unfold SFeqb, SFcompare.
  destruct x as [sx|sx| |sx mx ex], y as [sy|sy| |sy my ey]; try discriminate; auto.
Qed.

Section Viewer_properties.

Variable same_time : datetime -> string -> bool.
Variable get_asset_url : string -> string.

(** X15. After a click, the callback looks at the first point only and
    shows the first row of the frame whose time, latitude and longitude
    are equal to the point's; with no such row, or no point, it raises
    [IndexError].  A NaN is equal to nothing: a click with a NaN
    coordinate raises, and a row with a NaN coordinate is never
    shown. *)
Theorem show_html_img_lookup :
  forall (F : Type) (df : frame daycell) (points : list point) (fig : F),
    (forall url,
        show_html_img same_time get_asset_url df (Some points) fig = Ok url ->
        exists pt rest pre r post,
          points = pt :: rest /\ df = pre ++ r :: post
          /\ same_time (datetime_ r) (hovertext pt) = true
          /\ SFeqb (latitude r) (pt_lat pt) = true
          /\ SFeqb (longitude r) (pt_lon pt) = true
          /\ isnull (latitude r) = false /\ isnull (longitude r) = false
          /\ Forall (fun x => same_time (datetime_ x) (hovertext pt)
                              && SFeqb (latitude x) (pt_lat pt)
                              && SFeqb (longitude x) (pt_lon pt) = false) pre
          /\ url = get_asset_url (if endswith (filename r) ".heic"
                                  then replace (filename r) ".heic" ".jpg"
                                  else filename r))
    /\ (forall e,
           show_html_img same_time get_asset_url df (Some points) fig = Raise e ->
           e = IndexError)
    /\ (forall pt rest,
           points = pt :: rest ->
           F64.is_nan (pt_lat pt) = true \/ F64.is_nan (pt_lon pt) = true ->
           show_html_img same_time get_asset_url df (Some points) fig = Raise IndexError).
Proof.
  intros F df points fig. split; [|split].
  - intros url H. unfold show_html_img in H.
    destruct points as [|pt rest]; [discriminate|].
    destruct (filter _ df) as [|r rs] eqn:E; [discriminate|].
    apply filter_first in E as (pre & post & Hdf & Hr & Hpre).
    apply andb_true_iff in Hr as [Hr H3]. apply andb_true_iff in Hr as [H1 H2].
    exists pt, rest, pre, r, post.
    destruct (SFeqb_not_nan _ _ H2) as [N1 _]. destruct (SFeqb_not_nan _ _ H3) as [N2 _].
    inversion H. repeat split; auto.
  - intros e H. unfold show_html_img in H.
    destruct points as [|pt rest]; [inversion H; reflexivity|].
    destruct (filter _ df) as [|r rs]; inversion H; reflexivity.
  - intros pt rest -> Hnan. unfold show_html_img.
    rewrite (filter_none _ df); [reflexivity|].
    intros r _.
    destruct (SFeqb (latitude r) (pt_lat pt)) eqn:E1.
    + destruct (SFeqb (longitude r) (pt_lon pt)) eqn:E2.
      * apply SFeqb_not_nan in E1 as [_ E1]. apply SFeqb_not_nan in E2 as [_ E2].
        destruct Hnan; congruence.
      * apply andb_false_r.
    + rewrite andb_false_r. reflexivity.
Qed.

(** X16. The asset the callback asks for never ends with [.heic].  A
    name with that ending has every [.heic] in it replaced by [.jpg],
    those of the stem too, not the ending alone; any other name is
    asked for as it is, one ending with [.HEIC] in upper case
    included. *)
Theorem show_html_img_asset_name :
  forall (F : Type) (df : frame daycell) (clickData : option (list point)) (fig : F)
         (pt : point) (rest : list point),
    clickData = Some (pt :: rest) ->
    forall url,
      show_html_img same_time get_asset_url df clickData fig = Ok url ->
      exists r asset,
        In r df /\ url = get_asset_url asset
        /\ endswith asset ".heic" = false
        /\ (endswith (filename r) ".heic" = false -> asset = filename r)
        /\ (forall stem, filename r = (stem ++ ".heic")%string ->
                         asset = (replace stem ".heic" ".jpg" ++ ".jpg")%string).
Proof.
  intros F df clickData fig pt rest -> url H. unfold show_html_img in H.
  destruct (filter _ df) as [|r rs] eqn:E; [discriminate|].
  assert (Hin : In r df).
  { assert (Hr : In r (r :: rs)) by (left; reflexivity).
    rewrite <- E in Hr. apply filter_In in Hr as [Hr _]. exact Hr. }
  inversion H as [Hu]. clear H Hu.
  destruct (endswith (filename r) ".heic") eqn:En.
  - pose proof En as Hs. apply endswith_iff in Hs as [stem Hs].
    exists r, (replace stem ".heic" ".jpg" ++ ".jpg")%string.
    split; [exact Hin|]. split.
    + rewrite Hs. unfold replace. rewrite replace_from_heic by lia. reflexivity.
    + split; [apply endswith_jpg|]. split; [intros Hf; congruence|].
      intros stem' Hs'. rewrite Hs in Hs'.
      assert (stem = stem').
      { clear -Hs'. revert stem' Hs'.
        induction stem as [|a stem IH]; intros [|b stem'] H; simpl in H.
        - reflexivity.
        - exfalso. assert (L := f_equal String.length H). simpl in L.
          rewrite length_app_string in L. simpl in L. lia.
        - exfalso. assert (L := f_equal String.length H). simpl in L.
          rewrite length_app_string in L. simpl in L. lia.
        - inversion H. f_equal. apply IH. assumption. }
      subst stem'. reflexivity.
  - exists r, (filename r). split; [exact Hin|]. split; [reflexivity|].
    split; [exact En|]. split; [intros _; reflexivity|].
    intros stem Hs. exfalso.
    assert (endswith (filename r) ".heic" = true) by (apply endswith_iff; exists stem; exact Hs).
    congruence.
Qed.

End Viewer_properties.

Lemma show_html_img_lookup_witness :
  show_html_img (fun _ _ => true) (fun s => s) [one_photo_row]
                (Some [mkPoint "2023-07-15T10:20:30" F64.nan (F64.of_Z 20)]) tt
  = Raise IndexError
  /\ exists r, In r [one_photo_row] /\ isnull (latitude r) = false
               /\ SFeqb (longitude r) (F64.of_Z 20) = true.
Proof.
  split.
  - destruct (show_html_img_lookup (fun _ _ => true) (fun s => s) unit [one_photo_row]
                [mkPoint "2023-07-15T10:20:30" F64.nan (F64.of_Z 20)] tt) as (_ & _ & H).
    apply (H _ _ eq_refl). left. reflexivity.
  - destruct (show_html_img_lookup (fun _ _ => true) (fun s => s) unit [one_photo_row]
                [mkPoint "2023-07-15T10:20:30" (F64.of_bin 21 (-1)) (F64.of_Z 20)] tt)
      as (H & _ & _).
    destruct (H "IMG_1.JPG" eq_refl)
      as (pt & rest & pre & r & post & Hp & Hdf & _ & _ & Hlon & Hn & _).
    exists r. split.
    + rewrite Hdf. apply in_or_app. right. left. reflexivity.
    + split; [exact Hn|]. inversion Hp; subst pt. exact Hlon.
Defined.

Lemma show_html_img_asset_name_witness :
  exists r asset,
    In r [mkRow "a.heic.heic" (mkDatetime 2023 7 15 10 20 30) (F64.of_Z 10) (F64.of_Z 20)
                (DayStr "1")]
    /\ "a.jpg.jpg" = asset
    /\ endswith asset ".heic" = false
    /\ (endswith (filename r) ".heic" = false -> asset = filename r)
    /\ (forall stem, filename r = (stem ++ ".heic")%string ->
                     asset = (replace stem ".heic" ".jpg" ++ ".jpg")%string).
Proof.
  apply (show_html_img_asset_name (fun _ _ => true) (fun s => s) unit
           [mkRow "a.heic.heic" (mkDatetime 2023 7 15 10 20 30) (F64.of_Z 10) (F64.of_Z 20)
                  (DayStr "1")]
           (Some [mkPoint "2023-07-15T10:20:30" (F64.of_Z 10) (F64.of_Z 20)]) tt
           (mkPoint "2023-07-15T10:20:30" (F64.of_Z 10) (F64.of_Z 20)) []);
    reflexivity.
Defined.

Lemma regions_get_options (r : string) :
  (exists g, regions_get regions r = Some g) <-> In r (map snd dropdown_options).
Proof.
  unfold regions, dropdown_options. cbn [regions_get map snd]. split.
  - intros [g H].
    repeat match type of H with
           | (if String.eqb ?k r then _ else _) = _ =>
               destruct (String.eqb k r) eqn:E;
               [apply String.eqb_eq in E; subst r; simpl; tauto | clear E]
           end.
    discriminate.
  - intros H. simpl in H.
    repeat (destruct H as [<-|H]; [eexists; reflexivity|]). destruct H.
Qed.

(** X17. The dropdown callback raises [KeyError] exactly when the
    value it is given is not the value of one of the nine options of
    the dropdown, the cleared dropdown ([None]) included; the value the
    dropdown starts with is one of them.  On an option it returns the
    figure with the centre and the zoom of that region, whatever centre
    and zoom the figure had, and the rest of the figure as it was. *)
Theorem center_map_region_spec :
  forall (T : Type) (fig : figure T) (region : option string),
    (center_map_region fig region = Raise KeyError
     <-> ~ exists r, region = Some r /\ In r (map snd dropdown_options))
    /\ (forall r, region = Some r -> In r (map snd dropdown_options) ->
          exists g, regions_get regions r = Some g
                    /\ forall c z,
                         center_map_region (mkFigure (fig_rest fig) c z) region
                         = Ok (mkFigure (fig_rest fig) (Some (r_lat g, r_lon g)) (r_zoom g)))
    /\ In dropdown_value (map snd dropdown_options)
    /\ List.length dropdown_options = 9%nat.
Proof.
  intros T fig region. split; [|split; [|split]].
  - unfold center_map_region. destruct region as [r|].
    + destruct (regions_get regions r) as [g|] eqn:E.
      * split; [discriminate|]. intros H. exfalso. apply H. exists r. split; [reflexivity|].
        apply regions_get_options. exists g. exact E.
      * split; [|reflexivity]. intros _ (r' & Hr & Hin). inversion Hr; subst r'.
        apply regions_get_options in Hin as [g Hg]. congruence.
    + split; [|reflexivity]. intros _ (r & Hr & _). discriminate.
  - intros r -> Hin. apply regions_get_options in Hin as [g Hg]. exists g.
    split; [exact Hg|]. intros c z. unfold center_map_region. rewrite Hg. reflexivity.
  - simpl. tauto.
  - reflexivity.
Qed.

Lemma center_map_region_spec_witness :
  exists g, regions_get regions "rome" = Some g
            /\ forall c z,
                 center_map_region (mkFigure tt c z) (Some "rome")
                 = Ok (mkFigure tt (Some (r_lat g, r_lon g)) (r_zoom g)).
Proof.
  destruct (center_map_region_spec unit (mkFigure tt None (NInt 1)) (Some "rome"))
    as (_ & H & _).
  apply (H "rome" eq_refl). simpl. tauto.
Defined.


(** ** What one photo comes to *)

(** A conversion that returns has printed nothing. *)
Lemma convert_ok_silent (coords ref : value) (l : list event) (y : float) :
  convert_coords_to_decimal coords ref = (l, Ok y) -> l = [].
Proof.
  unfold convert_coords_to_decimal. intros H.
  apply bind_ok_inv in H as (l0 & u & ? & Hu & H & ->).
  apply lift_ok_inv in Hu as [_ ->].
  apply bind_ok_inv in H as (l1 & mul & ? & Hmul & H & ->).
  apply bind_ok_inv in H as (l2 & items & ? & Hit & H & ->).
  apply lift_ok_inv in Hit as [_ ->].
  apply bind_ok_inv in H as (l3 & cs & ? & Hcs & H & ->).
  pose proof (mapM_lift_silent py_float items) as Hs. rewrite Hcs in Hs. cbn [fst] in Hs.
  subst l3.
  apply bind_ok_inv in H as (l4 & m & ? & Hm & H & ->).
  apply lift_ok_inv in Hm as [Hm ->].
  destruct mul as [m'|]; [|discriminate].
  assert (l1 = []).
  { destruct (py_in u ["W"; "S"]); [inversion Hmul; reflexivity|].
    destruct (py_in u ["E"; "N"]); [inversion Hmul; reflexivity|].
    inversion Hmul. }
  subst l1.
  apply bind_ok_inv in H as (l5 & c0 & ? & H0 & H & ->). apply lift_ok_inv in H0 as [_ ->].
  apply bind_ok_inv in H as (l6 & c1 & ? & H1 & H & ->). apply lift_ok_inv in H1 as [_ ->].
  apply bind_ok_inv in H as (l7 & c2 & ? & H2 & H & ->). apply lift_ok_inv in H2 as [_ ->].
  inversion H. reflexivity.
Qed.

Lemma process_opened (w : world) (p : path) (img : exif) :
  Str.mem (Str.lower (suffix p)) [".jpg"; ".jpeg"; ".heic"] = true ->
  resolve (fs w) p = Some (File (Image img)) ->
  process w p
  = except_KeyError (make_record p (get_labeled_exif img) (get_gps_info img)).
Proof.
  intros Hs Hr. unfold process, get_image, get_exif. rewrite Hs, Hr. simpl negb. cbv iota.
  rewrite bind_ret. reflexivity.
Qed.

(** X18. A photo gives a row exactly when its suffix is accepted, it
    opens as an image, the five tags are there, both coordinates
    convert and the capture time parses; the row is then made of the
    bare file name, the parsed time, the two converted coordinates and
    the day of the month of the time, and nothing is printed for the
    photo. *)
Theorem photo_row_iff :
  forall (w : world) (p : path) (l : list event) (r : row Z),
    process w p = (l, Ok (Some r))
    <-> l = []
        /\ Str.mem (Str.lower (suffix p)) [".jpg"; ".jpeg"; ".heic"] = true
        /\ exists img gps lat latref lon lonref s,
             resolve (fs w) p = Some (File (Image img))
             /\ get_gps_info img = Some gps
             /\ dict_get (KName "GPSLatitude") gps = Some lat
             /\ dict_get (KName "GPSLatitudeRef") gps = Some latref
             /\ convert_coords_to_decimal lat latref = ([], Ok (latitude r))
             /\ dict_get (KName "GPSLongitude") gps = Some lon
             /\ dict_get (KName "GPSLongitudeRef") gps = Some lonref
             /\ convert_coords_to_decimal lon lonref = ([], Ok (longitude r))
             /\ dict_get (KName "DateTime") (get_labeled_exif img) = Some (VStr s)
             /\ Strptime.strptime s = Ok (datetime_ r)
             /\ day r = dt_day (datetime_ r)
             /\ filename r = name p.
Proof.
  intros w p l r. split.
  - intros H. pose proof H as H0.
    apply process_some_inv in H as (Hs & img & Hi & Hm).
    apply get_image_ok_inv in Hi.
    pose proof Hm as Hm0.
    apply make_record_ok_inv in Hm
      as (gps & lat & latref & lon & lonref & s & l1 & l2 & Hg & Hlat & Hlatref & Hc1
          & Hlon & Hlonref & Hc2 & Hdt & Hp & Hd & Hn).
    pose proof (convert_ok_silent _ _ _ _ Hc1). subst l1.
    pose proof (convert_ok_silent _ _ _ _ Hc2). subst l2.
    assert (l = []).
    { unfold make_record, subscript in Hm0. rewrite Hg, Hlat, Hlatref, Hlon, Hlonref, Hdt in Hm0.
      rewrite !bind_ret, Hc1, bind_ok, !bind_ret, Hc2, bind_ok, !bind_ret in Hm0.
      cbn [py_strptime] in Hm0. rewrite Hp, bind_lift_ok in Hm0.
      inversion Hm0. reflexivity. }
    split; [assumption|]. split; [exact Hs|].
    exists img, gps, lat, latref, lon, lonref, s. repeat split; assumption.
  - intros (-> & Hs & img & gps & lat & latref & lon & lonref & s & Hr & Hg & Hlat & Hlatref
            & Hc1 & Hlon & Hlonref & Hc2 & Hdt & Hp & Hd & Hn).
    rewrite (process_opened w p img Hs Hr).
    unfold make_record, subscript. rewrite Hg, Hlat, Hlatref, Hlon, Hlonref, Hdt.
    rewrite !bind_ret, Hc1, bind_ok, !bind_ret, Hc2, bind_ok, !bind_ret.
    cbn [py_strptime]. rewrite Hp, bind_lift_ok.
    destruct r as [fn dt la lo dy]. cbn [latitude longitude datetime_ day filename] in *.
    subst. reflexivity.
Qed.

Lemma subscript_raise_inv (d : dict) (k : string) (l : list event) (e : exn) :
  subscript (Some d) k = (l, Raise e) ->
  l = [] /\ e = KeyError /\ dict_get (KName k) d = None.
Proof.
  unfold subscript. destruct (dict_get (KName k) d); [discriminate|].
  intros H. inversion H. auto.
Qed.

Lemma subscript_some_inv (d : dict) (k : string) (l : list event) (v : value) :
  subscript (Some d) k = (l, Ok v) -> l = [] /\ dict_get (KName k) d = Some v.
Proof.
  unfold subscript. destruct (dict_get (KName k) d); [|discriminate].
  intros H. inversion H. auto.
Qed.

(** The body of the [try] raises [KeyError] for a missing tag only, the
    steps before the lookup having gone through, and in silence. *)
Lemma make_record_KeyError (p : path) (tags gps : dict) (l : list event) :
  make_record p tags (Some gps) = (l, Raise KeyError)
  <-> l = []
      /\ (dict_get (KName "GPSLatitude") gps = None
          \/ dict_get (KName "GPSLatitudeRef") gps = None
          \/ exists lat latref y1,
               dict_get (KName "GPSLatitude") gps = Some lat
               /\ dict_get (KName "GPSLatitudeRef") gps = Some latref
               /\ convert_coords_to_decimal lat latref = ([], Ok y1)
               /\ (dict_get (KName "GPSLongitude") gps = None
                   \/ dict_get (KName "GPSLongitudeRef") gps = None
                   \/ exists lon lonref y2,
                        dict_get (KName "GPSLongitude") gps = Some lon
                        /\ dict_get (KName "GPSLongitudeRef") gps = Some lonref
                        /\ convert_coords_to_decimal lon lonref = ([], Ok y2)
                        /\ dict_get (KName "DateTime") tags = None)).
Proof.
  split.
  - unfold make_record. intros H.
    apply bind_raise_inv in H as [H | (? & lat & ? & Hlat & H & ->)].
    { apply subscript_raise_inv in H as (-> & _ & H). auto. }
    apply subscript_some_inv in Hlat as [-> Hlat].
    apply bind_raise_inv in H as [H | (? & latref & ? & Hlatref & H & ->)].
    { apply subscript_raise_inv in H as (-> & _ & H). auto. }
    apply subscript_some_inv in Hlatref as [-> Hlatref].
    apply bind_raise_inv in H as [H | (l1 & y1 & ? & Hc1 & H & ->)].
    { apply convert_raise_not_KeyError in H. congruence. }
    pose proof (convert_ok_silent _ _ _ _ Hc1). subst l1.
    apply bind_raise_inv in H as [H | (? & lon & ? & Hlon & H & ->)].
    { apply subscript_raise_inv in H as (-> & _ & H).
      split; [reflexivity|]. right. right. exists lat, latref, y1.
      repeat (split; [assumption|]). auto. }
    apply subscript_some_inv in Hlon as [-> Hlon].
    apply bind_raise_inv in H as [H | (? & lonref & ? & Hlonref & H & ->)].
    { apply subscript_raise_inv in H as (-> & _ & H).
      split; [reflexivity|]. right. right. exists lat, latref, y1.
      repeat (split; [assumption|]). auto. }
    apply subscript_some_inv in Hlonref as [-> Hlonref].
    apply bind_raise_inv in H as [H | (l2 & y2 & ? & Hc2 & H & ->)].
    { apply convert_raise_not_KeyError in H. congruence. }
    pose proof (convert_ok_silent _ _ _ _ Hc2). subst l2.
    apply bind_raise_inv in H as [H | (? & dt & ? & Hdt & H & ->)].
    { apply subscript_raise_inv in H as (-> & _ & H).
      split; [reflexivity|]. right. right. exists lat, latref, y1.
      repeat (split; [assumption|]). right. right. exists lon, lonref, y2.
      repeat (split; [assumption|]). assumption. }
    exfalso.
    apply bind_raise_inv in H as [H | (? & d & ? & _ & H & _)]; [|discriminate].
    unfold lift in H. inversion H as [[Hl Hp]].
    destruct dt as [s| | |]; cbn in Hp; try discriminate.
    apply strptime_raise in Hp. discriminate.
  - intros [-> H]. unfold make_record, subscript.
    destruct (dict_get (KName "GPSLatitude") gps) as [lat|] eqn:Elat; [|reflexivity].
    rewrite bind_ret.
    destruct (dict_get (KName "GPSLatitudeRef") gps) as [latref|] eqn:Elatref; [|reflexivity].
    rewrite bind_ret.
    destruct H as [H|[H|(lat' & latref' & y1 & E1 & E2 & Hc1 & H)]]; try discriminate.
    inversion E1; subst lat'. inversion E2; subst latref'.
    rewrite Hc1, bind_ok. cbn [app].
    destruct (dict_get (KName "GPSLongitude") gps) as [lon|] eqn:Elon; [|reflexivity].
    rewrite bind_ret.
    destruct (dict_get (KName "GPSLongitudeRef") gps) as [lonref|] eqn:Elonref; [|reflexivity].
    rewrite bind_ret.
    destruct H as [H|[H|(lon' & lonref' & y2 & E3 & E4 & Hc2 & H)]]; try discriminate.
    inversion E3; subst lon'. inversion E4; subst lonref'.
    rewrite Hc2, bind_ok. cbn [app]. rewrite H. reflexivity.
Qed.

(** X19. A photo is passed over, the loop going on, in two cases only:
    its suffix is refused; or it opens as an image and a tag is
    missing, everything that is looked up and converted before that tag
    having gone through (latitude, its reference, the conversion,
    longitude, its reference, the conversion, the capture time, in this
    order).  Nothing is printed for a photo that is passed over. *)
Theorem photo_skipped_iff :
  forall (w : world) (p : path) (l : list event),
    process w p = (l, Ok None)
    <-> l = []
        /\ (Str.mem (Str.lower (suffix p)) [".jpg"; ".jpeg"; ".heic"] = false
            \/ Str.mem (Str.lower (suffix p)) [".jpg"; ".jpeg"; ".heic"] = true
               /\ exists img gps,
                    resolve (fs w) p = Some (File (Image img))
                    /\ get_gps_info img = Some gps
                    /\ (dict_get (KName "GPSLatitude") gps = None
                        \/ dict_get (KName "GPSLatitudeRef") gps = None
                        \/ exists lat latref y1,
                             dict_get (KName "GPSLatitude") gps = Some lat
                             /\ dict_get (KName "GPSLatitudeRef") gps = Some latref
                             /\ convert_coords_to_decimal lat latref = ([], Ok y1)
                             /\ (dict_get (KName "GPSLongitude") gps = None
                                 \/ dict_get (KName "GPSLongitudeRef") gps = None
                                 \/ exists lon lonref y2,
                                      dict_get (KName "GPSLongitude") gps = Some lon
                                      /\ dict_get (KName "GPSLongitudeRef") gps = Some lonref
                                      /\ convert_coords_to_decimal lon lonref = ([], Ok y2)
                                      /\ dict_get (KName "DateTime") (get_labeled_exif img)
                                         = None))).
Proof.
  intros w p l.
  destruct (Str.mem (Str.lower (suffix p)) [".jpg"; ".jpeg"; ".heic"]) eqn:Hs.
  - destruct (resolve (fs w) p) as [[[img|t|]|es]|] eqn:Hr.
    2-5: (split; [unfold process, get_image; rewrite Hs, Hr; discriminate
                 | intros [_ [H|[_ (img & gps & H & _)]]]; discriminate]).
    rewrite (process_opened w p img Hs Hr), get_gps_info_some.
    remember (map (fun kv => (tag_get GPSTAGS (fst kv), snd kv)) (gps_ifd img)) as gps
      eqn:Egps.
    pose proof (make_record_KeyError p (get_labeled_exif img) gps l) as HK.
    split.
    + intros H. unfold except_KeyError in H.
      destruct (make_record p (get_labeled_exif img) (Some gps)) as [l' [r|e]] eqn:E;
        cbn [fst snd] in H; [discriminate|].
      destruct e; inversion H; subst l'.
      destruct HK as [HK _]. destruct (HK E) as [-> HQ]. split; [reflexivity|]. right.
      split; [reflexivity|]. exists img, gps. split; [reflexivity|].
      split; [rewrite get_gps_info_some, Egps; reflexivity | exact HQ].
    + intros [-> [H|[_ (img' & gps' & Hi & Hg & HQ)]]]; [discriminate|].
      inversion Hi; subst img'. rewrite get_gps_info_some, <- Egps in Hg.
      inversion Hg; subst gps'. unfold except_KeyError.
      destruct HK as [_ HK]. unfold dict in HK. rewrite (HK (conj eq_refl HQ)). reflexivity.
  - unfold process. rewrite Hs. simpl negb. cbv iota. unfold ret. split.
    + intros H. inversion H. auto.
    + intros [-> _]. reflexivity.
Qed.

(** ** Discovery *)

Lemma resolve_joinpath (root : node) (d : path) (n : string) :
  resolve root (joinpath d n)
  = match resolve root d with
    | Some (Dir es) => lookup_entry n es
    | _ => None
    end.
Proof.
  unfold joinpath. revert root. induction d as [|m d IH]; intros root; simpl.
  - destruct root as [c|es]; [reflexivity|].
    destruct (lookup_entry n es); reflexivity.
  - destruct root as [c|es]; [reflexivity|].
    destruct (lookup_entry m es) as [x|]; [apply IH | reflexivity].
Qed.

Lemma lookup_entry_In (n : string) (es : list (string * node)) (x : node) :
  lookup_entry n es = Some x -> In n (map fst es).
Proof.
  induction es as [|[m y] es IH]; simpl; [discriminate|].
  destruct (String.eqb_spec m n) as [->|]; [left; reflexivity | right; auto].
Qed.

(** C9, as the code runs.  For a directory that exists, discovery
    prints nothing and returns, in listing order, the paths [dir/n] of
    the entries [n] of that directory itself whose suffix, in lower
    case, is in the list of extensions as it is given; when no entry
    matches the result is the empty list.  But the entries are not
    asked whether they are files: a sub-directory whose name has a
    matching suffix is returned with the photos, and under the default
    extensions [construct_df] then raises on the list that discovery
    returned, at the latest when it opens that directory as an image.
    And the extensions are compared as they are: an entry whose suffix
    is in the list only up to the case of the extension is not
    returned.  The case of the name of an entry plays no part. *)
Theorem get_photos_from_path_lists_directories :
  forall (w : world) (dir : path) (es : list (string * node)) (exts : list string),
    resolve (fs w) dir = Some (Dir es) ->
    let found :=
      filter (fun n => Str.mem (Str.lower (suffix_of_name n)) exts) (map fst es) in
    get_photos_from_path w dir exts = ([], Ok (Some (map (joinpath dir) found)))
    /\ (forall p, In p (map (joinpath dir) found) <->
                  exists n, p = joinpath dir n /\ In n (map fst es)
                            /\ In (Str.lower (suffix_of_name n)) exts)
    /\ ((forall n, In n (map fst es) -> ~ In (Str.lower (suffix_of_name n)) exts) ->
        get_photos_from_path w dir exts = ([], Ok (Some [])))
    /\ (forall n sub,
          lookup_entry n es = Some (Dir sub) ->
          In (Str.lower (suffix_of_name n)) exts ->
          In (joinpath dir n) (map (joinpath dir) found)
          /\ resolve (fs w) (joinpath dir n) = Some (Dir sub)
          /\ snd (get_image w (joinpath dir n)) = Raise IsADirectoryError
          /\ (is_photo_name n = true ->
              exists e, snd (construct_df w (Some (map (joinpath dir) found))) = Raise e))
    /\ (forall n e,
          In n (map fst es) -> In e exts ->
          Str.lower e = Str.lower (suffix_of_name n) ->
          ~ In (Str.lower (suffix_of_name n)) exts ->
          ~ In (joinpath dir n) (map (joinpath dir) found))
    /\ (forall n, is_photo_name (Str.upper n) = is_photo_name n
                  /\ is_photo_name (Str.lower n) = is_photo_name n).
Proof.
  intros w dir es exts Hdir found.
  assert (Hrun : get_photos_from_path w dir exts = ([], Ok (Some (map (joinpath dir) found)))).
  { unfold get_photos_from_path, path_exists, listdir. rewrite Hdir. simpl negb. cbv iota.
    rewrite bind_ret. reflexivity. }
  assert (Hin : forall p, In p (map (joinpath dir) found) <->
                          exists n, p = joinpath dir n /\ In n (map fst es)
                                    /\ In (Str.lower (suffix_of_name n)) exts).
  { intros p. rewrite in_map_iff. split.
    - intros [n [Hp Hn]]. apply filter_In in Hn as [Hn Hs].
      apply mem_In in Hs.
      exists n. repeat split; [symmetry; exact Hp | exact Hn | exact Hs].
    - intros [n [Hp [Hn Hs]]]. exists n. split; [symmetry; exact Hp|].
      apply mem_In in Hs. apply filter_In. split; assumption. }
  split; [exact Hrun|]. split; [exact Hin|]. split; [|split; [|split]].
  - intros Hnone. rewrite Hrun. subst found.
    rewrite (filter_none _ (map fst es)); [reflexivity|].
    intros n Hn. destruct (Str.mem (Str.lower (suffix_of_name n)) exts) eqn:E;
      [|reflexivity].
    apply mem_In in E. exfalso. exact (Hnone n Hn E).
  - intros n sub Hn Hs.
    assert (Hp : In (joinpath dir n) (map (joinpath dir) found)).
    { apply Hin. exists n. split; [reflexivity|]. split; [|exact Hs].
      exact (lookup_entry_In n es _ Hn). }
    assert (Hr : resolve (fs w) (joinpath dir n) = Some (Dir sub)).
    { rewrite resolve_joinpath, Hdir. exact Hn. }
    split; [exact Hp|]. split; [exact Hr|]. split.
    + unfold get_image. rewrite Hr. reflexivity.
    + intros Hphoto.
      destruct (snd (construct_df w (Some (map (joinpath dir) found)))) as [df|e] eqn:E;
        [|exists e; reflexivity].
      exfalso. apply construct_df_ok_iff in E as [E _].
      rewrite Forall_forall in E. destruct (E _ Hp) as [r Hproc].
      assert (Hsuf : Str.mem (Str.lower (suffix (joinpath dir n))) [".jpg"; ".jpeg"; ".heic"]
                     = true).
      { unfold suffix. rewrite name_joinpath. exact Hphoto. }
      rewrite (process_unreadable w (joinpath dir n) Hsuf) in Hproc.
      * discriminate.
      * intros e. rewrite Hr. discriminate.
  - intros n e _ _ _ Hnot Hp. apply Hin in Hp as (n' & Hj & _ & Hs').
    unfold joinpath in Hj. apply app_inj_tail in Hj as [_ <-]. exact (Hnot Hs').
  - intros n. split; apply is_photo_name_lower; [apply lower_upper | apply lower_lower].
Qed.

Lemma get_photos_from_path_lists_directories_witness :
  (In ["trip"; "assets"; "album.jpg"]
      [["trip"; "assets"; "IMG_1.JPG"]; ["trip"; "assets"; "album.jpg"]]
   /\ resolve (fs album_world) ["trip"; "assets"; "album.jpg"]
      = Some (Dir [("inner.jpg", File (Image sample_exif))])
   /\ snd (get_image album_world ["trip"; "assets"; "album.jpg"]) = Raise IsADirectoryError
   /\ exists e, snd (construct_df album_world
                       (Some [["trip"; "assets"; "IMG_1.JPG"];
                              ["trip"; "assets"; "album.jpg"]])) = Raise e)
  /\ get_photos_from_path album_world ["trip"; "assets"] default_extensions
     = ([], Ok (Some [["trip"; "assets"; "IMG_1.JPG"]; ["trip"; "assets"; "album.jpg"]]))
  /\ get_df album_world = ([], Raise IsADirectoryError)
  /\ ~ In ["trip"; "assets"; "IMG_1.JPG"] []
  /\ get_photos_from_path sample_world ["trip"; "assets"] [".JPG"] = ([], Ok (Some [])).
Proof.
  pose proof (get_photos_from_path_lists_directories album_world ["trip"; "assets"] _
                default_extensions eq_refl) as (Hrun & _ & _ & Hdir & _).
  pose proof (get_photos_from_path_lists_directories sample_world ["trip"; "assets"] _
                [".JPG"] eq_refl) as (Hup & _ & _ & _ & Hcase & _).
  split; [|split; [|split; [|split]]].
  - destruct (Hdir "album.jpg" [("inner.jpg", File (Image sample_exif))] eq_refl)
      as (H1 & H2 & H3 & H4).
    + simpl. tauto.
    + split; [exact H1|]. split; [exact H2|]. split; [exact H3|]. exact (H4 eq_refl).
  - exact Hrun.
  - reflexivity.
  - apply (Hcase "IMG_1.JPG" ".JPG").
    + simpl. tauto.
    + simpl. tauto.
    + reflexivity.
    + simpl. intuition discriminate.
  - exact Hup.
Defined.
